(** * cc2530prog: a shallow embedding of the CC2530 debug-port programmer

    The development follows [cc2530prog.c] function by function.  C integers
    are [Z] with the wrap-around of their width written out, the static
    command table is a list held in the program state (the C code updates it
    through pointers), a pointer into the table is an index, and the GPIO
    backend declared in [gpio.h] is a type class over an abstract hardware
    state, like the allocator behind [malloc].  Code runs in a state monad
    with one extra outcome, [Fault], for the undefined behaviours the C code
    can reach (NULL dereference, reads and writes outside a caller's buffer,
    signed overflow). *)

From Stdlib Require Import ZArith NArith List String Ascii Bool Lia.
From stdpp Require Import base list.
Import ListNotations.
Local Open Scope string_scope.
Local Open Scope Z_scope.

(** ** Machine integers *)

Definition u8 (z : Z) : Z := z mod 256.
Definition u16 (z : Z) : Z := z mod 65536.
Definition u32 (z : Z) : Z := z mod 4294967296.

Definition INT_MIN : Z := -2147483648.
Definition INT_MAX : Z := 2147483647.
Definition in_int (z : Z) : bool := (INT_MIN <=? z) && (z <=? INT_MAX).

(** ** Constants of cc2530prog.c *)

(** C division truncates; [Z.quot] does. *)
Definition DIV_ROUND_UP (n d : Z) : Z := Z.quot (n + d - 1) d.

Definition RST_GPIO : Z := 0.
Definition CCLK_GPIO : Z := 1.
Definition DATA_GPIO : Z := 2.
(** [RST_GPIO_POL] is the prefix operator [!]. *)
Definition RST_GPIO_POL (b : bool) : bool := negb b.

Definition gpios : list Z := [RST_GPIO; CCLK_GPIO; DATA_GPIO].

Definition DEFAULT_TIMEOUT : Z := 1000.

Definition CMD_ERASE : Z := 0x10.
Definition CMD_WR_CFG : Z := 0x18.
Definition CMD_RD_CFG : Z := 0x20.
Definition CMD_GET_PC : Z := 0x28.
Definition CMD_RD_ST : Z := 0x30.
Definition CMD_SET_BRK : Z := 0x38.
Definition CMD_HALT : Z := 0x40.
Definition CMD_RESUME : Z := 0x48.
Definition CMD_DBG_INST : Z := 0x50.
Definition CMD_STEP_INST : Z := 0x58.
Definition CMD_GET_BM : Z := 0x60.
Definition CMD_GET_CHIP : Z := 0x68.
Definition CMD_BURST_WR : Z := 0x80.

Definition CHIP_ERASE_BSY : Z := 0x80.
Definition FCTL_BUSY : Z := 0x80.
Definition CC2530_ID : Z := 0xA5.

Definition ADDR_BUF0 : Z := 0x0000.
Definition ADDR_BUF1 : Z := 0x0400.
Definition ADDR_DMA_DESC : Z := 0x0800.

Definition CH_DBG_TO_BUF0 : Z := 0x02.
Definition CH_DBG_TO_BUF1 : Z := 0x04.
Definition CH_BUF0_TO_FLASH : Z := 0x08.
Definition CH_BUF1_TO_FLASH : Z := 0x10.

Definition PROG_BLOCK_SIZE : Z := 1024.

Definition LOBYTE (w : Z) : Z := u8 w.
Definition HIBYTE (w : Z) : Z := Z.land (Z.shiftr (u16 w) 8) 0xFF.

Definition X_EXT_ADDR_BASE : Z := 0x616A.
Definition DBGDATA : Z := 0x6260.
Definition FCTL : Z := 0x6270.
Definition FADDRL : Z := 0x6271.
Definition FADDRH : Z := 0x6272.
Definition FWDATA : Z := 0x6273.
Definition X_CHIPINFO0 : Z := 0x6276.
Definition X_CHIPINFO1 : Z := 0x6277.
Definition X_MEMCTR : Z := 0x70C7.
Definition X_DMA1CFGH : Z := 0x70D3.
Definition X_DMA1CFGL : Z := 0x70D4.
Definition X_DMAARM : Z := 0x70D6.
Definition X_CLKCONCMD : Z := 0x70C6.
Definition X_CLKCONSTA : Z := 0x709E.

(** [EINVAL] of <errno.h> on Linux. *)
Definition EINVAL : Z := 22.

(** The four DMA descriptors, [const uint8_t dma_desc[32]]. *)
Definition dma_desc : list Z :=
  [ (* Debug Interface -> Buffer 0 (Channel 1) *)
    HIBYTE DBGDATA; LOBYTE DBGDATA;
    HIBYTE ADDR_BUF0; LOBYTE ADDR_BUF0;
    HIBYTE PROG_BLOCK_SIZE; LOBYTE PROG_BLOCK_SIZE;
    31; 0x11;
    (* Debug Interface -> Buffer 1 (Channel 2) *)
    HIBYTE DBGDATA; LOBYTE DBGDATA;
    HIBYTE ADDR_BUF1; LOBYTE ADDR_BUF1;
    HIBYTE PROG_BLOCK_SIZE; LOBYTE PROG_BLOCK_SIZE;
    31; 0x11;
    (* Buffer 0 -> Flash controller (Channel 3) *)
    HIBYTE ADDR_BUF0; LOBYTE ADDR_BUF0;
    HIBYTE FWDATA; LOBYTE FWDATA;
    HIBYTE PROG_BLOCK_SIZE; LOBYTE PROG_BLOCK_SIZE;
    18; 0x42;
    (* Buffer 1 -> Flash controller (Channel 4) *)
    HIBYTE ADDR_BUF1; LOBYTE ADDR_BUF1;
    HIBYTE FWDATA; LOBYTE FWDATA;
    HIBYTE PROG_BLOCK_SIZE; LOBYTE PROG_BLOCK_SIZE;
    18; 0x42 ].

(** ** The command table *)

(** [struct cc2530_cmd]; the fields [name], [id], [in], [out] carry a prefix
    here ([in] is a keyword).  [name] is a [char[32]] holding a NUL-terminated
    string, kept as its characters. *)
Record cc2530_cmd : Type := mk_cmd {
  cmd_name : string;
  cmd_id : Z;
  cmd_in : Z;
  cmd_out : Z
}.

(** The static initialiser of [cc2530_commands]; [.in = -1] is stored in a
    [uint8_t]. *)
Definition cc2530_commands_init : list cc2530_cmd :=
  [ mk_cmd "erase" CMD_ERASE 0 1;
    mk_cmd "write_config" CMD_WR_CFG 1 1;
    mk_cmd "read_config" CMD_RD_CFG 0 1;
    mk_cmd "get_pc" CMD_GET_PC 0 2;
    mk_cmd "read_status" CMD_RD_ST 0 1;
    mk_cmd "halt" CMD_HALT 0 1;
    mk_cmd "resume" CMD_RESUME 0 1;
    mk_cmd "debug_inst" CMD_DBG_INST (u8 (-1)) 1;
    mk_cmd "step_inst" CMD_STEP_INST 0 1;
    mk_cmd "get_bm" CMD_GET_BM 0 1;
    mk_cmd "get_chip_id" CMD_GET_CHIP 0 2;
    mk_cmd "burst_write" CMD_BURST_WR (u8 (-1)) 1 ].

(** ** C strings: [strlen] and [strncmp] of <string.h>

    A [string] stands for the bytes at a [char *]; the C string it holds ends
    before the first NUL character, or at the end of the [string]. *)

Definition NUL : ascii := Ascii.zero.

Definition code (c : ascii) : Z := Z.of_N (N_of_ascii c).

Fixpoint strlen (s : string) : nat :=
  match s with
  | EmptyString => O
  | String c r => if Ascii.eqb c NUL then O else S (strlen r)
  end.

(** The first character of the C string at [s] ([NUL] at its end). *)
Definition head_char (s : string) : ascii :=
  match s with
  | EmptyString => NUL
  | String c _ => c
  end.

Definition tail_str (s : string) : string :=
  match s with
  | EmptyString => EmptyString
  | String _ r => r
  end.

(** [strncmp s1 s2 n]: compare at most [n] characters, stop at a difference
    or at a NUL; the result is the difference of the two characters. *)
Fixpoint strncmp (s1 s2 : string) (n : nat) : Z :=
  match n with
  | O => 0
  | S n' =>
      let c1 := head_char s1 in
      let c2 := head_char s2 in
      if Ascii.eqb c1 c2
      then if Ascii.eqb c1 NUL then 0
           else strncmp (tail_str s1) (tail_str s2) n'
      else code c1 - code c2
  end.

(** The loop of [find_cmd_by_name] from index [i] on, over the rest [tbl] of
    the table; the result is the index of the entry whose address the C
    function returns, [None] for [NULL].  (C keeps [strlen] in an [int]; the
    queries come from [argv] or from string literals, far below 2^31.) *)
Fixpoint find_cmd_from (tbl : list cc2530_cmd) (i : nat) (name : string)
  : option nat :=
  match tbl with
  | [] => None
  | c :: rest =>
      let len := strlen name in
      if strncmp (cmd_name c) name len =? 0 then Some i
      else find_cmd_from rest (S i) name
  end.

(** ** The GPIO backend of gpio.h *)

Inductive gpio_direction : Type :=
| GPIO_DIRECTION_IN
| GPIO_DIRECTION_OUT
| GPIO_DIRECTION_HIGH.

(** The five functions a backend implements, over the state [T] of the
    hardware behind it (the three lines and the chip wired to them).  Each
    returns its [int] status.  [gpio_get_value] also yields the content of
    [*value] after the call: cc2530prog.c never tests the status of a read
    and uses [*value] in any case, and a backend that fails leaves it as it
    was, so what the caller then reads is part of what the backend answers. *)
Class gpio_backend (T : Type) : Type := {
  gpio_export : Z -> T -> Z * T;
  gpio_unexport : Z -> T -> Z * T;
  gpio_set_direction : Z -> gpio_direction -> T -> Z * T;
  gpio_get_value : Z -> T -> (Z * bool) * T;
  gpio_set_value : Z -> bool -> T -> Z * T
}.

(** [malloc] of <stdlib.h>, over the same state [T] of the world outside the
    program: the answer to a request for [n] bytes is [true] for a pointer
    that is not NULL. *)
Class allocator (T : Type) : Type := {
  malloc : Z -> T -> bool * T
}.

(** An allocator that never runs out of memory, and one that has none. *)
Definition plentiful {T : Type} : allocator T := {|
  malloc := fun _ t => (true, t)
|}.

Definition barren {T : Type} : allocator T := {|
  malloc := fun _ t => (false, t)
|}.

(** ** Program state and the monad *)

(** What the program prints, most recent first: the format string and its
    integer arguments ([%s] arguments are left out). *)
Inductive event : Type :=
| Stdout (fmt : string) (args : list Z)
| Stderr (fmt : string) (args : list Z).

(** The globals of cc2530prog.c, the hardware, the console, and [fetched]: the
    indices at which [fwdata] has been read, most recent first.  [fwdata i]
    is the byte at [fwdata[i]].  [stack_byte] is the value an [unsigned char]
    local holds before the program has written it ([result], [res]). *)
Record state (T : Type) : Type := mk_state {
  cc2530_commands : list cc2530_cmd;
  debug_enabled : Z;
  verbose : Z;
  progress : Z;
  flash_ptr : Z;
  fwdata : Z -> Z;
  hw : T;
  console : list event;
  fetched : list Z;
  stack_byte : Z
}.

Arguments mk_state {T}.
Arguments cc2530_commands {T}.
Arguments debug_enabled {T}.
Arguments verbose {T}.
Arguments progress {T}.
Arguments flash_ptr {T}.
Arguments fwdata {T}.
Arguments hw {T}.
Arguments console {T}.
Arguments fetched {T}.
Arguments stack_byte {T}.

Inductive outcome (S A : Type) : Type :=
| Done (a : A) (s : S)
| Fault (s : S).

Arguments Done {S A}.
Arguments Fault {S A}.

Definition final {S A} (o : outcome S A) : S :=
  match o with
  | Done _ s => s
  | Fault s => s
  end.

Definition value {S A} (o : outcome S A) : option A :=
  match o with
  | Done a _ => Some a
  | Fault _ => None
  end.

Definition M (T A : Type) : Type := state T -> outcome (state T) A.

Definition ret {T A} (a : A) : M T A := fun st => Done a st.

Definition bind {T A B} (m : M T A) (k : A -> M T B) : M T B :=
  fun st =>
    match m st with
    | Done a st' => k a st'
    | Fault st' => Fault st'
    end.

Definition fault {T A} : M T A := fun st => Fault st.

Declare Scope prog_scope.
Delimit Scope prog_scope with prog.
Bind Scope prog_scope with M.

Notation "x <- c ;; k" := (bind c (fun x => k))
  (at level 100, c at next level, right associativity) : prog_scope.
Notation "c ;; k" := (bind c (fun _ => k))
  (at level 100, right associativity) : prog_scope.

Local Open Scope prog_scope.

(** C truth of an integer. *)
Definition nonzero (z : Z) : bool := negb (z =? 0).

(** [buf[0]] of a one- or two-byte buffer. *)
Definition byte0 (buf : list Z) : Z := nth 0 buf 0.

(** How a loop body ends: with a [return] of the enclosing function, or by
    falling through with the loop's variables. *)
Inductive flow (R A : Type) : Type :=
| Return (r : R)
| Next (a : A).

Arguments Return {R A}.
Arguments Next {R A}.

(** The [switch] of [cc2530_chip_identify] on the flash-size code; it has no
    [default], so [*flash_size] keeps its value for the other codes. *)
Definition flash_size_switch (code flash_size : Z) : Z :=
  if code =? 1 then 32
  else if code =? 2 then 64
  else if code =? 3 then 128
  else if code =? 4 then 256
  else flash_size.

(** The parsed command line of [main]: what its [getopt] loop leaves in
    [argc], in the globals [verbose] and [progress], and in its locals. *)
Record options : Type := mk_options {
  argc : Z;
  opt_verbose : Z;
  opt_progress : Z;
  do_readback : Z;
  do_list : Z;
  do_identify : Z;
  command : option string
}.

(** What the file system and the allocator answer to [main]: the result of
    [stat], [S_ISREG(buf.st_mode)], [buf.st_size], the results of [open],
    [malloc] (true when not NULL) and [read], and the bytes found at
    [fwdata[i]] once [read] has returned. *)
Record files : Type := mk_files {
  stat_ret : Z;
  st_isreg : bool;
  st_size : Z;
  open_ret : Z;
  malloc_ok : bool;
  read_ret : Z;
  loaded : Z -> Z
}.

(** The exit status a parent process sees for [main]'s return value. *)
Definition exit_status (r : Z) : Z := u8 r.

(** The format string of [usage()], eight adjacent literals in the source. *)
Definition usage_text : string :=
  "Usage: cc2530prog [options]\n"
  ++ "\t-v:     verbose\n"
  ++ "\t-i:     identify device\n"
  ++ "\t-P:     show progress\n"
  ++ "\t-f:     firmware file\n"
  ++ "\t-r:     perform readback\n"
  ++ "\t-c:     single command to send\n"
  ++ "\t-l:     list available commands\n".

(** ** The program *)

Section Program.

Context {T : Type} {backend : gpio_backend T} {heap : allocator T}.

Local Abbreviation state := (state T).
Local Abbreviation M := (M T).

(** *** State access *)

Definition set_commands (v : list cc2530_cmd) (st : state) : state :=
  mk_state v (debug_enabled st) (verbose st) (progress st) (flash_ptr st)
    (fwdata st) (hw st) (console st) (fetched st) (stack_byte st).

Definition set_debug_enabled (v : Z) (st : state) : state :=
  mk_state (cc2530_commands st) v (verbose st) (progress st) (flash_ptr st)
    (fwdata st) (hw st) (console st) (fetched st) (stack_byte st).

Definition set_verbose (v : Z) (st : state) : state :=
  mk_state (cc2530_commands st) (debug_enabled st) v (progress st)
    (flash_ptr st) (fwdata st) (hw st) (console st) (fetched st)
    (stack_byte st).

Definition set_progress (v : Z) (st : state) : state :=
  mk_state (cc2530_commands st) (debug_enabled st) (verbose st) v
    (flash_ptr st) (fwdata st) (hw st) (console st) (fetched st)
    (stack_byte st).

Definition set_flash_ptr (v : Z) (st : state) : state :=
  mk_state (cc2530_commands st) (debug_enabled st) (verbose st) (progress st)
    v (fwdata st) (hw st) (console st) (fetched st) (stack_byte st).

Definition set_fwdata (v : Z -> Z) (st : state) : state :=
  mk_state (cc2530_commands st) (debug_enabled st) (verbose st) (progress st)
    (flash_ptr st) v (hw st) (console st) (fetched st) (stack_byte st).

Definition set_hw (v : T) (st : state) : state :=
  mk_state (cc2530_commands st) (debug_enabled st) (verbose st) (progress st)
    (flash_ptr st) (fwdata st) v (console st) (fetched st) (stack_byte st).

Definition set_console (v : list event) (st : state) : state :=
  mk_state (cc2530_commands st) (debug_enabled st) (verbose st) (progress st)
    (flash_ptr st) (fwdata st) (hw st) v (fetched st) (stack_byte st).

Definition set_fetched (v : list Z) (st : state) : state :=
  mk_state (cc2530_commands st) (debug_enabled st) (verbose st) (progress st)
    (flash_ptr st) (fwdata st) (hw st) (console st) v (stack_byte st).

Definition get {A} (f : state -> A) : M A := fun st => Done (f st) st.
Definition modify (f : state -> state) : M unit := fun st => Done tt (f st).

Definition printf (fmt : string) (args : list Z) : M unit :=
  modify (fun st => set_console (Stdout fmt args :: console st) st).

Definition eprintf (fmt : string) (args : list Z) : M unit :=
  modify (fun st => set_console (Stderr fmt args :: console st) st).

(** Calls into the backend. *)
Definition call {A} (f : T -> A * T) : M A :=
  fun st => let (a, h) := f (hw st) in Done a (set_hw h st).

(** *** Pointers into the command table *)

(** [cmd->field] for reading; a NULL or dangling [cmd] faults. *)
Definition deref (cmd : option nat) : M cc2530_cmd :=
  fun st =>
    match cmd with
    | None => Fault st
    | Some i =>
        match cc2530_commands st !! i with
        | Some c => Done c st
        | None => Fault st
        end
    end.

(** [cmd->in = v]. *)
Definition store_in (cmd : option nat) (v : Z) : M unit :=
  c <- deref cmd;;
  match cmd with
  | None => fault
  | Some i =>
      modify (fun st =>
        set_commands
          (<[i := mk_cmd (cmd_name c) (cmd_id c) (u8 v) (cmd_out c)]>
             (cc2530_commands st)) st)
  end.

Definition find_cmd_by_name (name : string) : M (option nat) :=
  tbl <- get cc2530_commands;;
  ret (find_cmd_from tbl 0 name).

(** *** The firmware cursor *)

Definition init_flash_ptr : M unit := modify (set_flash_ptr 0).

(** [return fwdata[flash_ptr++]] with a [uint16_t flash_ptr]. *)
Definition get_next_flash_byte : M Z :=
  fun st =>
    let p := flash_ptr st in
    Done (fwdata st p)
         (set_fetched (p :: fetched st) (set_flash_ptr (u16 (p + 1)) st)).

(** *** GPIO setup and the debug session *)

(** The loop body of [cc2530_gpio_init] over the rest of [gpios]. *)
Fixpoint gpio_init_loop (pins : list Z) : M Z :=
  match pins with
  | [] => ret 0
  | pin :: rest =>
      r <- call (gpio_export pin);;
      if negb (r =? 0) then
        eprintf "failed to export %d\n" [pin];; ret r
      else
        r <- call (gpio_set_direction pin GPIO_DIRECTION_OUT);;
        if negb (r =? 0) then
          eprintf "failed to set direction on %d\n" [pin];; ret r
        else gpio_init_loop rest
  end.

Definition cc2530_gpio_init : M Z := gpio_init_loop gpios.

Fixpoint gpio_deinit_loop (pins : list Z) : M Z :=
  match pins with
  | [] => ret 0
  | pin :: rest =>
      r <- call (gpio_set_direction pin GPIO_DIRECTION_IN);;
      if negb (r =? 0) then
        eprintf "failed to set direction on %d\n" [pin];; ret r
      else
        r <- call (gpio_unexport pin);;
        if negb (r =? 0) then
          eprintf "failed to unexport %d\n" [pin];; ret r
        else gpio_deinit_loop rest
  end.

Definition cc2530_gpio_deinit : M Z := gpio_deinit_loop gpios.

(** One turn of a loop that sets the clock to [a], then to [b]. *)
Definition clock_pair (a b : bool) : M unit :=
  call (gpio_set_value CCLK_GPIO a);;
  call (gpio_set_value CCLK_GPIO b);;
  ret tt.

Fixpoint repeat_m (n : nat) (m : M unit) : M unit :=
  match n with
  | O => ret tt
  | S n' => m;; repeat_m n' m
  end.

Definition cc2530_enter_debug : M Z :=
  call (gpio_set_value RST_GPIO (RST_GPIO_POL false));;
  repeat_m 2 (clock_pair false true);;
  call (gpio_set_value CCLK_GPIO false);;
  call (gpio_set_value RST_GPIO (RST_GPIO_POL true));;
  modify (set_debug_enabled 1);;
  ret 0.

Definition cc2530_leave_debug : M Z :=
  call (gpio_set_value RST_GPIO (RST_GPIO_POL false));;
  call (gpio_set_value RST_GPIO (RST_GPIO_POL true));;
  ret 0.

(** *** Bit transport *)

(** [send_byte]: the loop [for (i = 7; i >= 0; i--)] with [n = i + 1]. *)
Fixpoint send_bits (byte : Z) (n : nat) : M unit :=
  match n with
  | O => ret tt
  | S i =>
      (if negb (Z.land byte (Z.shiftl 1 (Z.of_nat i)) =? 0)
       then call (gpio_set_value DATA_GPIO true)
       else call (gpio_set_value DATA_GPIO false));;
      call (gpio_set_value CCLK_GPIO true);;
      call (gpio_set_value CCLK_GPIO false);;
      send_bits byte i
  end.

Definition send_byte (byte : Z) : M unit := send_bits byte 8.

(** [read_byte]: the same loop, [byte] is [*byte] so far. *)
Fixpoint read_bits (n : nat) (byte : Z) : M Z :=
  match n with
  | O => ret byte
  | S i =>
      call (gpio_set_value CCLK_GPIO true);;
      rv <- call (gpio_get_value DATA_GPIO);;
      let byte :=
        if snd rv then Z.lor byte (Z.shiftl 1 (Z.of_nat i)) else byte in
      call (gpio_set_value CCLK_GPIO false);;
      read_bits i byte
  end.

Definition read_byte : M Z := read_bits 8 0.

(** *** The command protocol *)

(** [for (bytes = 0; bytes < cmd->in; bytes++) send_byte(params[bytes])],
    [n] bytes still to send from index [i].  [params] is the caller's array,
    [None] for NULL; reading outside it faults. *)
Fixpoint send_params (params : option (list Z)) (i n : nat) : M unit :=
  match n with
  | O => ret tt
  | S n' =>
      match params with
      | None => fault
      | Some ps =>
          match ps !! i with
          | None => fault
          | Some b => send_byte b;; send_params params (S i) n'
          end
      end
  end.

(** The readiness poll
    [while (val && timeout--) { 8 clock pulses; gpio_get_value(DATA, &val); }]
    with [timeout = n] on entry.  It returns [val] and [timeout] as the loop
    leaves them: when [val] is false [timeout] is not touched; when [val] is
    true and [timeout] is 0 the post-decrement still happens and the
    [unsigned int] wraps. *)
Fixpoint wait_ready (n : nat) (val : bool) : M (bool * Z) :=
  if val then
    match n with
    | O => ret (val, u32 (0 - 1))
    | S n' =>
        repeat_m 8 (clock_pair true false);;
        rv <- call (gpio_get_value DATA_GPIO);;
        wait_ready n' (snd rv)
    end
  else ret (val, Z.of_nat n).

(** [for (bytes = 0; bytes < cmd->out; bytes++) read_byte(&answer[bytes])]. *)
Fixpoint read_answer (n : nat) : M (list Z) :=
  match n with
  | O => ret []
  | S n' => b <- read_byte;; rest <- read_answer n';; ret (b :: rest)
  end.

(** [memcpy(outbuf, answer, n)] into the caller's buffer [outbuf]; copying
    past its end faults. *)
Definition memcpy_out (outbuf answer : list Z) : M (list Z) :=
  if (length answer <=? length outbuf)%nat
  then ret (answer ++ drop (length answer) outbuf)%list
  else fault.

(** [cc2530_do_cmd]; the result is the return value and the caller's
    [outbuf] after the call.  [answer] is the result of [malloc]: when it is
    NULL the function gives up before it touches the pins ([perror] is kept
    as a message on stderr, like in [main]); [memset] and [free] change
    nothing the program can see. *)
Definition cc2530_do_cmd (cmd : option nat) (params : option (list Z))
    (outbuf : list Z) : M (Z * list Z) :=
  match cmd with
  | None => eprintf "invalid command\n" [];; ret (-1, outbuf)
  | Some _ =>
      c <- deref cmd;;
      answer <- call (malloc (cmd_out c));;
      if negb answer then
        eprintf "malloc" [];; ret (-1, outbuf)
      else
      r <- call (gpio_set_direction DATA_GPIO GPIO_DIRECTION_OUT);;
      if negb (r =? 0) then
        eprintf "failed to put gpio in output direction\n" [];;
        ret (r, outbuf)
      else
        (if cmd_id c =? CMD_DBG_INST
         then send_byte (Z.lor (cmd_id c) (cmd_in c))
         else send_byte (cmd_id c));;
        send_params params 0 (Z.to_nat (cmd_in c));;
        r <- call (gpio_set_direction DATA_GPIO GPIO_DIRECTION_IN);;
        if negb (r =? 0) then
          eprintf "failed to put back gpio in input direction\n" [];;
          ret (r, outbuf)
        else
          rv <- call (gpio_get_value DATA_GPIO);;
          vt <- wait_ready (Z.to_nat DEFAULT_TIMEOUT) (snd rv);;
          if snd vt =? 0 then
            eprintf "timed out waiting for chip to be ready again\n" [];;
            ret (r, outbuf)
          else
            answer <- read_answer (Z.to_nat (cmd_out c));;
            outbuf' <- memcpy_out outbuf answer;;
            ret (r, outbuf')
  end.

(** *** Burst write *)

(** [for (i = 0; i < PROG_BLOCK_SIZE; i++) send_byte(get_next_flash_byte())]. *)
Fixpoint burst_bytes (n : nat) : M unit :=
  match n with
  | O => ret tt
  | S n' => b <- get_next_flash_byte;; send_byte b;; burst_bytes n'
  end.

Definition cc2530_burst_write : M Z :=
  r <- call (gpio_set_direction DATA_GPIO GPIO_DIRECTION_OUT);;
  if nonzero r then
    eprintf "failed to put gpio in output direction\n" [];; ret r
  else
    send_byte (Z.lor CMD_BURST_WR (HIBYTE PROG_BLOCK_SIZE));;
    send_byte (LOBYTE PROG_BLOCK_SIZE);;
    burst_bytes (Z.to_nat PROG_BLOCK_SIZE);;
    r <- call (gpio_set_direction DATA_GPIO GPIO_DIRECTION_IN);;
    if nonzero r then
      eprintf "failed to put gpio in input direction\n" [];; ret r
    else
      rv <- call (gpio_get_value DATA_GPIO);;
      vt <- wait_ready (Z.to_nat DEFAULT_TIMEOUT) (snd rv);;
      if snd vt =? 0 then
        eprintf "timed out waiting for chip to be ready\n" [];; ret (-1)
      else
        read_byte;; ret 0.

(** *** Chip erase *)

(** [do { ret = cc2530_do_cmd(cmd, NULL, &result); ...; usleep(10); }
    while ((result & CHIP_ERASE_BSY) && timeout--)] with [timeout = n];
    [usleep] changes nothing in the state. *)
Fixpoint erase_wait (cmd : option nat) (n : nat) (result : Z)
  : M (flow Z (Z * Z)) :=
  rr <- cc2530_do_cmd cmd None [result];;
  if nonzero (fst rr) then
    deref cmd;; eprintf "%s: failed to issue: %s\n" [];; ret (Return (fst rr))
  else
    let result := byte0 (snd rr) in
    if nonzero (Z.land result CHIP_ERASE_BSY) then
      match n with
      | O => ret (Next (result, u32 (0 - 1)))
      | S n' => erase_wait cmd n' result
      end
    else ret (Next (result, Z.of_nat n)).

Definition cc2530_chip_erase (cmd : option nat) : M Z :=
  result <- get stack_byte;;
  cmd <- find_cmd_by_name "erase";;
  rr <- cc2530_do_cmd cmd None [result];;
  if nonzero (fst rr) then
    deref cmd;; eprintf "%s: failed to issue: %s\n" [];; ret (fst rr)
  else
    cmd <- find_cmd_by_name "read_status";;
    fl <- erase_wait cmd (Z.to_nat DEFAULT_TIMEOUT) (byte0 (snd rr));;
    match fl with
    | Return r => ret r
    | Next (_, timeout) =>
        if timeout =? 0 then
          eprintf "timeout waiting for the chip to be erased\n" [];; ret (-1)
        else ret 0
    end.

(** *** Memory access through injected instructions *)

Definition cc2530_write_xdata_memory (cmd : option nat) (addr value : Z)
  : M Z :=
  result <- get stack_byte;;
  cmd <- find_cmd_by_name "debug_inst";;
  let instr := [0x90; HIBYTE addr; LOBYTE addr] in
  store_in cmd 3;;
  rr <- cc2530_do_cmd cmd (Some instr) [result];;
  if nonzero (fst rr) then
    deref cmd;; eprintf "%s: failed to issue: %s\n" [];; ret (fst rr)
  else
    let instr := <[1%nat := value]> (<[0%nat := 0x74]> instr) in
    store_in cmd 2;;
    rr <- cc2530_do_cmd cmd (Some instr) (snd rr);;
    if nonzero (fst rr) then
      deref cmd;; eprintf "%s: failed to issue: %s\n" [];; ret (fst rr)
    else
      let instr := <[0%nat := 0xF0]> instr in
      store_in cmd 1;;
      rr <- cc2530_do_cmd cmd (Some instr) (snd rr);;
      if nonzero (fst rr) then
        deref cmd;; eprintf "%s: failed to issue: %s\n" [];; ret (fst rr)
      else ret 0.

(** [result] is the caller's buffer; the return value comes with the buffer
    after the call. *)
Definition cc2530_read_xdata_memory (cmd : option nat) (addr : Z)
    (result : list Z) : M (Z * list Z) :=
  res <- get stack_byte;;
  cmd <- find_cmd_by_name "debug_inst";;
  let instr := [0x90; HIBYTE addr; LOBYTE addr] in
  store_in cmd 3;;
  rr <- cc2530_do_cmd cmd (Some instr) result;;
  if nonzero (fst rr) then
    deref cmd;; eprintf "%s: failed to issue: %s\n" [];; ret (fst rr, snd rr)
  else
    let instr := <[0%nat := 0xE0]> instr in
    store_in cmd 1;;
    rr2 <- cc2530_do_cmd cmd (Some instr) [res];;
    if nonzero (fst rr2) then
      deref cmd;; eprintf "%s: failed to issue: %s\n" [];; ret (fst rr2, snd rr)
    else
      result <- memcpy_out (snd rr) (snd rr2);;
      ret (0, result).

(** The loop of [cc2530_write_xdata_memory_block]: [n] bytes to go from
    index [i]. *)
Fixpoint write_block_loop (cmd : option nat) (values : list Z) (n : nat)
    (i : nat) (instr : list Z) (result : list Z) : M Z :=
  match n with
  | O => ret 0
  | S n' =>
      match values !! i with
      | None => fault
      | Some v =>
          let instr := <[1%nat := v]> (<[0%nat := 0x74]> instr) in
          store_in cmd 2;;
          rr <- cc2530_do_cmd cmd (Some instr) result;;
          if nonzero (fst rr) then
            deref cmd;;
            eprintf "failed to issue: %s at %i\n" [Z.of_nat i];; ret (fst rr)
          else
            let instr := <[0%nat := 0xF0]> instr in
            store_in cmd 1;;
            rr <- cc2530_do_cmd cmd (Some instr) (snd rr);;
            if nonzero (fst rr) then
              deref cmd;;
              eprintf "failed to issue: %s at %i\n" [Z.of_nat i];; ret (fst rr)
            else
              let instr := <[0%nat := 0xA3]> instr in
              store_in cmd 1;;
              rr <- cc2530_do_cmd cmd (Some instr) (snd rr);;
              if nonzero (fst rr) then
                deref cmd;;
                eprintf "failed to issue: %s at %i\n" [Z.of_nat i];;
                ret (fst rr)
              else write_block_loop cmd values n' (S i) instr (snd rr)
      end
  end.

Definition cc2530_write_xdata_memory_block (cmd : option nat) (addr : Z)
    (values : list Z) (num_bytes : Z) : M Z :=
  result <- get stack_byte;;
  cmd <- find_cmd_by_name "debug_inst";;
  let instr := [0x90; HIBYTE addr; LOBYTE addr] in
  store_in cmd 3;;
  rr <- cc2530_do_cmd cmd (Some instr) [result];;
  if nonzero (fst rr) then
    deref cmd;; eprintf "failed to issue: %s\n" [];; ret (fst rr)
  else write_block_loop cmd values (Z.to_nat num_bytes) 0 instr (snd rr).

(** *** Read-back verification *)

(** The inner loop [for (i = 0; i < 32*1024; i++)] of [cc2530_flash_verify],
    [n] turns to go. *)
Fixpoint verify_bytes (cmd : option nat) (bank max_addr : Z) (n : nat)
    (i : Z) (instr : list Z) (result addr : Z)
  : M (flow Z (Z * Z)) :=
  match n with
  | O => ret (Next (result, addr))
  | S n' =>
      if addr =? max_addr then ret (Return addr)
      else
        let instr := <[0%nat := 0xE0]> instr in
        store_in cmd 1;;
        rr <- cc2530_do_cmd cmd (Some instr) [result];;
        if nonzero (fst rr) then
          eprintf "%s: command failed at %i\n" [i];;
          ret (Return (u32 (fst rr)))
        else
          let result := byte0 (snd rr) in
          expected <- get_next_flash_byte;;
          (if negb (result =? expected)
           then printf "[bank%d][%d], result: %02x, expected: %02x\n"
                  [bank; i; result; expected]
           else ret tt);;
          let instr := <[0%nat := 0xA3]> instr in
          store_in cmd 1;;
          rr <- cc2530_do_cmd cmd (Some instr) [result];;
          if nonzero (fst rr) then
            eprintf "%s: command failed at %i\n" [i];;
            ret (Return (u32 (fst rr)))
          else
            verify_bytes cmd bank max_addr n' (i + 1) instr (byte0 (snd rr))
              (u32 (addr + 1))
  end.

(** The outer loop [for (bank = 0; bank < 8; bank++)]. *)
Fixpoint verify_banks (cmd : option nat) (max_addr : Z) (n : nat)
    (bank result addr : Z) : M Z :=
  match n with
  | O => ret addr
  | S n' =>
      v <- get verbose;;
      (if nonzero v then printf "Reading bank: %d\n" [bank] else ret tt);;
      r <- cc2530_write_xdata_memory cmd X_MEMCTR bank;;
      if nonzero r then
        eprintf "%s: failed to write to X_MEMCTR\n" [];; ret (u32 r)
      else
        cmd <- find_cmd_by_name "debug_inst";;
        let instr := [0x90; 0x80; 0x00] in
        store_in cmd 3;;
        rr <- cc2530_do_cmd cmd (Some instr) [result];;
        if nonzero (fst rr) then
          deref cmd;; eprintf "%s: command failed: %s\n" [];;
          ret (u32 (fst rr))
        else
          fl <- verify_bytes cmd bank max_addr (Z.to_nat (32 * 1024)) 0 instr
                  (byte0 (snd rr)) addr;;
          match fl with
          | Return v => ret v
          | Next (result, addr) =>
              verify_banks cmd max_addr n' (bank + 1) result addr
          end
  end.

Definition cc2530_flash_verify (cmd : option nat) (max_addr : Z) : M Z :=
  result <- get stack_byte;;
  verify_banks cmd max_addr 8 0 result 0.

(** *** Flash programming *)

(** [do { ret = cc2530_read_xdata_memory(cmd, FCTL, &result); ...; wait = 1; }
    while ((result & FCTL_BUSY) && timeout--)] for block [i], with
    [timeout = n]; it leaves [result], [timeout] and [wait]. *)
Fixpoint flash_busy_wait (cmd : option nat) (i : Z) (n : nat)
    (result wait : Z) : M (flow Z (Z * Z * Z)) :=
  rr <- cc2530_read_xdata_memory cmd FCTL [result];;
  if nonzero (fst rr) then
    eprintf "%s: failed at %i\n" [i];; ret (Return (u8 (fst rr)))
  else
    let result := byte0 (snd rr) in
    let wait := 1 in
    if nonzero (Z.land result FCTL_BUSY) then
      match n with
      | O => ret (Next (result, u32 (0 - 1), wait))
      | S n' => flash_busy_wait cmd i n' result wait
      end
    else ret (Next (result, Z.of_nat n, wait)).

(** The last loop of [cc2530_program_flash], after the blocks. *)
Fixpoint flash_last_wait (cmd : option nat) (n : nat) (result : Z)
  : M (flow Z (Z * Z)) :=
  rr <- cc2530_read_xdata_memory cmd FCTL [result];;
  if nonzero (fst rr) then
    eprintf "%s: failed\n" [];; ret (Return (u8 (fst rr)))
  else
    let result := byte0 (snd rr) in
    if nonzero (Z.land result FCTL_BUSY) then
      match n with
      | O => ret (Next (result, u32 (0 - 1)))
      | S n' => flash_last_wait cmd n' result
      end
    else ret (Next (result, Z.of_nat n)).

(** [for (i = 0; i < num_buffers; i++)], [n] blocks to go; the loop carries
    [timeout], [max_speed] and [result]. *)
Fixpoint program_blocks (cmd : option nat) (num_buffers : Z) (n : nat)
    (i timeout max_speed result : Z) : M (flow Z (Z * Z * Z)) :=
  match n with
  | O => ret (Next (timeout, max_speed, result))
  | S n' =>
      p <- get progress;;
      (if nonzero p then printf "%d/%d\n" [i; num_buffers - 1] else ret tt);;
      let dbg_arm :=
        if Z.land i 0x0001 =? 0 then CH_DBG_TO_BUF0 else CH_DBG_TO_BUF1 in
      let flash_arm :=
        if Z.land i 0x0001 =? 0 then CH_BUF0_TO_FLASH else CH_BUF1_TO_FLASH in
      r <- cc2530_write_xdata_memory cmd X_DMAARM dbg_arm;;
      if nonzero r then
        eprintf "%s: failed to arm DMA\n" [];; ret (Return (u8 r))
      else
        cc2530_burst_write;;
        let wait := 0 in
        fl <- flash_busy_wait cmd i (Z.to_nat timeout) result wait;;
        match fl with
        | Return v => ret (Return v)
        | Next (result, timeout, wait) =>
            if timeout =? 0 then
              eprintf "%s: timeout at %i\n" [i];; ret (Return (u8 (-1)))
            else
              let max_speed :=
                if (0 <? i) && (wait =? 0) then 0 else max_speed in
              r <- cc2530_write_xdata_memory cmd X_DMAARM flash_arm;;
              if nonzero r then
                eprintf "%s: failed programming current buffer: %d\n" [i];;
                ret (Return (u8 r))
              else
                r <- cc2530_write_xdata_memory cmd FCTL 0x06;;
                if nonzero r then
                  eprintf "%s: failed to set FCTL\n" [];; ret (Return (u8 r))
                else
                  program_blocks cmd num_buffers n' (i + 1) timeout max_speed
                    result
        end
  end.

(** [cc2530_program_flash] returns a [uint8_t]: an [int] status is cut to
    its low byte on the way out. *)
Definition cc2530_program_flash (cmd : option nat) (num_buffers : Z) : M Z :=
  result <- get stack_byte;;
  r <- cc2530_write_xdata_memory_block cmd ADDR_DMA_DESC dma_desc
         (Z.of_nat (length dma_desc));;
  if nonzero r then
    eprintf "%s: failed to write DMA descriptors\n" [];; ret (u8 r)
  else
  r <- cc2530_write_xdata_memory cmd X_DMA1CFGH (HIBYTE ADDR_DMA_DESC);;
  if nonzero r then
    eprintf "%s: failed to set DMA descriptors (part 1)\n" [];; ret (u8 r)
  else
  r <- cc2530_write_xdata_memory cmd X_DMA1CFGL (LOBYTE ADDR_DMA_DESC);;
  if nonzero r then
    eprintf "%s: failed to set DMA descriptors (part 2)\n" [];; ret (u8 r)
  else
  r <- cc2530_write_xdata_memory cmd FADDRH 0;;
  if nonzero r then
    eprintf "%s: failed to set FADDRH\n" [];; ret (u8 r)
  else
  r <- cc2530_write_xdata_memory cmd FADDRL 0;;
  if nonzero r then
    eprintf "%s: failed to set FADDRL\n" [];; ret (u8 r)
  else
  fl <- program_blocks cmd num_buffers (Z.to_nat num_buffers) 0
          DEFAULT_TIMEOUT 1 result;;
  match fl with
  | Return v => ret v
  | Next (_, max_speed, result) =>
      fl <- flash_last_wait cmd (Z.to_nat DEFAULT_TIMEOUT) result;;
      match fl with
      | Return v => ret v
      | Next (_, timeout) =>
          if timeout =? 0 then
            eprintf "%s: timeout programming last buffer\n" [];;
            ret (u8 (-1))
          else ret max_speed
      end
  end.

(** *** Chip identification *)

(** [for (i = 0; i < 7; i++)] reading the extended address, [n] turns to go. *)
Fixpoint read_ext_addr (cmd : option nat) (n : nat) (i : nat)
    (result ext_addr : list Z) : M (flow Z (list Z * list Z)) :=
  match n with
  | O => ret (Next (result, ext_addr))
  | S n' =>
      rr <- cc2530_read_xdata_memory cmd (X_EXT_ADDR_BASE + Z.of_nat i) result;;
      if nonzero (fst rr) then
        eprintf "%s: failed to read X_ETXADDR%d\n" [Z.of_nat i];;
        ret (Return (fst rr))
      else
        read_ext_addr cmd n' (S i) (snd rr)
          (<[i := byte0 (snd rr)]> ext_addr)
  end.

(** [cc2530_chip_identify(cmd, &flash_size)]: the return value and
    [*flash_size] after the call. *)
Definition cc2530_chip_identify (cmd : option nat) (flash_size : Z)
  : M (Z * Z) :=
  let result := [0; 0] in
  let ext_addr := [0; 0; 0; 0; 0; 0; 0; 0] in
  r <- call (gpio_set_direction DATA_GPIO GPIO_DIRECTION_OUT);;
  if nonzero r then
    eprintf "failed to set data gpio direction\n" [];; ret (r, flash_size)
  else
    cmd <- find_cmd_by_name "get_chip_id";;
    rr <- cc2530_do_cmd cmd None result;;
    if nonzero (fst rr) then
      deref cmd;; eprintf "%s: failed to issue: %s\n" [];;
      ret (fst rr, flash_size)
    else
      let result := snd rr in
      if negb (byte0 result =? CC2530_ID) then
        eprintf "unknown Chip ID: %02x\n" [byte0 result];;
        (if (byte0 result =? 0xFF) || (byte0 result =? 0)
         then eprintf ("someone is holding the CLK/DATA lines against us "
                       ++ "make sure no debugger is *connected*\n") []
         else ret tt);;
        ret (- EINVAL, flash_size)
      else
        v <- get verbose;;
        (if nonzero v
         then printf "Texas Instruments CC2530 (ID: 0x%02x, rev 0x%02x)\n"
                [byte0 result; nth 1 result 0]
         else ret tt);;
        fl <- read_ext_addr cmd 7 0 result ext_addr;;
        match fl with
        | Return r => ret (r, flash_size)
        | Next (result, ext_addr) =>
            (if nonzero v
             then printf
                    "Extended addr: %02x:%02x:%02x:%02x:%02x:%02x:%02x:%02x\n"
                    (rev ext_addr)
             else ret tt);;
            rr <- cc2530_read_xdata_memory cmd X_CHIPINFO0 result;;
            if nonzero (fst rr) then
              eprintf "failed to read X_CHIPINFO0 register\n" [];;
              ret (fst rr, flash_size)
            else
              let result := snd rr in
              (if nonzero v then
                 if nonzero (Z.land (byte0 result) 8)
                 then printf "USB available\n" []
                 else printf "USB: not availabe\n" []
               else ret tt);;
              let flash_size :=
                flash_size_switch (Z.shiftr (Z.land (byte0 result) 0x70) 4)
                  flash_size in
              (if nonzero v then printf "Flash size: %d KB\n" [flash_size]
               else ret tt);;
              if negb (in_int (flash_size * 1024)) then fault
              else
                let flash_size := flash_size * 1024 in
                rr <- cc2530_read_xdata_memory cmd X_CHIPINFO1 result;;
                if nonzero (fst rr) then
                  eprintf "failed to read X_CHIPINFO1 register\n" [];;
                  ret (fst rr, flash_size)
                else ret (fst rr, flash_size)
        end.

(** *** The programming run *)

(** [while (retry_cnt--)] around the DMA-enabling [write_config], with
    [retry_cnt = n] on entry; it leaves [cmd] and [result]. *)
Fixpoint enable_dma (n : nat) (cmd : option nat) (result : Z)
  : M (flow Z (option nat * Z)) :=
  match n with
  | O => ret (Next (cmd, result))
  | S n' =>
      cmd <- find_cmd_by_name "write_config";;
      let config := 0x22 in
      rr <- cc2530_do_cmd cmd (Some [config]) [result];;
      if nonzero (fst rr) then
        eprintf "failed to enable DMA\n" [];; ret (Return (fst rr))
      else
        let result := byte0 (snd rr) in
        if negb (result =? config) then
          eprintf "write config failed (retry count: %d)\n" [Z.of_nat n'];;
          cc2530_enter_debug;;
          enable_dma n' cmd result
        else ret (Next (cmd, result))
  end.

(** [do { ret = cc2530_read_xdata_memory(cmd, X_CLKCONSTA, &result); ... }
    while ((result != 0x80) && timeout--)] with [timeout = n]. *)
Fixpoint clock_wait (cmd : option nat) (n : nat) (result : Z)
  : M (flow Z (Z * Z)) :=
  rr <- cc2530_read_xdata_memory cmd X_CLKCONSTA [result];;
  if nonzero (fst rr) then
    eprintf "%s: failed to read X_CLKCONSTA\n" [];; ret (Return (fst rr))
  else
    let result := byte0 (snd rr) in
    if negb (result =? 0x80) then
      match n with
      | O => ret (Next (result, u32 (0 - 1)))
      | S n' => clock_wait cmd n' result
      end
    else ret (Next (result, Z.of_nat n)).

Definition cc2530_do_program (cmd : option nat) (fwsize : Z)
    (do_readback : Z) : M Z :=
  result <- get stack_byte;;
  fl <- enable_dma 3 cmd result;;
  match fl with
  | Return r => ret r
  | Next (cmd, result) =>
      r <- cc2530_write_xdata_memory cmd X_CLKCONCMD 0x80;;
      if nonzero r then
        eprintf "failed to write X_CLKCONCMD\n" [];; ret r
      else
        fl <- clock_wait cmd (Z.to_nat DEFAULT_TIMEOUT) result;;
        match fl with
        | Return r => ret r
        | Next (_, timeout) =>
            if timeout =? 0 then
              eprintf "%s: timeout waiting for CLKCONSTA\n" [];; ret (-1)
            else
              r <- cc2530_chip_erase cmd;;
              if nonzero r then
                eprintf "failed to erase chip\n" [];; ret r
              else
                init_flash_ptr;;
                let blocks := u16 (DIV_ROUND_UP fwsize PROG_BLOCK_SIZE) in
                r <- cc2530_program_flash cmd blocks;;
                v <- get verbose;;
                (if nonzero r && nonzero v
                 then printf "Programmed at maximum speed\n" []
                 else ret tt);;
                if negb (nonzero do_readback) then
                  cc2530_leave_debug;; ret 0
                else
                  init_flash_ptr;;
                  num_bytes_ok <-
                    cc2530_flash_verify cmd (blocks * PROG_BLOCK_SIZE);;
                  (if num_bytes_ok =? blocks * PROG_BLOCK_SIZE
                   then if nonzero v then printf "Verification OK\n" []
                        else ret tt
                   else if nonzero v then printf "Verification failed\n" []
                        else ret tt);;
                  cc2530_leave_debug;; ret 0
        end
  end.

(** *** One-shot commands and the command list *)

Definition cc2530_oneshot_command (cmd : option nat) (command : string)
  : M Z :=
  result <- get stack_byte;;
  cmd <- find_cmd_by_name command;;
  match cmd with
  | None => eprintf "unknown command: %s\n" [];; ret (-1)
  | Some _ =>
      rr <- cc2530_do_cmd cmd None [result];;
      if nonzero (fst rr) then ret (-1)
      else printf "result: %02x\n" [byte0 (snd rr)];; ret 0
  end.

Fixpoint show_commands (tbl : list cc2530_cmd) : M unit :=
  match tbl with
  | [] => ret tt
  | _ :: rest => printf "\t%s\n" [];; show_commands rest
  end.

Definition cc2530_show_command_list : M unit :=
  printf "Supported commands:\n" [];;
  tbl <- get cc2530_commands;;
  show_commands tbl.

(** *** main *)

(** [while (retry_cnt--)] around [cc2530_chip_identify] in [main], with
    [retry_cnt = n] on entry; it leaves [retry_cnt], [ret] and
    [flash_size]. *)
Fixpoint identify_retry (cmd : option nat) (n : nat) (r flash_size : Z)
  : M (Z * Z * Z) :=
  match n with
  | O => ret (u32 (0 - 1), r, flash_size)
  | S n' =>
      rf <- cc2530_chip_identify cmd flash_size;;
      if nonzero (fst rf) then
        eprintf "failed to identify chip\n" [];;
        identify_retry cmd n' (fst rf) (snd rf)
      else ret (Z.of_nat n', fst rf, snd rf)
  end.

(** [fwsize > flash_size] is false. *)
Definition image_fits (fwsize flash_size : Z) : bool :=
  negb (flash_size <? fwsize).

(** The label [out:] of [main]. *)
Definition main_out (r : Z) : M Z :=
  cc2530_leave_debug;;
  cc2530_gpio_deinit;;
  ret r.

(** [usage()] prints its one format string and ends the process with
    [exit(-1)]: the result is what [main] would have returned. *)
Definition usage : M Z :=
  printf usage_text [];; ret (-1).

(** [main] after its [getopt] loop has filled [opts]. *)
Definition main (opts : options) (fs : files) : M Z :=
  let cmd : option nat := None in
  let flash_size := 0 in
  modify (set_verbose (opt_verbose opts));;
  modify (set_progress (opt_progress opts));;
  if argc opts <? 2 then usage
  else
    r <- cc2530_gpio_init;;
    if nonzero r then
      eprintf "failed to initialize GPIOs\n" [];; ret (-1)
    else
      d <- get debug_enabled;;
      (if negb (nonzero d) then cc2530_enter_debug else ret 0);;
      if nonzero (do_identify opts) then
        rf <- cc2530_chip_identify cmd flash_size;;
        (if nonzero (fst rf) then eprintf "failed to identify chip\n" []
         else ret tt);;
        main_out (fst rf)
      else
      match command opts with
      | Some c => cc2530_oneshot_command cmd c;; main_out 0
      | None =>
      if nonzero (do_list opts) then
        cc2530_show_command_list;; main_out 0
      else
      if stat_ret fs <? 0 then
        eprintf "stat" [];; main_out 0
      else
      if negb (st_isreg fs) then
        eprintf "%s is not a regular file\n" [];; main_out 0
      else
        let fwsize := st_size fs in
        rrf <- identify_retry cmd 3 0 flash_size;;
        let retry_cnt := fst (fst rrf) in
        let r := snd (fst rrf) in
        let flash_size := snd rrf in
        if retry_cnt =? 0 then
          eprintf "timeout identifying the chip\n" [];; main_out r
        else
        if negb (image_fits fwsize flash_size) then
          eprintf "firmware file too big: %ld (max: %d)\n"
            [fwsize; flash_size];;
          main_out r
        else
        if open_ret fs =? 0 then
          eprintf "cannot open firmware: %s\n" [];; main_out r
        else
          v <- get verbose;;
          (if nonzero v
           then printf "Using firmware file: %s (%ld bytes)\n" [fwsize]
           else ret tt);;
          if negb (malloc_ok fs) then
            eprintf "malloc" [];; main_out (-1)
          else
            modify (set_fwdata (loaded fs));;
            if read_ret fs <? 0 then
              eprintf "premature end of read\n" [];; main_out r
            else
              rp <- cc2530_do_program cmd fwsize (do_readback opts);;
              if nonzero rp then
                eprintf "failed to program chip\n" [];; main_out (-1)
              else main_out r
      end.

End Program.

(** ** The state [main] starts in *)

(** The static initialisers of the globals; [fwdata] is not read before
    [main] has set it. *)
Definition initial_state {T : Type} (h : T) (junk : Z) : state T :=
  mk_state cc2530_commands_init 0 0 0 0 (fun _ => 0) h [] [] junk.

(** ** A simulated CC2530 behind the three lines

    Used for the concrete runs below.  The chip collects the bits the host
    clocks out while it drives DATA, runs the command when DATA is turned
    into an input, and then drives DATA: low for ready, then one answer bit
    per rising clock edge.  Of the debug commands it knows GET_CHIP_ID,
    WR_CONFIG (echoed) and DEBUG_INSTR with the five 8051 instructions the
    programmer injects; everything else answers 0. *)

Record chip_model : Type := mk_chip_model {
  never_ready : bool;      (* DATA reads high whatever the chip does *)
  chip_id_at : N -> Z;     (* the id GET_CHIP_ID reports at its n-th use *)
  chip_info : Z;           (* the byte in CHIPINFO0 *)
  fctl_at : N -> Z         (* the byte in FCTL at its n-th read *)
}.

Record chip : Type := mk_chip {
  host_drives : bool;      (* DATA is an output of the host *)
  data_level : bool;       (* the level the host put on DATA *)
  sent : list bool;        (* bits clocked in, most recent first *)
  reply : list bool;       (* answer bits still to come *)
  line : bool;             (* the level the chip puts on DATA *)
  dptr : Z;
  acc : Z;
  id_reads : N;
  fctl_reads : N;
  samples : N;             (* calls of gpio_get_value so far *)
  clock_rises : N          (* rising clock edges so far *)
}.

Fixpoint bytes_of_bits (bits : list bool) : list Z :=
  match bits with
  | b7 :: b6 :: b5 :: b4 :: b3 :: b2 :: b1 :: b0 :: rest =>
      fold_left (fun a (b : bool) => 2 * a + (if b then 1 else 0))
        [b7; b6; b5; b4; b3; b2; b1; b0] 0 :: bytes_of_bits rest
  | _ => []
  end.

Definition bits_of_byte (b : Z) : list bool :=
  map (fun i => Z.testbit b i) [7; 6; 5; 4; 3; 2; 1; 0].

(** XDATA as the chip shows it: the chip-info byte, a stable 32 MHz clock, the
    flash-control register; 0 elsewhere. *)
Definition chip_xdata (m : chip_model) (n : N) (addr : Z) : Z :=
  if addr =? X_CHIPINFO0 then chip_info m
  else if addr =? X_CLKCONSTA then 0x80
  else if addr =? FCTL then fctl_at m n
  else 0.

(** One injected instruction: MOV DPTR,#imm16; MOV A,#imm8; MOVX A,@DPTR;
    MOVX @DPTR,A (the write is dropped); INC DPTR. *)
Definition chip_instr (m : chip_model) (instr : list Z) (t : chip) : chip :=
  match instr with
  | [0x90; hi; lo] =>
      mk_chip (host_drives t) (data_level t) (sent t) (reply t) (line t)
        (hi * 256 + lo) (acc t) (id_reads t) (fctl_reads t) (samples t)
        (clock_rises t)
  | [0x74; v] =>
      mk_chip (host_drives t) (data_level t) (sent t) (reply t) (line t)
        (dptr t) v (id_reads t) (fctl_reads t) (samples t) (clock_rises t)
  | [0xE0] =>
      mk_chip (host_drives t) (data_level t) (sent t) (reply t) (line t)
        (dptr t) (chip_xdata m (fctl_reads t) (dptr t)) (id_reads t)
        (if dptr t =? FCTL then N.succ (fctl_reads t) else fctl_reads t)
        (samples t) (clock_rises t)
  | [0xA3] =>
      mk_chip (host_drives t) (data_level t) (sent t) (reply t) (line t)
        ((dptr t + 1) mod 65536) (acc t) (id_reads t) (fctl_reads t)
        (samples t) (clock_rises t)
  | _ => t
  end.

(** The command in [bytes]: the answer bytes and the chip afterwards. *)
Definition chip_command (m : chip_model) (bytes : list Z) (t : chip)
  : list Z * chip :=
  match bytes with
  | [] => ([], t)
  | op :: params =>
      if op =? CMD_GET_CHIP then
        ([chip_id_at m (id_reads t); 0x24],
         mk_chip (host_drives t) (data_level t) (sent t) (reply t) (line t)
           (dptr t) (acc t) (N.succ (id_reads t)) (fctl_reads t) (samples t)
           (clock_rises t))
      else if Z.land op 0xF8 =? CMD_DBG_INST then
        let t' := chip_instr m params t in ([acc t'], t')
      else if op =? CMD_WR_CFG then ([nth 0 params 0], t)
      else ([0], t)
  end.

Definition chip_set_direction (m : chip_model) (pin : Z) (d : gpio_direction)
    (t : chip) : Z * chip :=
  if pin =? DATA_GPIO then
    match d with
    | GPIO_DIRECTION_IN =>
        let (answer, t') :=
          chip_command m (bytes_of_bits (rev_append (sent t) [])) t in
        (0, mk_chip false (data_level t') [] (flat_map bits_of_byte answer)
              false (dptr t') (acc t') (id_reads t') (fctl_reads t')
              (samples t') (clock_rises t'))
    | _ =>
        (0, mk_chip true (data_level t) [] (reply t) (line t) (dptr t) (acc t)
              (id_reads t) (fctl_reads t) (samples t) (clock_rises t))
    end
  else (0, t).

Definition chip_set_value (pin : Z) (v : bool) (t : chip) : Z * chip :=
  if pin =? DATA_GPIO then
    (0, mk_chip (host_drives t) v (sent t) (reply t) (line t) (dptr t) (acc t)
          (id_reads t) (fctl_reads t) (samples t) (clock_rises t))
  else if (pin =? CCLK_GPIO) && v then
    if host_drives t then
      (0, mk_chip (host_drives t) (data_level t) (data_level t :: sent t)
            (reply t) (line t) (dptr t) (acc t) (id_reads t) (fctl_reads t)
            (samples t) (N.succ (clock_rises t)))
    else
      (0, mk_chip (host_drives t) (data_level t) (sent t) (tl (reply t))
            (hd true (reply t)) (dptr t) (acc t) (id_reads t) (fctl_reads t)
            (samples t) (N.succ (clock_rises t)))
  else (0, t).

Definition chip_get_value (m : chip_model) (pin : Z) (t : chip)
  : (Z * bool) * chip :=
  ((0, never_ready m || line t),
   mk_chip (host_drives t) (data_level t) (sent t) (reply t) (line t) (dptr t)
     (acc t) (id_reads t) (fctl_reads t) (N.succ (samples t)) (clock_rises t)).

Definition simulated (m : chip_model) : gpio_backend chip := {|
  gpio_export := fun _ t => (0, t);
  gpio_unexport := fun _ t => (0, t);
  gpio_set_direction := chip_set_direction m;
  gpio_get_value := chip_get_value m;
  gpio_set_value := chip_set_value
|}.

(** On the host of the simulated chip [malloc] never fails. *)
#[global] Instance chip_heap : allocator chip := plentiful.

Definition chip_reset : chip := mk_chip true false [] [] false 0 0 0 0 0 0.

(** A chip with the right id, chip-info byte [info], and [fctl n] in the
    flash-control register at its n-th read. *)
Definition healthy (info : Z) (fctl : N -> Z) : chip_model :=
  mk_chip_model false (fun _ => CC2530_ID) info fctl.

(** A programming run without read-back, of an image of 1025 bytes, on a
    chip whose flash controller is never busy. *)
Definition two_block_run : outcome (state chip) Z :=
  cc2530_do_program (backend := simulated (healthy 0x20 (fun _ => 0))) None
    1025 0 (initial_state chip_reset 0).

(** The same with DATA stuck high. *)
Definition stuck_high : chip_model :=
  mk_chip_model true (fun _ => CC2530_ID) 0x20 (fun _ => 0).

(** A chip that answers id 0 to the first [k] identifications. *)
Definition late_id (k : N) : chip_model :=
  mk_chip_model false (fun n => if (n <? k)%N then 0 else CC2530_ID) 0x20
    (fun _ => 0).

(** The command line [cc2530prog -f firmware], and a firmware file of [size]
    bytes that loads without trouble; byte [i] of it is [i mod 251]. *)
Definition just_program : options := mk_options 3 0 0 0 0 0 None.

Definition firmware_file (size : Z) : files :=
  mk_files 0 true size 3 true size (fun i => i mod 251).

(** ** The descriptor layout as documented

    Each DMA descriptor is eight bytes: source address, destination address
    and transfer length as big-endian 16-bit numbers, then the trigger byte
    and the increment/mode byte. *)

Definition be16 (w : Z) : list Z := [w / 256; w mod 256].

Definition descriptor (src dst len trigger mode : Z) : list Z :=
  (be16 src ++ be16 dst ++ be16 len ++ [trigger; mode])%list.

(** Debug port to buffer 0, debug port to buffer 1, buffer 0 to flash,
    buffer 1 to flash; the debug-port channels are triggered by the burst
    write (31) and increment the destination (0x11), the flash channels are
    triggered by the flash controller (18) and increment the source (0x42). *)
Definition documented_dma_table : list Z :=
  (descriptor 0x6260 0x0000 1024 31 0x11
   ++ descriptor 0x6260 0x0400 1024 31 0x11
   ++ descriptor 0x0000 0x6273 1024 18 0x42
   ++ descriptor 0x0400 0x6273 1024 18 0x42)%list.

(** ** A line that is always low

    The cheapest backend: every call succeeds and DATA always reads 0, so the
    target is ready at once and every answer byte is 0.  [malloc] never
    fails there. *)
Definition quiet : gpio_backend unit := {|
  gpio_export := fun _ t => (0, t);
  gpio_unexport := fun _ t => (0, t);
  gpio_set_direction := fun _ _ t => (0, t);
  gpio_get_value := fun _ t => ((0, false), t);
  gpio_set_value := fun _ _ t => (0, t)
|}.

#[global] Instance quiet_heap : allocator unit := plentiful.


(** ** Specifications of runs *)

(** From a state in [P], [m] ends in a state in [Q] with its result, or
    faults in a state in [F]. *)
Definition triple {T A : Type} (P : state T -> Prop) (m : M T A)
    (Q : A -> state T -> Prop) (F : state T -> Prop) : Prop :=
  forall st, P st ->
    match m st with
    | Done a st' => Q a st'
    | Fault st' => F st'
    end.

(** The fault condition of a triple that leaves faults aside. *)
Definition nofault {T : Type} : state T -> Prop := fun _ => True.

(** [m] keeps the invariant [Inv], and its result satisfies [Q]. *)
Definition keeps {T A : Type} (Inv : state T -> Prop) (m : M T A)
    (Q : A -> Prop) : Prop :=
  triple Inv m (fun a st => Inv st /\ Q a) Inv.

(** Switching the direction of a pin never fails. *)
Definition dir_ok {T : Type} (backend : gpio_backend T) : Prop :=
  forall pin d t, fst (gpio_set_direction pin d t) = 0.

(** [malloc] never returns NULL. *)
Definition alloc_ok {T : Type} (heap : allocator T) : Prop :=
  forall n t, fst (malloc n t) = true.

(** A status that is 0, or the -1 of a failed allocation. *)
Definition ok_or_nomem {T : Type} (heap : allocator T) (r : Z) : Prop :=
  r = 0 \/ (r = -1 /\ ~ alloc_ok heap).

(** The number of messages on stderr among the events [c]. *)
Fixpoint errors (c : list event) : nat :=
  match c with
  | [] => O
  | Stderr _ _ :: rest => S (errors rest)
  | Stdout _ _ :: rest => errors rest
  end.

(** What the program may do to a table entry [c0]: nothing to its name,
    opcode and answer length; nothing to its parameter count either, unless
    it is the [debug_inst] entry, whose count becomes 1, 2 or 3. *)
Definition entry_kept (c0 c : cc2530_cmd) : Prop :=
  cmd_name c = cmd_name c0
  /\ cmd_id c = cmd_id c0
  /\ cmd_out c = cmd_out c0
  /\ (cmd_id c0 <> CMD_DBG_INST -> cmd_in c = cmd_in c0)
  /\ (cmd_in c = cmd_in c0 \/ cmd_in c = 1 \/ cmd_in c = 2 \/ cmd_in c = 3).

Definition table_kept (t0 t : list cc2530_cmd) : Prop :=
  Forall2 entry_kept t0 t.

(** The cursor stands at [p] and the fetches so far are [f]. *)
Definition at_cursor {T : Type} (p : Z) (f : list Z) (st : state T) : Prop :=
  flash_ptr st = p /\ fetched st = f.

(** Since the count of messages on stderr stood at [e0] there has been
    another one ([off_track]); if there has been none, the cursor stands at
    [p] and the fetches so far are [f] ([on_track]). *)
Definition off_track {T : Type} (e0 : nat) (st : state T) : Prop :=
  (e0 < errors (console st))%nat.

Definition on_track {T : Type} (e0 : nat) (p : Z) (f : list Z) (st : state T)
  : Prop :=
  (e0 <= errors (console st))%nat
  /\ (errors (console st) = e0 -> at_cursor p f st).

(** The indices of [n] fetches that start with the cursor at [p], first
    fetch first, and the cursor after them. *)
Fixpoint cursor_indices (n : nat) (p : Z) : list Z :=
  match n with
  | O => []
  | S n' => p :: cursor_indices n' (u16 (p + 1))
  end.

Fixpoint cursor_after (n : nat) (p : Z) : Z :=
  match n with
  | O => p
  | S n' => cursor_after n' (u16 (p + 1))
  end.

(** The indices [0, 1, ..., n - 1], each taken modulo 65536. *)
Definition indices_from_0 (n : Z) : list Z :=
  map (fun k => Z.of_nat k mod 65536) (seq 0 (Z.to_nat n)).

(** [n] calls of [get_next_flash_byte], and the byte number [n] (from 0)
    fetched after the cursor was reset. *)
Fixpoint skip_bytes {T : Type} (n : nat) : M T unit :=
  match n with
  | O => ret tt
  | S n' => get_next_flash_byte;; skip_bytes n'
  end.

Definition nth_fetch {T : Type} (n : N) : M T Z :=
  init_flash_ptr;; skip_bytes (N.to_nat n);; get_next_flash_byte.

(** The table of a state is the initial one up to [entry_kept]. *)
Definition table_inv {T : Type} (st : state T) : Prop :=
  table_kept cc2530_commands_init (cc2530_commands st).

(** A [string] without NUL characters: the C string it holds is all of it. *)
Fixpoint nul_free (s : string) : bool :=
  match s with
  | EmptyString => true
  | String c r => negb (Ascii.eqb c NUL) && nul_free r
  end.

(** ** A line with a script

    A backend for statements about what goes over the wire.  Every call
    succeeds, and so does every [malloc].  The levels DATA shows at the next
    samples are given in advance ([w_tape]; the line reads high once the tape
    is used up), and the level the host has put on DATA is recorded at each
    rising clock edge while the host drives the line ([w_sent], most recent
    first). *)

Record wire : Type := mk_wire {
  w_driving : bool;        (* DATA is an output of the host *)
  w_data : bool;           (* the level the host put on DATA *)
  w_sent : list bool;      (* bits clocked out, most recent first *)
  w_tape : list bool;      (* what the next samples of DATA read *)
  w_clocks : N             (* rising clock edges so far *)
}.

Definition wire_set_direction (pin : Z) (d : gpio_direction) (t : wire)
  : Z * wire :=
  if pin =? DATA_GPIO then
    (0, mk_wire (match d with GPIO_DIRECTION_IN => false | _ => true end)
          (w_data t) (w_sent t) (w_tape t) (w_clocks t))
  else (0, t).

Definition wire_set_value (pin : Z) (v : bool) (t : wire) : Z * wire :=
  if pin =? DATA_GPIO then
    (0, mk_wire (w_driving t) v (w_sent t) (w_tape t) (w_clocks t))
  else if (pin =? CCLK_GPIO) && v then
    (0, mk_wire (w_driving t) (w_data t)
          (if w_driving t then w_data t :: w_sent t else w_sent t)
          (w_tape t) (N.succ (w_clocks t)))
  else (0, t).

Definition wire_get_value (pin : Z) (t : wire) : (Z * bool) * wire :=
  ((0, hd true (w_tape t)),
   mk_wire (w_driving t) (w_data t) (w_sent t) (tl (w_tape t)) (w_clocks t)).

Definition wire_backend : gpio_backend wire := {|
  gpio_export := fun _ t => (0, t);
  gpio_unexport := fun _ t => (0, t);
  gpio_set_direction := wire_set_direction;
  gpio_get_value := wire_get_value;
  gpio_set_value := wire_set_value
|}.

#[global] Instance wire_heap : allocator wire := plentiful.

(** A line on which the samples read [tape]. *)
Definition wire_with (tape : list bool) : wire := mk_wire true false [] tape 0.

(** A target that lets DATA go low at the 1000th poll of [cc2530_do_cmd], and
    the command [read_status] sent to it. *)
Definition slow_target : wire := wire_with (repeat true 1000 ++ [false]).

Definition timed_out_run : outcome (state wire) (Z * list Z) :=
  cc2530_do_cmd (backend := wire_backend) (Some 4%nat) None [0]
    (initial_state slow_target 0).

(** An image whose bytes are all 0xFF, on the line that is always low, with
    [verbose] set: the state the runs below start in. *)
Definition ones_on_quiet : state unit :=
  set_fwdata (fun _ => 0xFF) (set_verbose 1 (initial_state tt 0)).

(** The read-back of four bytes, and a programming run with read-back of an
    image of 4 bytes, there. *)
Definition verify_run : outcome (state unit) Z :=
  cc2530_flash_verify (backend := quiet) None 4 ones_on_quiet.

Definition readback_run : outcome (state unit) Z :=
  cc2530_do_program (backend := quiet) None 4 1 ones_on_quiet.

(** The identification on the line that is always low (chip id 0). *)
Definition identify_run : outcome (state unit) (Z * Z) :=
  cc2530_chip_identify (backend := quiet) None 7 (initial_state tt 0).

(** The DMA-enabling loop there: [write_config] is never echoed. *)
Definition enable_dma_run
  : outcome (state unit) (flow Z (option nat * Z)) :=
  enable_dma (backend := quiet) 3 None 0 (initial_state tt 0).

(** [verbose] holds [v]. *)
Definition verbose_is {T : Type} (v : Z) (st : state T) : Prop :=
  verbose st = v.

(** The readiness poll on the chip whose DATA line is stuck high, and the
    programming of one block on the line that is always low. *)
Definition stuck_poll_run : outcome (state chip) (bool * Z) :=
  wait_ready (backend := simulated stuck_high) (Z.to_nat DEFAULT_TIMEOUT) true
    (initial_state chip_reset 0).

Definition one_block_run : outcome (state unit) Z :=
  cc2530_program_flash (backend := quiet) None 1 (initial_state tt 0).

(** Exporting a pin never fails. *)
Definition export_ok {T : Type} (backend : gpio_backend T) : Prop :=
  forall pin t, fst (gpio_export pin t) = 0.

(** [cc2530prog -f firmware] on the line that is always low, and
    [cc2530prog -c reboot] (there is no such command) on the same line. *)
Definition main_quiet_run : outcome (state unit) Z :=
  main (backend := quiet) just_program (firmware_file 1024)
    (initial_state tt 0).

Definition oneshot_reboot : options :=
  mk_options 3 0 0 0 0 0 (Some "reboot").

Definition main_reboot_run : outcome (state unit) Z :=
  main (backend := quiet) oneshot_reboot (firmware_file 0)
    (initial_state tt 0).

(** ** A backend that keeps a log

    Every deterministic backend, seen from the program: what a call returns
    and what a sample reads is a function of the calls made before.  The
    state is the log of the calls, most recent first. *)

Inductive gpio_call : Type :=
| Export (pin : Z)
| Unexport (pin : Z)
| SetDirection (pin : Z) (d : gpio_direction)
| GetValue (pin : Z)
| SetValue (pin : Z) (v : bool).

Record script : Type := mk_script {
  status : list gpio_call -> gpio_call -> Z;   (* the [int] a call returns *)
  level : list gpio_call -> bool               (* [*value] after a sample *)
}.

Definition logged (s : script) : gpio_backend (list gpio_call) := {|
  gpio_export := fun pin log =>
    (status s log (Export pin), Export pin :: log);
  gpio_unexport := fun pin log =>
    (status s log (Unexport pin), Unexport pin :: log);
  gpio_set_direction := fun pin d log =>
    (status s log (SetDirection pin d), SetDirection pin d :: log);
  gpio_get_value := fun pin log =>
    ((status s log (GetValue pin), level s log), GetValue pin :: log);
  gpio_set_value := fun pin v log =>
    (status s log (SetValue pin v), SetValue pin v :: log)
|}.

(** The calls of [cc2530_gpio_init] when none fails, and those of the label
    [out:] of [main] ([cc2530_leave_debug], then [cc2530_gpio_deinit]), in
    the order they are made. *)
Definition setup_calls : list gpio_call :=
  flat_map (fun pin => [Export pin; SetDirection pin GPIO_DIRECTION_OUT])
    gpios.

Definition release_calls : list gpio_call :=
  ([SetValue RST_GPIO true; SetValue RST_GPIO false]
   ++ flat_map (fun pin => [SetDirection pin GPIO_DIRECTION_IN; Unexport pin])
        gpios)%list.

Definition is_setup_call (c : gpio_call) : bool :=
  match c with
  | Export _ | SetDirection _ GPIO_DIRECTION_OUT => true
  | _ => false
  end.

(** A script on which every call succeeds but the export of pin
    [CCLK_GPIO]. *)
Definition no_clock_pin : script :=
  mk_script
    (fun _ c => match c with
                | Export pin => if pin =? CCLK_GPIO then -1 else 0
                | _ => 0
                end)
    (fun _ => false).

(** A script on which every call succeeds and DATA reads low, and
    [cc2530prog -l] there. *)
Definition all_fine : script := mk_script (fun _ _ => 0) (fun _ => false).

Definition list_commands : options := mk_options 2 0 0 0 1 0 None.

Definition main_list_run : outcome (state (list gpio_call)) Z :=
  main (backend := logged all_fine) (heap := plentiful) list_commands
    (firmware_file 0) (initial_state [] 0).

(** The line after the host has clocked out [bits], after [n] answer bits
    have been clocked in, and after [m] turns of the readiness poll (eight
    clock pulses and one sample each). *)
Definition clocked_out (bits : list bool) (t : wire) : wire :=
  mk_wire (w_driving t) (List.last bits (w_data t)) (rev bits ++ w_sent t)%list
    (w_tape t) (w_clocks t + N.of_nat (length bits)).

Definition sampled (n : nat) (t : wire) : wire :=
  mk_wire (w_driving t) (w_data t) (w_sent t) (drop n (w_tape t))
    (w_clocks t + N.of_nat n).

Definition polled (m : nat) (t : wire) : wire :=
  mk_wire (w_driving t) (w_data t) (w_sent t) (drop m (w_tape t))
    (w_clocks t + 8 * N.of_nat m).

(** The first byte [cc2530_do_cmd] sends for the table entry [c]. *)
Definition opcode_byte (c : cc2530_cmd) : Z :=
  if cmd_id c =? CMD_DBG_INST then Z.lor (cmd_id c) (cmd_in c) else cmd_id c.

(** A byte as the C code holds it. *)
Definition is_byte (b : Z) : Prop := 0 <= b < 256.

(** The array behind a [params] pointer ([NULL]: nothing to read). *)
Definition params_bytes (params : option (list Z)) : list Z :=
  match params with
  | Some ps => ps
  | None => []
  end.

(** States on the scripted line for the runs below: an idle line; the byte
    0xA5 sent on it and the line that plays it back; a target that is ready
    at the third sample and answers [get_chip_id] with 0xA5, 0x24; a target
    that is ready at once and answers 0 to three, and to two, commands. *)
Definition idle_wire : state wire := initial_state (wire_with []) 0.

Definition sent_a5_run : outcome (state wire) unit :=
  send_byte (backend := wire_backend) 0xA5 idle_wire.

Definition playback_a5 : state wire :=
  initial_state
    (mk_wire false false [] (rev (w_sent (hw (final sent_a5_run)))) 0) 0.

Definition chip_id_wire : state wire :=
  initial_state
    (wire_with
       (repeat true 2 ++ false :: flat_map bits_of_byte [0xA5; 0x24] ++ []))
    0.

Definition ready_wire : state wire := initial_state (wire_with [false]) 0.

Definition three_answers_wire : state wire :=
  initial_state
    (wire_with
       (repeat true 0 ++ false :: bits_of_byte 0
        ++ repeat true 0 ++ false :: bits_of_byte 0
        ++ repeat true 0 ++ false :: bits_of_byte 0 ++ [])) 0.

Definition two_answers_wire : state wire :=
  initial_state
    (wire_with
       (repeat true 0 ++ false :: bits_of_byte 0
        ++ repeat true 0 ++ false :: bits_of_byte 0x5A ++ [])) 0.







(** ** The option loop of [main]

    [while ((opt = getopt(argc, argv, "f:rlc:ivP")) > 0) switch (opt) ...]
    over the values [getopt] returns, each with [optarg] at that time.
    [firmware] is not kept: what [stat], [open] and [read] answer for it is
    in [files]. *)
Definition getopt_case (o : options) (opt : Z) (optarg : option string)
  : options :=
  if opt =? code "f" then o
  else if opt =? code "r" then
    mk_options (argc o) (opt_verbose o) (opt_progress o) 1 (do_list o)
      (do_identify o) (command o)
  else if opt =? code "l" then
    mk_options (argc o) (opt_verbose o) (opt_progress o) (do_readback o) 1
      (do_identify o) (command o)
  else if opt =? code "c" then
    mk_options (argc o) (opt_verbose o) (opt_progress o) (do_readback o)
      (do_list o) (do_identify o) optarg
  else if opt =? code "i" then
    mk_options (argc o) 1 (opt_progress o) (do_readback o) (do_list o) 1
      (command o)
  else if opt =? code "v" then
    mk_options (argc o) 1 (opt_progress o) (do_readback o) (do_list o)
      (do_identify o) (command o)
  else if opt =? code "P" then
    mk_options (argc o) (opt_verbose o) 1 (do_readback o) (do_list o)
      (do_identify o) (command o)
  else o.

Fixpoint getopt_loop (o : options) (rets : list (Z * option string))
  : options :=
  match rets with
  | [] => o
  | (opt, optarg) :: rest =>
      if 0 <? opt then getopt_loop (getopt_case o opt optarg) rest else o
  end.

(** The locals and globals [main] starts the loop with. *)
Definition main_options (argc : Z) (rets : list (Z * option string))
  : options :=
  getopt_loop (mk_options argc 0 0 0 0 0 None) rets.

(** A flag variable holds 0 or 1. *)
Definition is_flag (z : Z) : Prop := z = 0 \/ z = 1.

(** ** The sysfs backend, gpio-sysfs.c

    The functions of gpio-sysfs.c over the system calls they make.  The
    state is the log of these calls, most recent first; what a call returns
    is a function of the calls made before it ([system]).  A [string] is the
    content of a [char] buffer up to its terminator. *)

Inductive open_flag : Type := O_RDONLY | O_WRONLY.

Inductive syscall : Type :=
| Sys_open (path : string) (flag : open_flag)
| Sys_read (fd count : Z)
| Sys_write (fd : Z) (bytes : string)
| Sys_close (fd : Z)
| Sys_perror (s : string).

Record system : Type := mk_system {
  (* [open]: a descriptor, or -1 *)
  open_result : list syscall -> string -> open_flag -> Z;
  (* [read]: the bytes the file has to offer, [None] for -1 *)
  read_result : list syscall -> Z -> Z -> option string;
  (* [write]: the return value and [errno] *)
  write_result : list syscall -> Z -> string -> Z * Z
}.

(** [EBUSY] of <errno.h> on Linux. *)
Definition EBUSY : Z := 16.

Definition SYSFS_GPIO : string := "/sys/class/gpio".

(** The descriptors a log leaves open: opened with success and not closed
    since. *)
Fixpoint remove_first (fd : Z) (l : list Z) : list Z :=
  match l with
  | [] => []
  | x :: r => if x =? fd then r else x :: remove_first fd r
  end.

Fixpoint open_fds (sys : system) (log : list syscall) : list Z :=
  match log with
  | [] => []
  | Sys_open path flag :: l =>
      let fd := open_result sys l path flag in
      if fd <? 0 then open_fds sys l else fd :: open_fds sys l
  | Sys_close fd :: l => remove_first fd (open_fds sys l)
  | _ :: l => open_fds sys l
  end.

Module Sysfs.

Section Backend.

Variable sys : system.

(** What [snprintf] makes of ["%d"] and an [int]. *)
Variable fmt_d : Z -> string.

(** [snprintf(buf, size, ...)] keeps at most [size - 1] characters of the
    formatted text [s]. *)
Definition snprintf (size : nat) (s : string) : string :=
  substring 0 (size - 1) s.

Definition sys_open (path : string) (flag : open_flag) (log : list syscall)
  : Z * list syscall :=
  (open_result sys log path flag, Sys_open path flag :: log).

(** [read(fd, buf, count)]: at most [count] bytes arrive. *)
Definition sys_read (fd count : Z) (log : list syscall)
  : option string * list syscall :=
  (option_map (substring 0 (Z.to_nat count)) (read_result sys log fd count),
   Sys_read fd count :: log).

(** [write(fd, str, strlen(str))]. *)
Definition sys_write (fd : Z) (str : string) (log : list syscall)
  : (Z * Z) * list syscall :=
  let bytes := substring 0 (strlen str) str in
  (write_result sys log fd bytes, Sys_write fd bytes :: log).

(** [read_file(path, str, size)]: the return value and the buffer [str]
    after the call. *)
Definition read_file (path str : string) (size : Z) (log : list syscall)
  : (Z * string) * list syscall :=
  let (fd, log) := sys_open path O_RDONLY log in
  if fd <? 0 then ((-1, str), Sys_perror path :: log)
  else
    let (r, log) := sys_read fd (size - 1) log in
    match r with
    | None => ((-1, str), Sys_close fd :: Sys_perror "read" :: log)
    | Some bytes => ((0, bytes), Sys_close fd :: log)
    end.

Definition write_file (path str : string) (log : list syscall)
  : Z * list syscall :=
  let (fd, log) := sys_open path O_WRONLY log in
  if fd <? 0 then (-1, Sys_perror path :: log)
  else
    let (re, log) := sys_write fd str log in
    let (ret, errno) := re in
    let (ret, log) :=
      if ret <? 0 then
        if errno =? EBUSY then (0, log) else (ret, Sys_perror "write" :: log)
      else (ret, log) in
    let log := Sys_close fd :: log in
    (if ret <? 0 then -1 else 0, log).

Definition gpio_export (n : Z) : list syscall -> Z * list syscall :=
  let buf := snprintf 16 (fmt_d n) in
  write_file (SYSFS_GPIO ++ "/export")%string buf.

Definition gpio_unexport (n : Z) : list syscall -> Z * list syscall :=
  let buf := snprintf 16 (fmt_d n) in
  write_file (SYSFS_GPIO ++ "/unexport")%string buf.

Definition direction_str (d : gpio_direction) : string :=
  match d with
  | GPIO_DIRECTION_IN => "in"
  | GPIO_DIRECTION_OUT => "out"
  | GPIO_DIRECTION_HIGH => "high"
  end.

Definition gpio_set_direction (n : Z) (direction : gpio_direction)
  : list syscall -> Z * list syscall :=
  let path :=
    snprintf 128 (SYSFS_GPIO ++ "/gpio" ++ fmt_d n ++ "/direction")%string in
  write_file path (direction_str direction).

(** [gpio_get_value(n, &value)] with [value] the content of [*value] before
    the call: the return value and [*value] after it.  The path and the
    data share the buffer [buf]. *)
Definition gpio_get_value (n : Z) (value : bool) (log : list syscall)
  : (Z * bool) * list syscall :=
  let buf :=
    snprintf 128 (SYSFS_GPIO ++ "/gpio" ++ fmt_d n ++ "/value")%string in
  let (rb, log) := read_file buf buf 128 log in
  if fst rb <? 0 then ((-1, value), log)
  else ((0, negb (Ascii.eqb (head_char (snd rb)) "0"%char)), log).

Definition gpio_set_value (n : Z) (value : bool)
  : list syscall -> Z * list syscall :=
  let path :=
    snprintf 128 (SYSFS_GPIO ++ "/gpio" ++ fmt_d n ++ "/value")%string in
  write_file path (if value then "1" else "0").

End Backend.

End Sysfs.

(** * Properties *)

(** ** Rules for [triple] and [keeps] *)

Create HintDb keeps.
Create HintDb cursor.

Section Rules.

Context {T : Type}.

Lemma triple_ret {A} (P : state T -> Prop) (a : A) Q F :
  (forall st, P st -> Q a st) -> triple P (ret a) Q F.
Proof. intros H st HP. simpl. auto. Qed.

Lemma triple_bind {A B} (P : state T -> Prop) (m : M T A) (k : A -> M T B)
    Q R F :
  triple P m Q F -> (forall a, triple (Q a) (k a) R F) ->
  triple P (bind m k) R F.
Proof.
  intros Hm Hk st HP. unfold bind. specialize (Hm st HP).
  destruct (m st) as [a st'|st']; [apply Hk; exact Hm | exact Hm].
Qed.

Lemma triple_weaken {A} (P P' : state T -> Prop) (m : M T A) Q Q' F F' :
  triple P m Q F -> (forall st, P' st -> P st) ->
  (forall a st, Q a st -> Q' a st) -> (forall st, F st -> F' st) ->
  triple P' m Q' F'.
Proof.
  intros Hm HP HQ HF st HP'. specialize (Hm st (HP st HP')).
  destruct (m st); auto.
Qed.

Lemma triple_exists {A X} (P : X -> state T -> Prop) (m : M T A) Q F :
  (forall x, triple (P x) m Q F) ->
  triple (fun st => exists x, P x st) m Q F.
Proof. intros H st [x Hx]. exact (H x st Hx). Qed.

Variable Inv : state T -> Prop.

Lemma keeps_ret {A} (a : A) (Q : A -> Prop) : Q a -> keeps Inv (ret a) Q.
Proof. intros H. apply triple_ret. auto. Qed.

Lemma keeps_bind {A B} (m : M T A) (k : A -> M T B) (Q : A -> Prop)
    (Q' : B -> Prop) :
  keeps Inv m Q -> (forall a, Q a -> keeps Inv (k a) Q') ->
  keeps Inv (bind m k) Q'.
Proof.
  intros Hm Hk st HI. unfold bind. specialize (Hm st HI).
  destruct (m st) as [a st'|st']; [|exact Hm].
  destruct Hm as [HI' HQ]. exact (Hk a HQ st' HI').
Qed.

Lemma keeps_weaken {A} (m : M T A) (Q Q' : A -> Prop) :
  keeps Inv m Q -> (forall a, Q a -> Q' a) -> keeps Inv m Q'.
Proof.
  intros Hm HQ st HI. specialize (Hm st HI).
  destruct (m st); intuition.
Qed.

Lemma keeps_fault {A} (Q : A -> Prop) : keeps Inv (fault : M T A) Q.
Proof. intros st HI. exact HI. Qed.

Lemma keeps_get {A} (f : state T -> A) : keeps Inv (get f) (fun _ => True).
Proof. intros st HI. simpl. auto. Qed.

Lemma keeps_modify (f : state T -> state T) :
  (forall st, Inv st -> Inv (f st)) -> keeps Inv (modify f) (fun _ => True).
Proof. intros H st HI. simpl. auto. Qed.

Lemma keeps_deref (cmd : option nat) :
  keeps Inv (deref cmd) (fun _ => cmd <> None).
Proof.
  intros st HI. unfold deref. destruct cmd as [i|]; [|exact HI].
  destruct (cc2530_commands st !! i); [split; [exact HI|discriminate]|exact HI].
Qed.

Lemma keeps_if {A} (b : bool) (m1 m2 : M T A) (Q : A -> Prop) :
  keeps Inv m1 Q -> keeps Inv m2 Q -> keeps Inv (if b then m1 else m2) Q.
Proof. destruct b; auto. Qed.

Lemma keeps_ret_any {A} (a : A) : keeps Inv (ret a) (fun _ => True).
Proof. apply keeps_ret. exact I. Qed.

Lemma keeps_find (q : string) :
  keeps Inv (find_cmd_by_name q)
    (fun _ => True).
Proof. intros st HI. simpl. auto. Qed.

End Rules.

(** ** Invariants of the command protocol and of the memory access layer

    Valid for every invariant that does not depend on the hardware or on the
    debug flag, that still holds when a message is printed, and that allows
    the [in] field to be set through the pointers in [ptr_ok]. *)

Section Protocol.

Context {T : Type} {backend : gpio_backend T} {heap : allocator T}.

Variable Inv : state T -> Prop.
Variable ptr_ok : option nat -> Prop.

Hypothesis Inv_hw : forall st h, Inv st -> Inv (set_hw h st).
Hypothesis Inv_console :
  forall st e, Inv st -> Inv (set_console (e :: console st) st).
Hypothesis Inv_debug : forall st v, Inv st -> Inv (set_debug_enabled v st).
Hypothesis Inv_find :
  forall st, Inv st ->
    ptr_ok (find_cmd_from (cc2530_commands st) 0 "debug_inst").
Hypothesis Inv_store :
  forall st cmd v, Inv st -> ptr_ok cmd -> v = 1 \/ v = 2 \/ v = 3 ->
    Inv (final (store_in cmd v st)).

Lemma keeps_call {A} (f : T -> A * T) : keeps Inv (call f) (fun _ => True).
Proof.
  intros st HI. unfold call. destruct (f (hw st)) as [a h]. split; auto.
Qed.

Lemma keeps_set_direction (pin : Z) (d : gpio_direction) :
  keeps Inv (call (gpio_set_direction pin d))
    (fun r => dir_ok backend -> r = 0).
Proof.
  intros st HI. unfold call.
  destruct (gpio_set_direction pin d (hw st)) as [r h] eqn:E. split; auto.
  intros Hd. specialize (Hd pin d (hw st)). rewrite E in Hd. exact Hd.
Qed.

(** A NULL from [malloc] shows that the allocator can fail. *)
Lemma keeps_malloc (n : Z) :
  keeps Inv (call (malloc n)) (fun a => a = false -> ~ alloc_ok heap).
Proof.
  intros st HI. unfold call.
  destruct (malloc n (hw st)) as [a h] eqn:E. split; auto.
  intros -> Ha. specialize (Ha n (hw st)). rewrite E in Ha. discriminate Ha.
Qed.

Lemma keeps_printf fmt args : keeps Inv (printf fmt args) (fun _ => True).
Proof. apply keeps_modify. intros st HI. apply Inv_console. exact HI. Qed.

Lemma keeps_eprintf fmt args : keeps Inv (eprintf fmt args) (fun _ => True).
Proof. apply keeps_modify. intros st HI. apply Inv_console. exact HI. Qed.

Lemma keeps_find_debug_inst :
  keeps Inv (find_cmd_by_name "debug_inst") ptr_ok.
Proof. intros st HI. simpl. auto. Qed.

Lemma keeps_store_in (cmd : option nat) (v : Z) :
  ptr_ok cmd -> v = 1 \/ v = 2 \/ v = 3 ->
  keeps Inv (store_in cmd v) (fun _ => cmd <> None).
Proof.
  intros Hp Hv st HI. pose proof (Inv_store st cmd v HI Hp Hv) as H.
  destruct (store_in cmd v st) as [[] st'|st'] eqn:E; simpl in H; [|exact H].
  split; [exact H|]. intros ->. discriminate.
Qed.

Hint Resolve keeps_call | 9 : keeps.
Hint Resolve keeps_set_direction keeps_malloc keeps_printf keeps_eprintf
  keeps_find_debug_inst keeps_store_in keeps_get keeps_deref
  keeps_fault keeps_if keeps_ret_any : keeps.
Hint Resolve keeps_find | 9 : keeps.

(** One step through a program. *)
Ltac kstep :=
  lazymatch goal with
  | |- keeps _ (ret _) _ => apply keeps_ret
  | |- keeps _ fault _ => apply keeps_fault
  | |- keeps _ (bind _ _) _ =>
      eapply keeps_bind; [ solve [ eauto with keeps ] | intros ? ? ]
  | |- keeps _ (if ?b then _ else _) _ => destruct b eqn:?
  | |- keeps _ (match ?x with _ => _ end) _ => destruct x eqn:?
  end.

(** Closing a leaf: use what the steps before have established. *)
Ltac kdone :=
  cbv beta iota in *; intros;
  repeat match goal with
         | H : ?P -> _, HP : ?P |- _ =>
             match type of P with Prop => specialize (H HP) end
         end;
  repeat match goal with
         | H : ok_or_nomem _ _ |- _ => destruct H as [H|[H ?]]
         end;
  try match goal with
      | H : ?x = 0, E : nonzero ?x = true |- _ =>
          rewrite H in E; discriminate E
      end;
  try solve [ eauto with keeps
            | unfold ok_or_nomem; intuition (auto; congruence) ].

Ltac ksteps := repeat kstep; kdone.

Lemma keeps_clock_pair a b : keeps Inv (clock_pair a b) (fun _ => True).
Proof. unfold clock_pair. ksteps. Qed.
Hint Resolve keeps_clock_pair : keeps.

Lemma keeps_repeat_m n (m : M T unit) :
  keeps Inv m (fun _ => True) -> keeps Inv (repeat_m n m) (fun _ => True).
Proof. intros Hm. induction n as [|n IH]; cbn [repeat_m]; ksteps. Qed.
Hint Resolve keeps_repeat_m : keeps.

Lemma keeps_enter_debug : keeps Inv cc2530_enter_debug (fun _ => True).
Proof.
  unfold cc2530_enter_debug.
  assert (keeps Inv (modify (set_debug_enabled 1)) (fun _ => True))
    by (apply keeps_modify; auto).
  ksteps.
Qed.

Lemma keeps_leave_debug : keeps Inv cc2530_leave_debug (fun _ => True).
Proof. unfold cc2530_leave_debug. ksteps. Qed.

Lemma keeps_send_bits byte n : keeps Inv (send_bits byte n) (fun _ => True).
Proof. induction n as [|n IH]; cbn [send_bits]; ksteps. Qed.
Hint Resolve keeps_send_bits : keeps.

Lemma keeps_send_byte byte : keeps Inv (send_byte byte) (fun _ => True).
Proof. apply keeps_send_bits. Qed.
Hint Resolve keeps_send_byte : keeps.

Lemma keeps_read_bits n byte : keeps Inv (read_bits n byte) (fun _ => True).
Proof.
  revert byte. induction n as [|n IH]; intros byte; cbn [read_bits]; ksteps.
Qed.
Hint Resolve keeps_read_bits : keeps.

Lemma keeps_read_byte : keeps Inv read_byte (fun _ => True).
Proof. apply keeps_read_bits. Qed.
Hint Resolve keeps_read_byte : keeps.

Lemma keeps_send_params params i n :
  keeps Inv (send_params params i n) (fun _ => True).
Proof.
  revert i. induction n as [|n IH]; intros i; cbn [send_params]; ksteps.
Qed.
Hint Resolve keeps_send_params : keeps.

Lemma keeps_wait_ready n val : keeps Inv (wait_ready n val) (fun _ => True).
Proof.
  revert val. induction n as [|n IH]; intros val; cbn [wait_ready]; ksteps.
Qed.
Hint Resolve keeps_wait_ready : keeps.

(** On a line that never reads low the poll uses up its turns and leaves
    [timeout] wrapped around, not at 0. *)
Lemma keeps_wait_ready_high n :
  (forall t, snd (fst (gpio_get_value DATA_GPIO t)) = true) ->
  keeps Inv (wait_ready n true) (fun vt => vt = (true, u32 (0 - 1))).
Proof.
  intros Hhigh.
  assert (Hget : keeps Inv (call (gpio_get_value DATA_GPIO))
                   (fun rv => snd rv = true)).
  { intros st HI. unfold call.
    destruct (gpio_get_value DATA_GPIO (hw st)) as [rv h] eqn:E.
    split; [auto|]. specialize (Hhigh (hw st)). rewrite E in Hhigh.
    exact Hhigh. }
  induction n as [|n IH]; cbn [wait_ready]; [ksteps|].
  kstep. eapply keeps_bind; [exact Hget|]. intros rv Hrv.
  cbv beta in Hrv. rewrite Hrv. exact IH.
Qed.

Lemma keeps_read_answer n : keeps Inv (read_answer n) (fun _ => True).
Proof. induction n as [|n IH]; cbn [read_answer]; ksteps. Qed.
Hint Resolve keeps_read_answer : keeps.

Lemma keeps_memcpy_out outbuf answer :
  keeps Inv (memcpy_out outbuf answer) (fun _ => True).
Proof. unfold memcpy_out. ksteps. Qed.
Hint Resolve keeps_memcpy_out : keeps.

(** As long as no direction switch fails, a command that is in the table
    returns 0, or -1 when [malloc] has failed. *)
Lemma keeps_do_cmd cmd params outbuf :
  keeps Inv (cc2530_do_cmd cmd params outbuf)
    (fun rr => dir_ok backend -> cmd <> None -> ok_or_nomem heap (fst rr)).
Proof.
  unfold cc2530_do_cmd. repeat kstep; try solve [kdone].
  cbv beta in *. intros _ _. right. split; [reflexivity|].
  match goal with
  | H : ?a = false -> _, E : negb ?a = true |- _ =>
      apply H; destruct a; [discriminate E|reflexivity]
  end.
Qed.
Hint Resolve keeps_do_cmd : keeps.

Lemma keeps_write_xdata_memory cmd addr v :
  keeps Inv (cc2530_write_xdata_memory cmd addr v)
    (fun r => dir_ok backend -> ok_or_nomem heap r).
Proof. unfold cc2530_write_xdata_memory. ksteps. Qed.
Hint Resolve keeps_write_xdata_memory : keeps.

Lemma keeps_read_xdata_memory cmd addr result :
  keeps Inv (cc2530_read_xdata_memory cmd addr result)
    (fun rr => dir_ok backend -> ok_or_nomem heap (fst rr)).
Proof. unfold cc2530_read_xdata_memory. ksteps. Qed.
Hint Resolve keeps_read_xdata_memory : keeps.

Lemma keeps_write_block_loop cmd values n i instr result :
  ptr_ok cmd -> cmd <> None ->
  keeps Inv (write_block_loop cmd values n i instr result)
    (fun r => dir_ok backend -> ok_or_nomem heap r).
Proof.
  intros Hp Hc. revert i instr result.
  induction n as [|n IH]; intros i instr result; cbn [write_block_loop];
    ksteps.
Qed.
Hint Resolve keeps_write_block_loop : keeps.

Lemma keeps_write_xdata_memory_block cmd addr values num_bytes :
  keeps Inv (cc2530_write_xdata_memory_block cmd addr values num_bytes)
    (fun r => dir_ok backend -> ok_or_nomem heap r).
Proof. unfold cc2530_write_xdata_memory_block. ksteps. Qed.
Hint Resolve keeps_write_xdata_memory_block : keeps.

(** The poll of FCTL for a block: without a failing direction switch it
    returns early only with the -1 of a failed allocation, cut to a byte, and
    it always leaves [wait] at 1. *)
Lemma keeps_flash_busy_wait cmd i n result wait :
  keeps Inv (flash_busy_wait cmd i n result wait)
    (fun fl => match fl with
               | Return v => dir_ok backend -> v = u8 (-1)
               | Next (_, _, w) => w = 1
               end).
Proof.
  revert result wait.
  induction n as [|n IH]; intros result wait; cbn [flash_busy_wait]; ksteps.
Qed.
Hint Resolve keeps_flash_busy_wait : keeps.

Lemma keeps_flash_last_wait cmd n result :
  keeps Inv (flash_last_wait cmd n result)
    (fun fl => match fl with
               | Return v => dir_ok backend -> v = u8 (-1)
               | Next _ => True
               end).
Proof.
  revert result.
  induction n as [|n IH]; intros result; cbn [flash_last_wait]; ksteps.
Qed.
Hint Resolve keeps_flash_last_wait : keeps.

(** *** The rest of the program, for invariants that do not depend on the
    cursor, the image, or the output flags either *)

Hypothesis Inv_flash_ptr : forall st v, Inv st -> Inv (set_flash_ptr v st).
Hypothesis Inv_fetched :
  forall st p, Inv st -> Inv (set_fetched (p :: fetched st) st).
Hypothesis Inv_verbose : forall st v, Inv st -> Inv (set_verbose v st).
Hypothesis Inv_progress : forall st v, Inv st -> Inv (set_progress v st).
Hypothesis Inv_fwdata : forall st v, Inv st -> Inv (set_fwdata v st).

Lemma keeps_init_flash_ptr : keeps Inv init_flash_ptr (fun _ => True).
Proof. apply keeps_modify. auto. Qed.

Lemma keeps_get_next_flash_byte : keeps Inv get_next_flash_byte (fun _ => True).
Proof.
  intros st HI. simpl. split; [|exact I].
  apply (Inv_fetched (set_flash_ptr (u16 (flash_ptr st + 1)) st)).
  apply Inv_flash_ptr. exact HI.
Qed.

Hint Resolve keeps_init_flash_ptr keeps_get_next_flash_byte
  keeps_enter_debug keeps_leave_debug : keeps.

Lemma keeps_gpio_init_loop pins :
  keeps Inv (gpio_init_loop pins) (fun _ => True).
Proof. induction pins as [|pin pins IH]; cbn [gpio_init_loop]; ksteps. Qed.

Lemma keeps_gpio_deinit_loop pins :
  keeps Inv (gpio_deinit_loop pins) (fun _ => True).
Proof. induction pins as [|pin pins IH]; cbn [gpio_deinit_loop]; ksteps. Qed.

Lemma keeps_gpio_init : keeps Inv cc2530_gpio_init (fun _ => True).
Proof. apply keeps_gpio_init_loop. Qed.

Lemma keeps_gpio_deinit : keeps Inv cc2530_gpio_deinit (fun _ => True).
Proof. apply keeps_gpio_deinit_loop. Qed.

Hint Resolve keeps_gpio_init keeps_gpio_deinit : keeps.

Lemma keeps_burst_bytes n : keeps Inv (burst_bytes n) (fun _ => True).
Proof. induction n as [|n IH]; cbn [burst_bytes]; ksteps. Qed.
Hint Resolve keeps_burst_bytes : keeps.

Lemma keeps_burst_write : keeps Inv cc2530_burst_write (fun _ => True).
Proof. unfold cc2530_burst_write. ksteps. Qed.
Hint Resolve keeps_burst_write : keeps.

(** The block loop hands [max_speed] on as it got it, and returns early
    only with 255 (a timeout, or a failed allocation), unless a direction
    switch fails. *)
Lemma keeps_program_blocks_speed cmd num_buffers n i timeout max_speed result :
  keeps Inv (program_blocks cmd num_buffers n i timeout max_speed result)
    (fun fl => match fl with
               | Return v => dir_ok backend -> v = u8 (-1)
               | Next (_, ms, _) => ms = max_speed
               end).
Proof.
  revert i timeout result.
  induction n as [|n IH]; intros i timeout result; cbn [program_blocks].
  - ksteps.
  - ksteps.
    match goal with H : _ = 1 |- _ => rewrite H end.
    rewrite andb_false_r. apply IH.
Qed.

Lemma keeps_program_flash_speed cmd num_buffers :
  keeps Inv (cc2530_program_flash cmd num_buffers)
    (fun r => dir_ok backend -> r = u8 (-1) \/ r = 1).
Proof.
  unfold cc2530_program_flash.
  assert (Hb := keeps_program_blocks_speed).
  ksteps.
Qed.

Lemma keeps_erase_wait cmd n result :
  keeps Inv (erase_wait cmd n result) (fun _ => True).
Proof.
  revert result. induction n as [|n IH]; intros result; cbn [erase_wait];
    ksteps.
Qed.
Hint Resolve keeps_erase_wait : keeps.

Lemma keeps_chip_erase cmd : keeps Inv (cc2530_chip_erase cmd) (fun _ => True).
Proof. unfold cc2530_chip_erase. ksteps. Qed.
Hint Resolve keeps_chip_erase : keeps.

(** The inner loop of the verification counts turns, not matches: from
    [addr] it either reaches [max_addr] and returns it, or adds its [n]
    turns to [addr]. *)
Lemma keeps_verify_bytes_count cmd bank max_addr n i instr result addr :
  ptr_ok cmd -> 0 <= addr <= max_addr -> max_addr < 4294967296 ->
  keeps Inv (verify_bytes cmd bank max_addr n i instr result addr)
    (fun fl => match fl with
               | Return v =>
                   dir_ok backend -> alloc_ok heap ->
                   v = max_addr /\ max_addr < addr + Z.of_nat n
               | Next (_, a) =>
                   a = addr + Z.of_nat n /\ addr + Z.of_nat n <= max_addr
               end).
Proof.
  intros Hp. revert i instr result addr.
  induction n as [|n IH]; intros i instr result addr Ha Hm;
    cbn [verify_bytes].
  - apply keeps_ret. lia.
  - destruct (Z.eqb_spec addr max_addr) as [->|Hne].
    + apply keeps_ret. intros _ _. lia.
    + assert (Hu : u32 (addr + 1) = addr + 1)
        by (unfold u32; apply Z.mod_small; lia).
      rewrite Hu.
      assert (IH' := fun i instr result =>
                       IH i instr result (addr + 1) ltac:(lia) Hm).
      clear IH. repeat kstep; try solve [kdone].
      eapply keeps_weaken; [apply IH'|].
      intros [rv|[rs ad]] Hfl; [intros Hd Hal; specialize (Hfl Hd Hal)|]; lia.
Qed.

(** The outer loop: eight banks of 32768 turns, or less when [max_addr]
    comes first. *)
Lemma keeps_verify_banks_count cmd max_addr n bank result addr :
  0 <= addr <= max_addr -> max_addr < 4294967296 ->
  keeps Inv (verify_banks cmd max_addr n bank result addr)
    (fun r => dir_ok backend -> alloc_ok heap ->
              r = Z.min max_addr (addr + 32768 * Z.of_nat n)).
Proof.
  revert cmd bank result addr.
  induction n as [|n IH]; intros cmd bank result addr Ha Hm;
    cbn [verify_banks].
  - apply keeps_ret. intros _ _. lia.
  - repeat kstep; try solve [kdone].
    eapply keeps_bind;
      [apply keeps_verify_bytes_count; [assumption|exact Ha|exact Hm]|].
    change (Z.of_nat (Z.to_nat (32 * 1024))) with 32768.
    intros [rv|[rs ad]] Hfl; cbv beta iota in *.
    + apply keeps_ret. intros Hd Hal. specialize (Hfl Hd Hal). lia.
    + destruct Hfl as [-> Hle].
      eapply keeps_weaken; [apply IH; [lia|exact Hm]|].
      intros rv Hrv Hd Hal. rewrite (Hrv Hd Hal). lia.
Qed.

Lemma keeps_flash_verify_count cmd max_addr :
  0 <= max_addr < 4294967296 ->
  keeps Inv (cc2530_flash_verify cmd max_addr)
    (fun r => dir_ok backend -> alloc_ok heap ->
              r = Z.min max_addr 262144).
Proof.
  intros Hm. unfold cc2530_flash_verify. kstep.
  eapply keeps_weaken; [apply keeps_verify_banks_count; lia|].
  intros rv Hrv Hd Hal. rewrite (Hrv Hd Hal). reflexivity.
Qed.

Lemma keeps_verify_bytes cmd bank max_addr n i instr result addr :
  ptr_ok cmd ->
  keeps Inv (verify_bytes cmd bank max_addr n i instr result addr)
    (fun _ => True).
Proof.
  intros Hp. revert i instr result addr.
  induction n as [|n IH]; intros i instr result addr; cbn [verify_bytes];
    ksteps.
Qed.
Hint Resolve keeps_verify_bytes : keeps.

Lemma keeps_verify_banks cmd max_addr n bank result addr :
  keeps Inv (verify_banks cmd max_addr n bank result addr) (fun _ => True).
Proof.
  revert cmd bank result addr.
  induction n as [|n IH]; intros cmd bank result addr; cbn [verify_banks];
    ksteps.
Qed.
Hint Resolve keeps_verify_banks : keeps.

Lemma keeps_flash_verify cmd max_addr :
  keeps Inv (cc2530_flash_verify cmd max_addr) (fun _ => True).
Proof. unfold cc2530_flash_verify. ksteps. Qed.
Hint Resolve keeps_flash_verify : keeps.

Lemma keeps_program_blocks cmd num_buffers n i timeout max_speed result :
  keeps Inv (program_blocks cmd num_buffers n i timeout max_speed result)
    (fun _ => True).
Proof.
  revert i timeout max_speed result.
  induction n as [|n IH]; intros i timeout max_speed result;
    cbn [program_blocks]; ksteps.
Qed.
Hint Resolve keeps_program_blocks : keeps.

Lemma keeps_program_flash cmd num_buffers :
  keeps Inv (cc2530_program_flash cmd num_buffers) (fun _ => True).
Proof. unfold cc2530_program_flash. ksteps. Qed.
Hint Resolve keeps_program_flash : keeps.

(** The loop over the extended address returns early only when a direction
    switch or an allocation fails. *)
Lemma keeps_read_ext_addr_next cmd n i result ext_addr :
  keeps Inv (read_ext_addr cmd n i result ext_addr)
    (fun fl => match fl with
               | Return r => dir_ok backend -> r = -1 /\ ~ alloc_ok heap
               | Next _ => True
               end).
Proof.
  revert i result ext_addr.
  induction n as [|n IH]; intros i result ext_addr; cbn [read_ext_addr];
    ksteps.
Qed.

(** As long as no direction switch fails, the identification fails only
    for a wrong chip id, and then [*flash_size] is as it was, or for a failed
    allocation. *)
Lemma keeps_chip_identify_status cmd flash_size :
  keeps Inv (cc2530_chip_identify cmd flash_size)
    (fun rf => dir_ok backend ->
               fst rf = 0 \/ (fst rf = - EINVAL /\ snd rf = flash_size)
               \/ (fst rf = -1 /\ ~ alloc_ok heap)).
Proof.
  unfold cc2530_chip_identify.
  assert (Hx := keeps_read_ext_addr_next).
  ksteps.
Qed.

Lemma keeps_read_ext_addr cmd n i result ext_addr :
  keeps Inv (read_ext_addr cmd n i result ext_addr) (fun _ => True).
Proof.
  revert i result ext_addr.
  induction n as [|n IH]; intros i result ext_addr; cbn [read_ext_addr];
    ksteps.
Qed.
Hint Resolve keeps_read_ext_addr : keeps.

Lemma keeps_chip_identify cmd flash_size :
  keeps Inv (cc2530_chip_identify cmd flash_size) (fun _ => True).
Proof. unfold cc2530_chip_identify. ksteps. Qed.
Hint Resolve keeps_chip_identify : keeps.

(** The retry loop around [write_config] returns early only with the
    non-zero status of a failed command. *)
Lemma keeps_enable_dma_status n cmd result :
  keeps Inv (enable_dma n cmd result)
    (fun fl => match fl with
               | Return r => nonzero r = true
               | Next _ => True
               end).
Proof.
  revert cmd result.
  induction n as [|n IH]; intros cmd result; cbn [enable_dma]; ksteps.
Qed.

(** With [write_config] in the table, and direction switches and
    allocations that succeed, it does not return early at all: when the
    retries are used up the loop is left as after a success. *)
Lemma keeps_enable_dma_next n cmd result :
  (forall st, Inv st ->
     find_cmd_from (cc2530_commands st) 0 "write_config" <> None) ->
  keeps Inv (enable_dma n cmd result)
    (fun fl => match fl with
               | Return _ => dir_ok backend -> alloc_ok heap -> False
               | Next _ => True
               end).
Proof.
  intros Hwc.
  assert (Hf : keeps Inv (find_cmd_by_name "write_config")
                 (fun c => c <> None)).
  { intros st HI. simpl. auto. }
  revert cmd result.
  induction n as [|n IH]; intros cmd result; cbn [enable_dma]; [ksteps|].
  eapply keeps_bind; [exact Hf|]. intros c Hc. ksteps.
Qed.

Lemma keeps_clock_wait_status cmd n result :
  keeps Inv (clock_wait cmd n result)
    (fun fl => match fl with
               | Return r => nonzero r = true
               | Next _ => True
               end).
Proof.
  revert result. induction n as [|n IH]; intros result; cbn [clock_wait];
    ksteps.
Qed.

Lemma keeps_enable_dma n cmd result :
  keeps Inv (enable_dma n cmd result) (fun _ => True).
Proof.
  revert cmd result.
  induction n as [|n IH]; intros cmd result; cbn [enable_dma]; ksteps.
Qed.
Hint Resolve keeps_enable_dma : keeps.

Lemma keeps_clock_wait cmd n result :
  keeps Inv (clock_wait cmd n result) (fun _ => True).
Proof.
  revert result. induction n as [|n IH]; intros result; cbn [clock_wait];
    ksteps.
Qed.
Hint Resolve keeps_clock_wait : keeps.

Lemma keeps_do_program cmd fwsize readback :
  keeps Inv (cc2530_do_program cmd fwsize readback) (fun _ => True).
Proof. unfold cc2530_do_program. ksteps. Qed.
Hint Resolve keeps_do_program : keeps.

Lemma keeps_oneshot_command cmd c :
  keeps Inv (cc2530_oneshot_command cmd c) (fun _ => True).
Proof. unfold cc2530_oneshot_command. ksteps. Qed.
Hint Resolve keeps_oneshot_command : keeps.

Lemma keeps_show_commands tbl : keeps Inv (show_commands tbl) (fun _ => True).
Proof. induction tbl as [|c tbl IH]; cbn [show_commands]; ksteps. Qed.
Hint Resolve keeps_show_commands : keeps.

Lemma keeps_show_command_list :
  keeps Inv cc2530_show_command_list (fun _ => True).
Proof. unfold cc2530_show_command_list. ksteps. Qed.
Hint Resolve keeps_show_command_list : keeps.

Lemma keeps_identify_retry cmd n r flash_size :
  keeps Inv (identify_retry cmd n r flash_size) (fun _ => True).
Proof.
  revert r flash_size.
  induction n as [|n IH]; intros r flash_size; cbn [identify_retry]; ksteps.
Qed.
Hint Resolve keeps_identify_retry : keeps.

Lemma keeps_main_out r : keeps Inv (main_out r) (fun _ => True).
Proof. unfold main_out. ksteps. Qed.
Hint Resolve keeps_main_out : keeps.

Lemma keeps_main opts fs : keeps Inv (main opts fs) (fun _ => True).
Proof.
  unfold main, usage.
  assert (forall v, keeps Inv (modify (set_verbose v)) (fun _ => True))
    by (intros; apply keeps_modify; auto).
  assert (forall v, keeps Inv (modify (set_progress v)) (fun _ => True))
    by (intros; apply keeps_modify; auto).
  assert (forall v, keeps Inv (modify (set_fwdata v)) (fun _ => True))
    by (intros; apply keeps_modify; auto).
  ksteps.
Qed.

(** *** What [main] returns *)

Lemma keeps_export (pin : Z) :
  keeps Inv (call (gpio_export pin)) (fun r => export_ok backend -> r = 0).
Proof.
  intros st HI. unfold call.
  destruct (gpio_export pin (hw st)) as [r h] eqn:E. split; auto.
  intros He. specialize (He pin (hw st)). rewrite E in He. exact He.
Qed.

Lemma keeps_gpio_init_status :
  keeps Inv cc2530_gpio_init
    (fun r => export_ok backend -> dir_ok backend -> r = 0).
Proof.
  unfold cc2530_gpio_init. generalize gpios. intros pins.
  induction pins as [|pin pins IH]; cbn [gpio_init_loop]; [ksteps|].
  eapply keeps_bind; [apply keeps_export|]. intros r Hr. ksteps.
Qed.

Lemma keeps_main_out_value r : keeps Inv (main_out r) (fun r' => r' = r).
Proof. unfold main_out. ksteps. Qed.

Lemma keeps_identify_retry_status cmd n r flash_size :
  keeps Inv (identify_retry cmd n r flash_size)
    (fun rrf => dir_ok backend ->
       snd (fst rrf) = r \/ snd (fst rrf) = 0 \/ snd (fst rrf) = - EINVAL
       \/ snd (fst rrf) = -1).
Proof.
  revert r flash_size.
  induction n as [|n IH]; intros r flash_size; cbn [identify_retry];
    [ksteps|].
  eapply keeps_bind; [apply keeps_chip_identify_status|]. intros rf Hrf.
  kstep.
  - kstep. eapply keeps_weaken; [apply IH|].
    cbv beta. intros rrf Hrrf Hd. specialize (Hrrf Hd). specialize (Hrf Hd).
    intuition congruence.
  - ksteps.
Qed.

Remove Hints keeps_main_out keeps_chip_identify keeps_identify_retry
  keeps_gpio_init : keeps.
Hint Resolve keeps_main_out_value keeps_chip_identify_status
  keeps_identify_retry_status keeps_gpio_init_status : keeps.

(** [main] returns 0, -1 or [-EINVAL], as long as no direction switch
    fails. *)
Lemma keeps_main_status opts fs :
  keeps Inv (main opts fs)
    (fun r => dir_ok backend -> r = 0 \/ r = -1 \/ r = - EINVAL).
Proof.
  unfold main, usage.
  assert (forall v, keeps Inv (modify (set_verbose v)) (fun _ => True))
    by (intros; apply keeps_modify; auto).
  assert (forall v, keeps Inv (modify (set_progress v)) (fun _ => True))
    by (intros; apply keeps_modify; auto).
  assert (forall v, keeps Inv (modify (set_fwdata v)) (fun _ => True))
    by (intros; apply keeps_modify; auto).
  ksteps;
    (eapply keeps_weaken; [apply keeps_main_out_value|]);
    cbv beta; intros ? -> ?; kdone.
Qed.

(** With a one-shot command [main] returns 0 once the pins are set up,
    whatever became of the command. *)
Lemma keeps_main_oneshot opts fs c :
  (2 <=? argc opts) = true -> nonzero (do_identify opts) = false ->
  command opts = Some c ->
  keeps Inv (main opts fs)
    (fun r => export_ok backend -> dir_ok backend -> r = 0).
Proof.
  intros Hargc Hid Hc. unfold main, usage. rewrite Hid, Hc.
  replace (argc opts <? 2) with false by (symmetry; apply Z.ltb_ge; lia).
  assert (forall v, keeps Inv (modify (set_verbose v)) (fun _ => True))
    by (intros; apply keeps_modify; auto).
  assert (forall v, keeps Inv (modify (set_progress v)) (fun _ => True))
    by (intros; apply keeps_modify; auto).
  ksteps;
    (eapply keeps_weaken; [apply keeps_main_out_value|]);
    cbv beta; intros ? -> ? ?; reflexivity.
Qed.

End Protocol.

(** ** Timeouts and the speed flag, on any hardware *)

Section Flags.

Context {T : Type} {backend : gpio_backend T} {heap : allocator T}.

(** X5: If DATA never reads low, the readiness poll ends with [timeout] at
    2^32 - 1, so that the test [!timeout] after it is false. *)
Lemma wait_ready_never_low (n : nat) (st st' : state T) (vt : bool * Z) :
  (forall t, snd (fst (gpio_get_value DATA_GPIO t)) = true) ->
  wait_ready n true st = Done vt st' -> vt = (true, 4294967295).
Proof.
  intros Hhigh Hrun.
  pose proof (keeps_wait_ready_high (fun _ => True)
                (fun _ _ _ => I) n Hhigh st I) as H.
  rewrite Hrun in H. apply H.
Qed.

(** X6: As long as no direction switch fails, [cc2530_program_flash] returns 1
    or 255 (the [-1] of a noticed timeout, or of a failed allocation), never
    0. *)
Lemma program_flash_never_0 (cmd : option nat) (nb r : Z) (st st' : state T) :
  dir_ok backend ->
  cc2530_program_flash cmd nb st = Done r st' -> r = 1 \/ r = 255.
Proof.
  intros Hdir Hrun.
  assert (keeps (fun _ : state T => True) (cc2530_program_flash cmd nb)
            (fun r => dir_ok backend -> r = u8 (-1) \/ r = 1)) as H.
  { apply keeps_program_flash_speed with (ptr_ok := fun _ => True);
      intros; exact I. }
  specialize (H st I). rewrite Hrun in H.
  destruct H as [_ H]. destruct (H Hdir) as [->| ->]; auto.
Qed.

End Flags.

(** ** The command table *)

Lemma find_cmd_from_names (t1 t2 : list cc2530_cmd) (k : nat) (q : string) :
  map cmd_name t1 = map cmd_name t2 ->
  find_cmd_from t1 k q = find_cmd_from t2 k q.
Proof.
  revert t2 k. induction t1 as [|c1 t1 IH]; intros [|c2 t2] k Hn;
    try discriminate; [reflexivity|].
  simpl in Hn. injection Hn as Hc Ht. simpl. rewrite Hc.
  destruct (strncmp (cmd_name c2) q (strlen q) =? 0); [reflexivity|].
  apply IH. exact Ht.
Qed.

Lemma table_kept_names (t0 t : list cc2530_cmd) :
  table_kept t0 t -> map cmd_name t = map cmd_name t0.
Proof.
  induction 1 as [|c0 c t0 t Hc _ IH]; [reflexivity|].
  simpl. destruct Hc as [Hn _]. rewrite Hn, IH. reflexivity.
Qed.

Lemma table_kept_refl (t : list cc2530_cmd) : table_kept t t.
Proof.
  induction t as [|c t IH]; constructor; [|exact IH].
  unfold entry_kept. repeat split; auto.
Qed.

Lemma table_kept_find_debug_inst (t : list cc2530_cmd) :
  table_kept cc2530_commands_init t ->
  find_cmd_from t 0 "debug_inst" = Some 7%nat.
Proof.
  intros H. rewrite (find_cmd_from_names t cc2530_commands_init).
  - reflexivity.
  - apply table_kept_names. exact H.
Qed.

Section Table.

Context {T : Type} {backend : gpio_backend T} {heap : allocator T}.

Lemma table_inv_store (st : state T) (cmd : option nat) (v : Z) :
  table_inv st -> cmd = Some 7%nat -> v = 1 \/ v = 2 \/ v = 3 ->
  table_inv (final (store_in cmd v st)).
Proof.
  intros HI -> Hv. unfold store_in, bind, deref.
  destruct (cc2530_commands st !! 7%nat) as [c|] eqn:E; simpl; [|exact HI].
  unfold table_inv, table_kept in *. simpl.
  destruct (Forall2_lookup_r _ _ _ _ _ HI E) as (c0 & E0 & Hc).
  rewrite <- (list_insert_id cc2530_commands_init 7 c0 E0).
  apply Forall2_insert; [exact HI|].
  vm_compute in E0. injection E0 as <-.
  destruct Hc as (Hn & Hi & Ho & _ & _).
  unfold entry_kept. simpl. repeat split; auto.
  - intros Hne. exfalso. apply Hne. reflexivity.
  - right. unfold u8. destruct Hv as [->|[->| ->]]; vm_compute; auto.
Qed.

(** C8, as stated, fails: one write to XDATA leaves 1 in the [in] field of
    the [debug_inst] entry, which the table starts with as 255. *)
Lemma write_xdata_memory_changes_table :
  let run := cc2530_write_xdata_memory
               (backend := simulated (healthy 0x20 (fun _ => 0))) None
               X_MEMCTR 0 (initial_state chip_reset 0) in
  value run = Some 0
  /\ cc2530_commands_init !! 7%nat = Some (mk_cmd "debug_inst" 0x50 255 1)
  /\ cc2530_commands (final run) !! 7%nat
     = Some (mk_cmd "debug_inst" 0x50 1 1)
  /\ cc2530_commands (final run) <> cc2530_commands_init.
Proof. vm_compute. repeat split; try reflexivity. discriminate. Qed.

(** C8, amended: whatever the command line, the files and the hardware, the
    table [main] ends with has the names, opcodes and answer lengths it
    started with, and the parameter counts too, except in the [debug_inst]
    entry, where the count is the initial one or 1, 2 or 3. *)
Theorem command_table_kept_but_debug_inst_in (opts : options) (fs : files)
    (h : T) (junk : Z) :
  table_kept cc2530_commands_init
    (cc2530_commands (final (main opts fs (initial_state h junk)))).
Proof.
  assert (keeps table_inv (main opts fs) (fun _ => True)) as H.
  { apply keeps_main with (ptr_ok := fun cmd => cmd = Some 7%nat);
      try (intros; assumption).
    - intros st HI. apply table_kept_find_debug_inst. exact HI.
    - intros st cmd v HI Hp Hv. apply table_inv_store; assumption. }
  specialize (H (initial_state h junk) (table_kept_refl _)).
  destruct (main opts fs (initial_state h junk)) as [r st'|st']; simpl.
  - apply H.
  - exact H.
Qed.

End Table.

(** ** The image cursor during programming *)

Lemma cursor_indices_app (a b : nat) (p : Z) :
  cursor_indices (a + b) p
  = (cursor_indices a p ++ cursor_indices b (cursor_after a p))%list.
Proof.
  revert p. induction a as [|a IH]; intros p; simpl; [reflexivity|].
  rewrite IH. reflexivity.
Qed.

Lemma cursor_after_app (a b : nat) (p : Z) :
  cursor_after (a + b) p = cursor_after b (cursor_after a p).
Proof. revert p. induction a as [|a IH]; intros p; simpl; auto. Qed.

Lemma cursor_indices_mod (n : nat) (p : Z) :
  0 <= p < 65536 ->
  cursor_indices n p
  = map (fun k => (p + Z.of_nat k) mod 65536) (seq 0 n).
Proof.
  revert p. induction n as [|n IH]; intros p Hp; [reflexivity|].
  cbn [cursor_indices seq map]. f_equal.
  - rewrite Z.add_0_r. symmetry. apply Z.mod_small. exact Hp.
  - rewrite IH by (unfold u16; apply Z.mod_pos_bound; lia).
    rewrite <- seq_shift, map_map. apply map_ext. intros k.
    unfold u16. rewrite Zplus_mod_idemp_l. f_equal. lia.
Qed.

Lemma Forall_rev_iff {A} (P : A -> Prop) (l : list A) :
  Forall P (rev l) <-> Forall P l.
Proof.
  split; intros H; [|apply Forall_rev; exact H].
  rewrite <- (rev_involutive l). apply Forall_rev. exact H.
Qed.

Lemma indices_below (n l : Z) :
  0 < l -> 0 <= n <= 65536 ->
  Forall (fun i => i < l)
    (map (fun k => Z.of_nat k mod 65536) (seq 0 (Z.to_nat n)))
  <-> n <= l.
Proof.
  intros Hl Hn. rewrite List.Forall_forall. split.
  - intros H. destruct (Z.eq_dec n 0) as [->|Hn0]; [lia|].
    specialize (H ((n - 1) mod 65536)).
    rewrite Z.mod_small in H by lia.
    assert (n - 1 < l); [|lia]. apply H.
    apply in_map_iff. exists (Z.to_nat (n - 1)). split.
    + rewrite Z2Nat.id by lia. apply Z.mod_small. lia.
    + apply in_seq. lia.
  - intros Hle x Hx. apply in_map_iff in Hx. destruct Hx as (k & <- & Hk).
    apply in_seq in Hk. rewrite Z.mod_small by lia. lia.
Qed.

Lemma indices_wrapped (m : nat) (b : Z) :
  65536 < b ->
  Forall (fun i => i < b)
    (map (fun k => Z.of_nat k mod 65536) (seq 0 m)).
Proof.
  intros Hb. rewrite List.Forall_forall. intros x Hx.
  apply in_map_iff in Hx. destruct Hx as (k & <- & _).
  pose proof (Z.mod_pos_bound (Z.of_nat k) 65536). lia.
Qed.

Section Cursor.

Context {T : Type} {backend : gpio_backend T} {heap : allocator T}.

(** The number of messages on stderr when the run started. *)
Variable e0 : nat.

(** A step that keeps the invariant, inside a run that moves the cursor. *)
Lemma triple_bind_keeps {A B} (Inv : state T -> Prop) (m : M T A)
    (k : A -> M T B) (Q : A -> Prop) R :
  keeps Inv m Q -> (forall a, Q a -> triple Inv (k a) R nofault) ->
  triple Inv (bind m k) R nofault.
Proof.
  intros Hm Hk st HI. unfold bind. specialize (Hm st HI).
  destruct (m st) as [a st'|st']; [|exact I].
  destruct Hm as [HI' HQ]. exact (Hk a HQ st' HI').
Qed.

Lemma off_track_on_track p f (st : state T) :
  off_track e0 st -> on_track e0 p f st.
Proof. unfold off_track, on_track. intros H. split; [lia|intros E; lia]. Qed.

Lemma on_track_print p f (st : state T) (e : event) :
  on_track e0 p f st -> on_track e0 p f (set_console (e :: console st) st).
Proof.
  unfold on_track, at_cursor. intros [Hle H].
  destruct e; simpl; (split; [lia|]); intros E; apply H; lia.
Qed.

Lemma on_track_store p f (st : state T) cmd v :
  on_track e0 p f st -> on_track e0 p f (final (store_in cmd v st)).
Proof.
  intros HI. unfold store_in, bind, deref.
  destruct cmd as [i|]; [|exact HI].
  destruct (cc2530_commands st !! i); exact HI.
Qed.

Ltac track_sides :=
  try exact (fun _ : option nat => True);
  try solve [ intros; apply on_track_print; assumption
            | intros; apply on_track_store; assumption
            | unfold on_track, at_cursor; intros; simpl; auto
            | intros; exact I ].

Lemma track_send_byte p f b :
  keeps (on_track (T := T) e0 p f) (send_byte b) (fun _ => True).
Proof. apply keeps_send_byte; track_sides. Qed.

Lemma track_call {A} p f (g : T -> A * T) :
  keeps (on_track e0 p f) (call g) (fun _ => True).
Proof. apply keeps_call; track_sides. Qed.

Lemma track_wait_ready p f n val :
  keeps (on_track (T := T) e0 p f) (wait_ready n val) (fun _ => True).
Proof. apply keeps_wait_ready; track_sides. Qed.

Lemma track_read_byte p f :
  keeps (on_track (T := T) e0 p f) read_byte (fun _ => True).
Proof. apply keeps_read_byte; track_sides. Qed.

Lemma track_printf p f fmt args :
  keeps (on_track (T := T) e0 p f) (printf fmt args) (fun _ => True).
Proof. apply keeps_printf; track_sides. Qed.

Lemma track_write_xdata_memory p f cmd addr v :
  keeps (on_track e0 p f) (cc2530_write_xdata_memory cmd addr v)
    (fun _ => True).
Proof.
  eapply keeps_weaken;
    [apply keeps_write_xdata_memory with (ptr_ok := fun _ => True);
       track_sides|auto].
Qed.

Lemma track_read_xdata_memory p f cmd addr result :
  keeps (on_track e0 p f) (cc2530_read_xdata_memory cmd addr result)
    (fun _ => True).
Proof.
  eapply keeps_weaken;
    [apply keeps_read_xdata_memory with (ptr_ok := fun _ => True);
       track_sides|auto].
Qed.

Lemma track_write_xdata_memory_block p f cmd addr values n :
  keeps (on_track e0 p f) (cc2530_write_xdata_memory_block cmd addr values n)
    (fun _ => True).
Proof.
  eapply keeps_weaken;
    [apply keeps_write_xdata_memory_block with (ptr_ok := fun _ => True);
       track_sides|auto].
Qed.

Lemma track_do_cmd p f cmd params outbuf :
  keeps (on_track e0 p f) (cc2530_do_cmd cmd params outbuf) (fun _ => True).
Proof.
  eapply keeps_weaken; [apply keeps_do_cmd; track_sides|auto].
Qed.

Lemma track_find p f q :
  keeps (on_track (T := T) e0 p f) (find_cmd_by_name q) (fun _ => True).
Proof. apply keeps_find. Qed.

Lemma track_enter_debug p f :
  keeps (on_track e0 p f) cc2530_enter_debug (fun _ => True).
Proof. apply keeps_enter_debug; track_sides. Qed.

Lemma track_leave_debug p f :
  keeps (on_track e0 p f) cc2530_leave_debug (fun _ => True).
Proof. apply keeps_leave_debug; track_sides. Qed.

Lemma track_chip_erase p f cmd :
  keeps (on_track e0 p f) (cc2530_chip_erase cmd) (fun _ => True).
Proof. apply keeps_chip_erase; track_sides. Qed.

Hint Resolve track_call | 9 : cursor.
Hint Resolve track_send_byte track_wait_ready track_read_byte track_printf
  track_write_xdata_memory track_read_xdata_memory
  track_write_xdata_memory_block track_do_cmd track_find track_enter_debug
  track_leave_debug track_chip_erase : cursor.
Hint Resolve keeps_get keeps_if keeps_ret_any : cursor.

(** A message on stderr takes the run off the track. *)
Lemma eprintf_off_track p f fmt args :
  triple (on_track (T := T) e0 p f) (eprintf fmt args)
    (fun _ => off_track e0) nofault.
Proof. intros st [Hle _]. unfold off_track. simpl. lia. Qed.

(** One step through a run that keeps the cursor where it is. *)
Ltac cstep :=
  lazymatch goal with
  | |- triple _ (ret _) _ _ => apply triple_ret; intros ? ?
  | |- triple _ (bind (eprintf _ _) _) _ _ =>
      eapply triple_bind; [ apply eprintf_off_track | intros ? ]
  | |- triple _ (bind _ _) _ _ =>
      eapply triple_bind_keeps; [ solve [ eauto with cursor ] | intros ? _ ]
  | |- triple _ (if ?b then _ else _) _ _ => destruct b eqn:?
  | |- triple _ (match ?x with _ => _ end) _ _ => destruct x eqn:?
  end.

Ltac cdone :=
  cbv beta iota in *;
  lazymatch goal with
  | |- triple _ _ _ _ => idtac
  | |- _ => try solve [ assumption | apply off_track_on_track; assumption ]
  end.

Lemma burst_bytes_cursor (n : nat) (p : Z) (f : list Z) :
  triple (on_track e0 p f) (burst_bytes n)
    (fun _ => on_track e0 (cursor_after n p)
                (rev (cursor_indices n p) ++ f)%list) nofault.
Proof.
  revert p f. induction n as [|n IH]; intros p f; cbn [burst_bytes].
  - apply triple_ret. auto.
  - eapply triple_bind
      with (Q := fun _ => on_track e0 (u16 (p + 1)) (p :: f)).
    + intros st [Hle H]. unfold get_next_flash_byte, on_track, at_cursor.
      simpl. split; [exact Hle|]. intros E. destruct (H E) as [Hp Hf].
      rewrite Hp, Hf. auto.
    + intros b. eapply triple_bind_keeps; [apply track_send_byte|].
      intros ? _.
      eapply triple_weaken;
        [apply (IH (u16 (p + 1)) (p :: f)) | auto | | auto].
      intros ? st. cbn [cursor_after cursor_indices rev].
      rewrite <- app_assoc. auto.
Qed.

(** A burst write moves the cursor by one block, unless it complains. *)
Lemma burst_write_cursor (p : Z) (f : list Z) :
  let n := Z.to_nat PROG_BLOCK_SIZE in
  triple (on_track e0 p f) cc2530_burst_write
    (fun _ => on_track e0 (cursor_after n p)
                (rev (cursor_indices n p) ++ f)%list) nofault.
Proof.
  intros n. unfold cc2530_burst_write.
  cstep. cstep; [repeat (cstep; cdone)|].
  cstep. cstep.
  eapply triple_bind; [apply burst_bytes_cursor|]. intros ?. fold n.
  repeat (cstep; cdone).
Qed.

(** The loops that poll a register leave the cursor alone, and complain when
    they return early. *)
Lemma flash_busy_wait_cursor p f cmd i n result wait :
  triple (on_track e0 p f) (flash_busy_wait cmd i n result wait)
    (fun fl st =>
       match fl with
       | Return _ => off_track e0 st
       | Next _ => on_track e0 p f st
       end) nofault.
Proof.
  revert result wait.
  induction n as [|n IH]; intros result wait; cbn [flash_busy_wait];
    repeat (cstep; cdone); apply IH.
Qed.

Lemma flash_last_wait_cursor p f cmd n result :
  triple (on_track e0 p f) (flash_last_wait cmd n result)
    (fun fl st =>
       match fl with
       | Return _ => off_track e0 st
       | Next _ => on_track e0 p f st
       end) nofault.
Proof.
  revert result.
  induction n as [|n IH]; intros result; cbn [flash_last_wait];
    repeat (cstep; cdone); apply IH.
Qed.

Lemma enable_dma_cursor p f n cmd result :
  triple (on_track e0 p f) (enable_dma n cmd result)
    (fun fl st =>
       match fl with
       | Return _ => off_track e0 st
       | Next _ => on_track e0 p f st
       end) nofault.
Proof.
  revert cmd result.
  induction n as [|n IH]; intros cmd result; cbn [enable_dma];
    repeat (cstep; cdone).
  eapply triple_weaken with (P := on_track e0 p f);
    [|intros st0 H0; apply off_track_on_track; exact H0
     |intros ? ? H0; exact H0|intros ? H0; exact H0].
  eapply triple_bind_keeps; [apply track_enter_debug|]. intros ? _.
  apply IH.
Qed.

Lemma clock_wait_cursor p f cmd n result :
  triple (on_track e0 p f) (clock_wait cmd n result)
    (fun fl st =>
       match fl with
       | Return _ => off_track e0 st
       | Next _ => on_track e0 p f st
       end) nofault.
Proof.
  revert result.
  induction n as [|n IH]; intros result; cbn [clock_wait];
    repeat (cstep; cdone); apply IH.
Qed.

(** The block loop moves the cursor by [n] blocks, unless it complains. *)
Lemma program_blocks_cursor (n : nat) cmd nb i timeout ms result p f :
  let b := Z.to_nat PROG_BLOCK_SIZE in
  triple (on_track e0 p f) (program_blocks cmd nb n i timeout ms result)
    (fun fl st =>
       match fl with
       | Return _ => off_track e0 st
       | Next _ =>
           on_track e0 (cursor_after (n * b) p)
             (rev (cursor_indices (n * b) p) ++ f)%list st
       end) nofault.
Proof.
  intros b. revert i timeout ms result p f.
  induction n as [|n IH]; intros i timeout ms result p f;
    cbn [program_blocks].
  - apply triple_ret. auto.
  - repeat (cstep; cdone).
    eapply triple_bind; [apply burst_write_cursor|]. intros ?. fold b.
    eapply triple_bind; [apply flash_busy_wait_cursor|].
    intros [v|[[res tmo] w]]; cbv beta iota; [repeat (cstep; cdone)|].
    repeat (cstep; cdone).
    eapply triple_weaken;
      [apply IH | intros ? Hst; exact Hst | | auto].
    intros [v|x] st; [auto|].
    change (S n * b)%nat with (b + n * b)%nat.
    rewrite cursor_after_app, cursor_indices_app, rev_app_distr.
    rewrite <- app_assoc. auto.
Qed.

Lemma program_flash_cursor cmd nb :
  let n := (Z.to_nat nb * Z.to_nat PROG_BLOCK_SIZE)%nat in
  triple (on_track e0 0 []) (cc2530_program_flash cmd nb)
    (fun _ => on_track e0 (cursor_after n 0) (rev (cursor_indices n 0)))
    nofault.
Proof.
  intros n. unfold cc2530_program_flash.
  repeat (cstep; cdone).
  eapply triple_bind; [apply program_blocks_cursor|].
  intros [v|[[timeout ms] result]]; cbv beta iota;
    [repeat (cstep; cdone)|].
  fold n. rewrite app_nil_r.
  eapply triple_bind; [apply flash_last_wait_cursor|].
  intros [v|[res tmo]]; cbv beta iota; repeat (cstep; cdone).
Qed.

(** A programming run without read-back that has not complained returns 0
    and has fetched the blocks of the image, as many as the function
    computes from [fwsize]. *)
(** A fetch moves the cursor. *)
Lemma fetch_cursor p f :
  triple (on_track (T := T) e0 p f) get_next_flash_byte
    (fun _ => on_track e0 (u16 (p + 1)) (p :: f)) nofault.
Proof.
  intros st [Hle H]. unfold get_next_flash_byte, on_track, at_cursor.
  simpl. split; [exact Hle|]. intros E. destruct (H E) as [Hp Hf].
  rewrite Hp, Hf. auto.
Qed.

Lemma track_store_in p f cmd v :
  v = 1 \/ v = 2 \/ v = 3 ->
  keeps (on_track (T := T) e0 p f) (store_in cmd v) (fun _ => True).
Proof.
  intros Hv. eapply keeps_weaken;
    [apply keeps_store_in with (ptr_ok := fun _ => True);
       [track_sides|exact I|exact Hv]|auto].
Qed.

Lemma track_deref p f cmd :
  keeps (on_track (T := T) e0 p f) (deref cmd) (fun _ => True).
Proof. eapply keeps_weaken; [apply keeps_deref|auto]. Qed.

Hint Resolve track_store_in track_deref : cursor.

(** The inner loop of the read-back fetches one byte per turn: from [addr]
    it either reaches [max_addr] and returns, or makes its [n] turns, unless
    it complains. *)
Lemma verify_bytes_cursor cmd bank max_addr n i instr result addr p f :
  0 <= addr <= max_addr -> max_addr < 4294967296 ->
  triple (on_track e0 p f)
    (verify_bytes cmd bank max_addr n i instr result addr)
    (fun fl st =>
       match fl with
       | Return _ =>
           off_track e0 st
           \/ (max_addr < addr + Z.of_nat n
               /\ on_track e0 (cursor_after (Z.to_nat (max_addr - addr)) p)
                    (rev (cursor_indices (Z.to_nat (max_addr - addr)) p)
                     ++ f)%list st)
       | Next (_, a) =>
           a = addr + Z.of_nat n /\ addr + Z.of_nat n <= max_addr
           /\ on_track e0 (cursor_after n p)
                (rev (cursor_indices n p) ++ f)%list st
       end) nofault.
Proof.
  revert i instr result addr p f.
  induction n as [|n IH]; intros i instr result addr p f Ha Hm;
    cbn [verify_bytes].
  - apply triple_ret. intros st H. split; [lia|]. split; [lia|exact H].
  - destruct (Z.eqb_spec addr max_addr) as [->|Hne].
    + apply triple_ret. intros st H. right. split; [lia|].
      rewrite Z.sub_diag. exact H.
    + assert (Hu : u32 (addr + 1) = addr + 1)
        by (unfold u32; apply Z.mod_small; lia).
      rewrite Hu.
      cstep. cstep. cstep; [repeat (cstep; cdone); left; assumption|].
      eapply triple_bind; [apply fetch_cursor|]. intros expected.
      cstep. cstep. cstep. cstep; [repeat (cstep; cdone); left; assumption|].
      eapply triple_weaken;
        [apply (IH (i + 1) _ _ (addr + 1) (u16 (p + 1)) (p :: f));
           lia
        |intros ? Hst; exact Hst| |auto].
      assert (Hj : Z.to_nat (max_addr - addr)
                   = S (Z.to_nat (max_addr - (addr + 1)))) by lia.
      intros [rv|[rs ad]] st Hfl.
      * destruct Hfl as [Hoff|[Hlt Htr]]; [left; exact Hoff|right].
        split; [lia|]. rewrite Hj. cbn [cursor_after cursor_indices rev].
        rewrite <- app_assoc. exact Htr.
      * destruct Hfl as (-> & Hle & Htr). split; [lia|]. split; [lia|].
        cbn [cursor_after cursor_indices rev]. rewrite <- app_assoc.
        exact Htr.
Qed.

(** The outer loop: eight banks of 32768 turns, or less when [max_addr]
    comes first. *)
Lemma verify_banks_cursor cmd max_addr n bank result addr p f :
  0 <= addr <= max_addr -> max_addr < 4294967296 ->
  triple (on_track e0 p f) (verify_banks cmd max_addr n bank result addr)
    (fun _ st =>
       exists q,
         on_track e0 q
           (rev (cursor_indices
                   (Z.to_nat (Z.min max_addr (addr + 32768 * Z.of_nat n)
                              - addr)) p) ++ f)%list st) nofault.
Proof.
  revert cmd bank result addr p f.
  induction n as [|n IH]; intros cmd bank result addr p f Ha Hm;
    cbn [verify_banks].
  - apply triple_ret. intros st H. exists p.
    replace (Z.min max_addr (addr + 32768 * Z.of_nat 0) - addr) with 0
      by lia.
    exact H.
  - assert (Hoff : forall (r : Z),
              triple (off_track (T := T) e0) (ret r)
                (fun _ st =>
                   exists q,
                     on_track e0 q
                       (rev (cursor_indices
                               (Z.to_nat
                                  (Z.min max_addr
                                     (addr + 32768 * Z.of_nat (S n))
                                   - addr)) p) ++ f)%list st) nofault).
    { intros r. apply triple_ret. intros st H. exists p.
      apply off_track_on_track. exact H. }
    cstep. cstep. cstep. cstep; [cstep; apply Hoff|].
    cstep. cstep. cstep. cstep; [cstep; cstep; apply Hoff|].
    eapply triple_bind; [apply verify_bytes_cursor; [exact Ha|exact Hm]|].
    set (B := Z.to_nat (32 * 1024)).
    assert (HB : Z.of_nat B = 32768) by (unfold B; lia).
    intros [rv|[rs ad]]; cbv beta iota.
    + apply triple_ret. intros st [H|[Hlt Htr]].
      * exists p. apply off_track_on_track. exact H.
      * eexists. rewrite Z.min_l by lia. exact Htr.
    + intros st (-> & Hle & Htr).
      match goal with
      | |- match verify_banks ?c _ _ _ _ _ _ with _ => _ end =>
          pose proof (IH c (bank + 1) rs (addr + Z.of_nat B)
                        (cursor_after B p)
                        (rev (cursor_indices B p) ++ f)%list
                        ltac:(lia) Hm st Htr) as H;
          destruct (verify_banks c max_addr n (bank + 1) rs
                      (addr + Z.of_nat B) st) as [r st'|st']; [|exact I]
      end.
      destruct H as [q H]. exists q.
      replace (Z.to_nat (Z.min max_addr (addr + 32768 * Z.of_nat (S n))
                         - addr))
        with (B + Z.to_nat (Z.min max_addr
                              (addr + Z.of_nat B + 32768 * Z.of_nat n)
                            - (addr + Z.of_nat B)))%nat by lia.
      rewrite cursor_indices_app, rev_app_distr, <- app_assoc. exact H.
Qed.

Lemma flash_verify_cursor cmd max_addr p f :
  0 <= max_addr < 4294967296 ->
  triple (on_track e0 p f) (cc2530_flash_verify cmd max_addr)
    (fun _ st =>
       exists q,
         on_track e0 q
           (rev (cursor_indices (Z.to_nat (Z.min max_addr 262144)) p)
            ++ f)%list st) nofault.
Proof.
  intros Hm. unfold cc2530_flash_verify. cstep.
  eapply triple_weaken;
    [apply verify_banks_cursor with (addr := 0); lia
    |intros ? Hst; exact Hst| |auto].
  intros r st [q H]. exists q.
  replace (Z.min max_addr (0 + 32768 * Z.of_nat 8) - 0)
    with (Z.min max_addr 262144) in H by lia.
  exact H.
Qed.

(** A programming run that has not complained returns 0 and has fetched
    the blocks of the image, as many as the function computes from
    [fwsize], and then, for the read-back, the bytes it compares them
    with. *)
Lemma do_program_cursor cmd fwsize readback p :
  let blocks := u16 (DIV_ROUND_UP fwsize PROG_BLOCK_SIZE) in
  let n := (Z.to_nat blocks * Z.to_nat PROG_BLOCK_SIZE)%nat in
  let m := Z.to_nat (Z.min (blocks * PROG_BLOCK_SIZE) 262144) in
  triple (on_track e0 p []) (cc2530_do_program cmd fwsize readback)
    (fun r st =>
       errors (console st) = e0 ->
       r = 0
       /\ fetched st
          = ((if readback =? 0 then [] else rev (cursor_indices m 0))
             ++ rev (cursor_indices n 0))%list)
    nofault.
Proof.
  intros blocks n m.
  assert (Hgone : forall (r : Z),
            triple (off_track (T := T) e0) (ret r)
              (fun r st =>
                 errors (console st) = e0 ->
                 r = 0
                 /\ fetched st
                    = ((if readback =? 0 then []
                        else rev (cursor_indices m 0))
                       ++ rev (cursor_indices n 0))%list) nofault).
  { intros r. apply triple_ret. unfold off_track. intros st H E. lia. }
  assert (Hb : 0 <= blocks * PROG_BLOCK_SIZE < 4294967296).
  { assert (0 <= blocks < 65536) by (apply Z.mod_pos_bound; lia).
    unfold PROG_BLOCK_SIZE. lia. }
  unfold cc2530_do_program. fold blocks.
  cstep.
  eapply triple_bind; [apply enable_dma_cursor|].
  intros [r|[cmd' result]]; cbv beta iota; [apply Hgone|].
  cstep. cstep; [cstep; apply Hgone|].
  eapply triple_bind; [apply clock_wait_cursor|].
  intros [r|[res tmo]]; cbv beta iota; [apply Hgone|].
  cstep; [cstep; apply Hgone|].
  cstep. cstep; [cstep; apply Hgone|].
  eapply triple_bind with (Q := fun _ => on_track e0 0 []).
  { intros st [Hle H]. unfold init_flash_ptr, on_track, at_cursor. simpl.
    split; [exact Hle|]. intros E. destruct (H E) as [_ Hf]. auto. }
  intros _.
  eapply triple_bind; [apply program_flash_cursor|]. intros r. fold n.
  cstep. cstep.
  change (nonzero readback) with (negb (readback =? 0)).
  destruct (readback =? 0) eqn:Hrb; cbn [negb].
  - cstep. cstep.
    match goal with
    | H : on_track _ _ _ _ |- _ =>
        intros E; destruct H as [_ H]; destruct (H E) as [_ Hf];
        split; [reflexivity|exact Hf]
    end.
  - eapply triple_bind
      with (Q := fun _ => on_track e0 0 (rev (cursor_indices n 0))).
    { intros st [Hle H]. unfold init_flash_ptr, on_track, at_cursor. simpl.
      split; [exact Hle|]. intros E. destruct (H E) as [_ Hf]. auto. }
    intros _.
    eapply triple_bind; [apply flash_verify_cursor; exact Hb|].
    intros num_bytes_ok. fold m. apply triple_exists. intros q.
    cstep. cstep. cstep.
    match goal with
    | H : on_track _ _ _ _ |- _ =>
        intros E; destruct H as [_ H]; destruct (H E) as [_ Hf];
        split; [reflexivity|exact Hf]
    end.
Qed.

End Cursor.

Section Fetches.

Context {T : Type} {backend : gpio_backend T} {heap : allocator T}.

Lemma cursor_indices_from_0 (n : Z) :
  0 <= n -> cursor_indices (Z.to_nat n) 0 = indices_from_0 n.
Proof.
  intros Hn. unfold indices_from_0. rewrite cursor_indices_mod by lia.
  apply map_ext. intros k. reflexivity.
Qed.

(** C10, amended: a programming run of an image of [l > 0] bytes (up to
    65535 * 1024, so that the 16-bit block count does not wrap) that starts
    with nothing fetched and ends without a message on stderr returns 0 and
    has fetched [1024 * ceil(l / 1024)] bytes for the burst writes, through
    the 16-bit cursor, at the indices [0, 1, 2, ...] taken modulo 65536;
    with read-back it has then fetched these bytes again, up to the 256 KiB
    of the eight banks.  For [l <= 65536] every fetched index is below [l]
    exactly when [l] is a multiple of 1024; for [l > 65536] every fetched
    index is below [l]. *)
Theorem do_program_fetches (cmd : option nat) (l readback r : Z)
    (st st' : state T) :
  0 < l <= 65535 * 1024 ->
  fetched st = [] ->
  cc2530_do_program cmd l readback st = Done r st' ->
  errors (console st') = errors (console st) ->
  r = 0
  /\ rev (fetched st')
     = (indices_from_0 (1024 * ((l + 1023) / 1024))
        ++ (if readback =? 0 then []
            else indices_from_0
                   (Z.min (1024 * ((l + 1023) / 1024)) 262144)))%list
  /\ (l <= 65536 ->
      (Forall (fun i => i < l) (fetched st') <-> l mod 1024 = 0))
  /\ (65536 < l -> Forall (fun i => i < l) (fetched st')).
Proof.
  intros Hl Hf Hrun He.
  pose proof (do_program_cursor (errors (console st)) cmd l readback
                (flash_ptr st) st) as H.
  rewrite Hrun in H.
  destruct H as [-> Hfetch];
    [split; [lia|intros _; split; [reflexivity|exact Hf]]|exact He|].
  set (blocks := u16 (DIV_ROUND_UP l PROG_BLOCK_SIZE)) in *.
  assert (Hblocks : blocks = (l + 1023) / 1024).
  { unfold blocks, u16, DIV_ROUND_UP, PROG_BLOCK_SIZE.
    rewrite Z.quot_div_nonneg by lia.
    replace (l + 1024 - 1) with (l + 1023) by lia.
    apply Z.mod_small.
    split; [apply Z.div_pos; lia|]. apply Z.div_lt_upper_bound; lia. }
  assert (Hb : 0 <= blocks < 65536)
    by (unfold blocks; apply Z.mod_pos_bound; lia).
  assert (Hrev : rev (fetched st')
                 = (indices_from_0 (1024 * blocks)
                    ++ (if readback =? 0 then []
                        else indices_from_0
                               (Z.min (1024 * blocks) 262144)))%list).
  { rewrite Hfetch, rev_app_distr, rev_involutive.
    replace (Z.to_nat blocks * Z.to_nat PROG_BLOCK_SIZE)%nat
      with (Z.to_nat (1024 * blocks)) by (unfold PROG_BLOCK_SIZE; lia).
    rewrite cursor_indices_from_0 by lia. f_equal.
    destruct (readback =? 0); [reflexivity|].
    rewrite rev_involutive.
    replace (blocks * PROG_BLOCK_SIZE) with (1024 * blocks)
      by (unfold PROG_BLOCK_SIZE; lia).
    apply cursor_indices_from_0. lia. }
  split; [reflexivity|]. split; [rewrite <- Hblocks; exact Hrev|].
  assert (Hagain : forall b,
            Forall (fun i => i < l) (indices_from_0 (1024 * blocks)) ->
            Forall (fun i => i < l)
              (if b : bool then []
               else indices_from_0 (Z.min (1024 * blocks) 262144))).
  { intros [|] Hall; [constructor|].
    rewrite List.Forall_forall in *. intros x Hx. apply Hall.
    unfold indices_from_0 in *. apply in_map_iff in Hx.
    destruct Hx as (k & <- & Hk). apply in_map_iff. exists k.
    split; [reflexivity|]. apply in_seq in Hk. apply in_seq. lia. }
  split.
  - intros Hle.
    rewrite <- Forall_rev_iff, Hrev, Forall_app.
    assert (Hiff : Forall (fun i => i < l) (indices_from_0 (1024 * blocks))
                   <-> l mod 1024 = 0).
    { unfold indices_from_0.
      rewrite indices_below by (rewrite ?Hblocks; Z.div_mod_to_equations; lia).
      rewrite Hblocks. Z.div_mod_to_equations. lia. }
    split.
    + intros [Hp _]. apply Hiff. exact Hp.
    + intros Hmod. apply Hiff in Hmod. split; [exact Hmod|].
      apply Hagain. exact Hmod.
  - intros Hgt.
    rewrite <- Forall_rev_iff, Hrev, Forall_app.
    assert (Hp : Forall (fun i => i < l) (indices_from_0 (1024 * blocks)))
      by (apply indices_wrapped; auto).
    split; [exact Hp|apply Hagain; exact Hp].
Qed.

End Fetches.

(** C10, as stated, fails: an image of 65537 bytes (not a multiple of 1024)
    is programmed in 65 blocks, 66560 bytes are fetched, and every index
    fetched is below 65537. *)
Lemma program_flash_65537_stays_inside :
  let l := 65537 in
  let blocks := u16 (DIV_ROUND_UP l PROG_BLOCK_SIZE) in
  let run := cc2530_program_flash (backend := quiet) None blocks
               (initial_state tt 0) in
  blocks = 65
  /\ value run = Some 1
  /\ fold_left (fun n _ => n + 1) (fetched (final run)) 0 = 65 * 1024
  /\ forallb (fun i => i <? l) (fetched (final run)) = true
  /\ l mod 1024 <> 0.
Proof. vm_compute. repeat split; try reflexivity. discriminate. Qed.

(** The theorem at work: an image of 1025 bytes for the simulated chip, two
    blocks, 2048 fetches, the last 1023 of them past the end of the image. *)
Lemma do_program_fetches_witness :
  (0 < 1025 <= 65535 * 1024
   /\ fetched (initial_state chip_reset 0) = []
   /\ cc2530_do_program (backend := simulated (healthy 0x20 (fun _ => 0)))
        None 1025 0 (initial_state chip_reset 0)
      = Done 0 (final two_block_run)
   /\ errors (console (final two_block_run))
      = errors (console (initial_state chip_reset 0)))
  /\ 0 = 0
  /\ rev (fetched (final two_block_run))
     = (indices_from_0 (1024 * ((1025 + 1023) / 1024))
        ++ (if 0 =? 0 then []
            else indices_from_0
                   (Z.min (1024 * ((1025 + 1023) / 1024)) 262144)))%list
  /\ (1025 <= 65536 ->
      (Forall (fun i => i < 1025) (fetched (final two_block_run))
       <-> 1025 mod 1024 = 0))
  /\ (65536 < 1025 ->
      Forall (fun i => i < 1025) (fetched (final two_block_run))).
Proof.
  assert (Hl : 0 < 1025 <= 65535 * 1024) by lia.
  assert (Hrun : cc2530_do_program
                   (backend := simulated (healthy 0x20 (fun _ => 0)))
                   None 1025 0 (initial_state chip_reset 0)
                 = Done 0 (final two_block_run))
    by (vm_compute; reflexivity).
  assert (He : errors (console (final two_block_run))
               = errors (console (initial_state chip_reset 0)))
    by (vm_compute; reflexivity).
  exact (conj (conj Hl (conj eq_refl (conj Hrun He)))
           (do_program_fetches None 1025 0 0 (initial_state chip_reset 0)
              (final two_block_run) Hl eq_refl Hrun He)).
Defined.

(** ** Command lookup *)

Lemma code_inj (c1 c2 : ascii) : code c1 - code c2 = 0 -> c1 = c2.
Proof.
  unfold code. intros H.
  assert (N_of_ascii c1 = N_of_ascii c2) as E by lia.
  rewrite <- (ascii_N_embedding c1), <- (ascii_N_embedding c2), E.
  reflexivity.
Qed.

(** With a NUL-free query, [strncmp] over the query's length is the prefix
    test. *)
Lemma strncmp_prefix (q s : string) :
  nul_free q = true ->
  (strncmp s q (strlen q) =? 0) = String.prefix q s.
Proof.
  revert s. induction q as [|c q IH]; intros s Hq;
    [destruct s; reflexivity|].
  simpl in Hq. apply andb_true_iff in Hq. destruct Hq as [Hc Hq].
  apply negb_true_iff in Hc. cbn [strlen]. rewrite Hc. cbn [strncmp].
  destruct s as [|c1 s]; cbn [head_char tail_str String.prefix].
  - rewrite Ascii.eqb_sym, Hc. apply Z.eqb_neq. intros H.
    apply code_inj in H. subst c. discriminate Hc.
  - destruct (ascii_dec c c1) as [<-|Hne].
    + rewrite Ascii.eqb_refl, Hc. apply IH. exact Hq.
    + destruct (Ascii.eqb c1 c) eqn:E.
      * apply Ascii.eqb_eq in E. congruence.
      * apply Z.eqb_neq. intros H. apply code_inj in H. congruence.
Qed.

Lemma prefix_nul_free (q s : string) :
  String.prefix q s = true -> nul_free s = true -> nul_free q = true.
Proof.
  revert s. induction q as [|c q IH]; intros s Hp Hs; [reflexivity|].
  destruct s as [|c1 s]; [discriminate|]. cbn [String.prefix] in Hp.
  destruct (ascii_dec c c1) as [<-|]; [|discriminate].
  simpl in *. apply andb_true_iff in Hs. destruct Hs as [Hc Hs].
  rewrite Hc. simpl. eapply IH; eassumption.
Qed.

(** The loop returns the first index whose name starts with the query. *)
Lemma find_cmd_from_first (tbl : list cc2530_cmd) (k : nat) (q : string) :
  nul_free q = true ->
  match find_cmd_from tbl k q with
  | Some i =>
      exists c, (k <= i)%nat /\ tbl !! (i - k)%nat = Some c
        /\ String.prefix q (cmd_name c) = true
        /\ forall j c', (j < i - k)%nat -> tbl !! j = Some c' ->
             String.prefix q (cmd_name c') = false
  | None => forall c, In c tbl -> String.prefix q (cmd_name c) = false
  end.
Proof.
  intros Hq. revert k. induction tbl as [|c tbl IH]; intros k.
  - simpl. intros c [].
  - cbn [find_cmd_from]. rewrite (strncmp_prefix q (cmd_name c) Hq).
    destruct (String.prefix q (cmd_name c)) eqn:E.
    + exists c. rewrite Nat.sub_diag. repeat split; auto. intros j c' Hj. lia.
    + specialize (IH (S k)). destruct (find_cmd_from tbl (S k) q) as [i|].
      * destruct IH as (c1 & Hk & Hl & Hp & Hfirst). exists c1.
        replace (i - k)%nat with (S (i - S k)) by lia.
        repeat split; auto; [lia|].
        intros [|j] c' Hj Hc'.
        -- simpl in Hc'. injection Hc' as <-. exact E.
        -- simpl in Hc'. apply (Hfirst j); [lia|exact Hc'].
      * intros c1 [<-|Hin]; auto.
Qed.

(** No name in the table is a prefix of another one. *)
Lemma command_names_prefix_free (a b : nat) (na nb : string) :
  map cmd_name cc2530_commands_init !! a = Some na ->
  map cmd_name cc2530_commands_init !! b = Some nb ->
  String.prefix na nb = true -> a = b.
Proof.
  intros Ha Hb Hp.
  do 12 (destruct a as [|a]; [
    simpl in Ha; injection Ha as <-;
    do 12 (destruct b as [|b];
           [simpl in Hb; injection Hb as <-;
            first [reflexivity | discriminate Hp]|]);
    discriminate Hb|]).
  discriminate Ha.
Qed.

Section Lookup.

Context {T : Type}.

(** C7: in every state whose table carries the initial names, a query that
    is a prefix of the name of an entry [c] is found; the entry returned is
    the first one in table order whose name starts with the query; and it is
    [c] itself when the query is the whole name of [c]. *)
Theorem find_cmd_by_name_first_prefix (st : state T) (q : string)
    (c : cc2530_cmd) :
  map cmd_name (cc2530_commands st) = map cmd_name cc2530_commands_init ->
  In c (cc2530_commands st) ->
  String.prefix q (cmd_name c) = true ->
  exists i c',
    find_cmd_by_name q st = Done (Some i) st
    /\ cc2530_commands st !! i = Some c'
    /\ String.prefix q (cmd_name c') = true
    /\ (forall j c'', (j < i)%nat -> cc2530_commands st !! j = Some c'' ->
          String.prefix q (cmd_name c'') = false)
    /\ (q = cmd_name c -> c' = c).
Proof.
  intros Hnames Hin Hpre.
  assert (Hc : nul_free (cmd_name c) = true).
  { apply (in_map cmd_name) in Hin. rewrite Hnames in Hin. simpl in Hin.
    repeat (destruct Hin as [<-|Hin]; [reflexivity|]). destruct Hin. }
  pose proof (prefix_nul_free _ _ Hpre Hc) as Hq.
  pose proof (find_cmd_from_first (cc2530_commands st) 0 q Hq) as H.
  unfold find_cmd_by_name, bind, get, ret.
  destruct (find_cmd_from (cc2530_commands st) 0 q) as [i|].
  - destruct H as (c' & _ & Hl & Hp & Hfirst). rewrite Nat.sub_0_r in *.
    exists i, c'. repeat split; auto.
    intros ->. apply list_elem_of_In, list_elem_of_lookup_1 in Hin.
    destruct Hin as [a Ha].
    assert (a = i); [|congruence].
    apply (command_names_prefix_free a i (cmd_name c) (cmd_name c')).
    + rewrite <- Hnames, list_lookup_fmap, Ha. reflexivity.
    + rewrite <- Hnames, list_lookup_fmap, Hl. reflexivity.
    + exact Hp.
  - rewrite (H c Hin) in Hpre. discriminate.
Qed.

End Lookup.

(** The theorem at work: "get_" is a prefix of "get_chip_id" (entry 10); the
    lookup returns "get_pc" (entry 3), the first name that starts so. *)
Lemma find_cmd_by_name_first_prefix_witness :
  let st := initial_state tt 0 in
  let c := mk_cmd "get_chip_id" CMD_GET_CHIP 0 2 in
  let q := "get_" in
  (map cmd_name (cc2530_commands st) = map cmd_name cc2530_commands_init
   /\ In c (cc2530_commands st)
   /\ String.prefix q (cmd_name c) = true)
  /\ exists i c',
       find_cmd_by_name q st = Done (Some i) st
       /\ cc2530_commands st !! i = Some c'
       /\ String.prefix q (cmd_name c') = true
       /\ (forall j c'', (j < i)%nat -> cc2530_commands st !! j = Some c'' ->
             String.prefix q (cmd_name c'') = false)
       /\ (q = cmd_name c -> c' = c).
Proof.
  intros st c q.
  assert (Hin : In c (cc2530_commands st))
    by (simpl; do 10 right; left; reflexivity).
  split; [exact (conj eq_refl (conj Hin eq_refl))|].
  exact (find_cmd_by_name_first_prefix st q c eq_refl Hin eq_refl).
Defined.

(** ** The 16-bit cursor *)

Lemma cursor_after_mod (n : nat) (p : Z) :
  0 <= p < 65536 -> cursor_after n p = (p + Z.of_nat n) mod 65536.
Proof.
  revert p. induction n as [|n IH]; intros p Hp.
  - simpl. rewrite Z.add_0_r, Z.mod_small; lia.
  - cbn [cursor_after]. rewrite IH by (apply Z.mod_pos_bound; lia).
    unfold u16. rewrite Zplus_mod_idemp_l. f_equal. lia.
Qed.

Section Fetch.

Context {T : Type}.

Lemma skip_bytes_run (n : nat) (st : state T) :
  exists st',
    skip_bytes n st = Done tt st'
    /\ flash_ptr st' = cursor_after n (flash_ptr st)
    /\ fwdata st' = fwdata st.
Proof.
  revert st. induction n as [|n IH]; intros st.
  - exists st. auto.
  - cbn [skip_bytes]. unfold bind at 1. unfold get_next_flash_byte at 1.
    destruct (IH (set_fetched (flash_ptr st :: fetched st)
                    (set_flash_ptr (u16 (flash_ptr st + 1)) st)))
      as (st' & Hrun & Hp & Hd).
    exists st'. auto.
Qed.

Lemma nth_fetch_value (n : N) (st : state T) :
  value (nth_fetch n st) = Some (fwdata st (Z.of_N n mod 65536)).
Proof.
  unfold nth_fetch, bind at 1, init_flash_ptr, modify.
  destruct (skip_bytes_run (N.to_nat n) (set_flash_ptr 0 st))
    as (st' & Hrun & Hp & Hd).
  unfold bind. rewrite Hrun. unfold get_next_flash_byte. simpl.
  rewrite Hd, Hp. simpl. rewrite cursor_after_mod by lia.
  rewrite N_nat_Z. reflexivity.
Qed.

(** C9: after a reset of the cursor, byte number [n] (from 0) handed out by
    [get_next_flash_byte] is [fwdata[n mod 65536]]; so 65536 fetches later
    the same byte comes again, and from offset 65536 on the image is
    streamed from its start again.  The size check of [main] lets such
    images through: 256 KiB fit a chip that reports flash-size code 4. *)
Theorem flash_cursor_wraps (st : state T) (n : N) :
  value (nth_fetch n st) = Some (fwdata st (Z.of_N n mod 65536))
  /\ value (nth_fetch (n + 65536) st) = value (nth_fetch n st)
  /\ image_fits (256 * 1024) (flash_size_switch 4 0 * 1024) = true.
Proof.
  split; [apply nth_fetch_value|]. split; [|reflexivity].
  rewrite !nth_fetch_value. do 2 f_equal.
  rewrite N2Z.inj_add. change (Z.of_N 65536) with (1 * 65536).
  apply Z_mod_plus_full.
Qed.

End Fetch.

(** ** Flash-size decoding *)



(** ** The DMA descriptor table *)

(** C5: the 32-byte table is the four documented 8-byte descriptors, with
    big-endian source, destination and length (1024), trigger and mode. *)
Theorem dma_desc_layout :
  length dma_desc = 32%nat /\ dma_desc = documented_dma_table.
Proof. split; reflexivity. Qed.

(** ** Runs on the simulated chip *)

(** C1: with DATA stuck high the readiness poll of [read_status] takes its
    1000 turns (1 + 1000 + 8 samples, 8 + 8000 + 8 clock pulses), the counter
    wraps to 2^32 - 1 instead of stopping at 0, nothing is printed, the
    answer byte is read (all ones) and the call returns 0. *)
Theorem do_cmd_stuck_line_reads_answer :
  let st := initial_state chip_reset 0 in
  let poll := wait_ready (backend := simulated stuck_high)
                (Z.to_nat DEFAULT_TIMEOUT) true st in
  let run := cc2530_do_cmd (backend := simulated stuck_high) (Some 4%nat)
               None [0] st in
  value poll = Some (true, 4294967295)
  /\ samples (hw (final poll)) = 1000%N
  /\ value run = Some (0, [0xFF])
  /\ console (final run) = []
  /\ samples (hw (final run)) = 1009%N
  /\ clock_rises (hw (final run)) = 8016%N.
Proof. vm_compute. repeat split; reflexivity. Qed.

(** C3: two blocks on a chip whose flash controller is never busy: all three
    polls of FCTL see it idle at the first read, block 1 included, and the
    function still returns 1. *)
Theorem program_flash_idle_chip_full_speed :
  let run := cc2530_program_flash
               (backend := simulated (healthy 0x20 (fun _ => 0))) None 2
               (initial_state chip_reset 0) in
  value run = Some 1
  /\ fctl_reads (hw (final run)) = 3%N
  /\ console (final run) = [].
Proof. vm_compute. repeat split; reflexivity. Qed.

(** C6: a chip identified at the third attempt: [main] prints its give-up
    message and stops before programming (no write_config reaches the chip,
    nothing is fetched from the image).  A chip never identified: the give-up
    test does not fire and [main] goes on to the size check. *)
Theorem main_identify_retry_off_by_one :
  let third := main (backend := simulated (late_id 2)) just_program
                 (firmware_file 1024) (initial_state chip_reset 0) in
  let never := main (backend := simulated (late_id 3)) just_program
                 (firmware_file 1024) (initial_state chip_reset 0) in
  value (identify_retry (backend := simulated (late_id 2)) None 3 0 0
           (initial_state chip_reset 0)) = Some (0, 0, 65536)
  /\ value third = Some 0
  /\ hd_error (console (final third))
     = Some (Stderr "timeout identifying the chip\n" [])
  /\ id_reads (hw (final third)) = 3%N
  /\ fetched (final third) = []
  /\ value (identify_retry (backend := simulated (late_id 3)) None 3 0 0
              (initial_state chip_reset 0)) = Some (4294967295, - EINVAL, 0)
  /\ value never = Some (- EINVAL)
  /\ hd_error (console (final never))
     = Some (Stderr "firmware file too big: %ld (max: %d)\n" [1024; 0]).
Proof. vm_compute. repeat split; reflexivity. Qed.

(** C2: a flash controller that stays busy for ever: both polls of
    [cc2530_program_flash] run out (1001 reads of FCTL each), no timeout is
    noticed, nothing is printed and [main] exits with status 0.  A flash
    controller that is busy for exactly 1000 reads: the timeout is noticed
    and printed, [cc2530_program_flash] returns 255, and [main] still exits
    with status 0. *)
Theorem main_flash_timeout_exit_0 :
  let busy := main (backend := simulated (healthy 0x20 (fun _ => 0x80)))
                just_program (firmware_file 1024)
                (initial_state chip_reset 0) in
  let slow := healthy 0x20 (fun n => if (n <? 1000)%N then 0x80 else 0) in
  let flash := cc2530_program_flash (backend := simulated slow) None 1
                 (initial_state chip_reset 0) in
  let late := main (backend := simulated slow) just_program
                (firmware_file 1024) (initial_state chip_reset 0) in
  option_map exit_status (value busy) = Some 0
  /\ console (final busy) = []
  /\ fctl_reads (hw (final busy)) = 2002%N
  /\ value flash = Some 255
  /\ console (final flash) = [Stderr "%s: timeout at %i\n" [0]]
  /\ option_map exit_status (value late) = Some 0
  /\ console (final late) = [Stderr "%s: timeout at %i\n" [0]].
Proof. vm_compute. repeat split; reflexivity. Qed.

(** ** Statuses, on any hardware whose direction switches succeed, with an
    allocator that does not fail *)

Section Status.

Context {T : Type} {backend : gpio_backend T} {heap : allocator T}.

Hypothesis Hdir : dir_ok backend.
Hypothesis Halloc : alloc_ok heap.

(** X1: As long as no direction switch and no [malloc] fails,
    [cc2530_do_cmd] on a table entry returns 0 whatever the target does: also
    when it has printed that it timed out, since [ret] then still holds the
    status of the last direction switch. *)
Theorem do_cmd_status_is_0 (i : nat) (params : option (list Z))
    (outbuf out : list Z) (r : Z) (st st' : state T) :
  cc2530_do_cmd (Some i) params outbuf st = Done (r, out) st' -> r = 0.
Proof.
  intros Hrun.
  assert (keeps (fun _ : state T => True)
            (cc2530_do_cmd (Some i) params outbuf)
            (fun rr => dir_ok backend -> Some i <> None ->
                       ok_or_nomem heap (fst rr))) as H.
  { apply keeps_do_cmd; intros; exact I. }
  specialize (H st I). rewrite Hrun in H. destruct H as [_ H].
  specialize (H Hdir ltac:(discriminate)).
  destruct H as [H0|[_ H0]]; [exact H0|destruct (H0 Halloc)].
Qed.

(** X2: As long as no direction switch and no [malloc] fails,
    [cc2530_chip_identify] returns 0 or [-EINVAL]; with [-EINVAL] (a chip id
    other than 0xA5) [*flash_size] is what the caller passed. *)
Theorem chip_identify_status (cmd : option nat) (flash_size r size : Z)
    (st st' : state T) :
  cc2530_chip_identify cmd flash_size st = Done (r, size) st' ->
  r = 0 \/ (r = - EINVAL /\ size = flash_size).
Proof.
  intros Hrun.
  assert (keeps (fun _ : state T => True)
            (cc2530_chip_identify cmd flash_size)
            (fun rf => dir_ok backend ->
               fst rf = 0 \/ (fst rf = - EINVAL /\ snd rf = flash_size)
               \/ (fst rf = -1 /\ ~ alloc_ok heap)))
    as H.
  { apply keeps_chip_identify_status with (ptr_ok := fun _ => True);
      intros; exact I. }
  specialize (H st I). rewrite Hrun in H. destruct H as [_ H].
  destruct (H Hdir) as [H0|[H0|[_ H0]]]; [auto|auto|destruct (H0 Halloc)].
Qed.

(** X3: As long as no direction switch and no [malloc] fails,
    [cc2530_flash_verify] returns the number of bytes it has read back,
    [max_addr] or the 256 KiB of the eight banks, whether they matched the
    image or not. *)
Theorem flash_verify_counts_reads (cmd : option nat) (max_addr r : Z)
    (st st' : state T) :
  0 <= max_addr < 4294967296 ->
  cc2530_flash_verify cmd max_addr st = Done r st' ->
  r = Z.min max_addr 262144.
Proof.
  intros Hm Hrun.
  assert (keeps (fun _ : state T => True) (cc2530_flash_verify cmd max_addr)
            (fun r => dir_ok backend -> alloc_ok heap ->
                      r = Z.min max_addr 262144)) as H.
  { apply keeps_flash_verify_count with (ptr_ok := fun _ => True);
      try (intros; exact I). exact Hm. }
  specialize (H st I). rewrite Hrun in H. destruct H as [_ H].
  exact (H Hdir Halloc).
Qed.

(** X4: As long as no direction switch and no [malloc] fails, the loop that
    enables DMA never makes [cc2530_do_program] return: after three
    [write_config] that were not echoed the run goes on as after one that
    was. *)
Theorem enable_dma_falls_through (n : nat) (cmd : option nat) (result : Z)
    (fl : flow Z (option nat * Z)) (st st' : state T) :
  table_inv st ->
  enable_dma n cmd result st = Done fl st' ->
  exists cmd' result', fl = Next (cmd', result').
Proof.
  intros Ht Hrun.
  assert (keeps table_inv (enable_dma n cmd result)
            (fun fl => match fl with
                       | Return _ => dir_ok backend -> alloc_ok heap -> False
                       | Next _ => True
                       end)) as H.
  { apply keeps_enable_dma_next; try (intros; assumption).
    intros st0 H0.
    rewrite (find_cmd_from_names _ cc2530_commands_init)
      by (apply table_kept_names; exact H0).
    discriminate. }
  specialize (H st Ht). rewrite Hrun in H. destruct H as [_ H].
  destruct fl as [r|[cmd' result']]; [destruct (H Hdir Halloc)|eauto].
Qed.

End Status.

Lemma plentiful_alloc_ok {T : Type} : alloc_ok (plentiful (T := T)).
Proof. intros n t. reflexivity. Qed.

(** X26: When [malloc] returns NULL, [cc2530_do_cmd] on a table entry returns
    -1 after the message of [perror]: the caller's buffer is as it was and
    no call into the GPIO backend has been made. *)
Theorem do_cmd_without_memory {T : Type} {backend : gpio_backend T}
    {heap : allocator T} (i : nat) (c : cc2530_cmd)
    (params : option (list Z)) (outbuf : list Z) (st : state T) :
  cc2530_commands st !! i = Some c ->
  fst (malloc (cmd_out c) (hw st)) = false ->
  cc2530_do_cmd (Some i) params outbuf st
  = Done (-1, outbuf)
      (set_console (Stderr "malloc" [] :: console st)
         (set_hw (snd (malloc (cmd_out c) (hw st))) st)).
Proof.
  intros Hc Hm. unfold cc2530_do_cmd, bind, deref. rewrite Hc. unfold call.
  destruct (malloc (cmd_out c) (hw st)) as [a h]. simpl in Hm. subst a.
  reflexivity.
Qed.

(** The theorem at work: [read_status] without memory, on pins that keep a
    log: the log stays empty. *)
Lemma do_cmd_without_memory_witness :
  let c := mk_cmd "read_status" CMD_RD_ST 0 1 in
  let st := initial_state (T := list gpio_call) [] 0 in
  (cc2530_commands st !! 4%nat = Some c
   /\ fst (malloc (allocator := barren) (cmd_out c) (hw st)) = false)
  /\ cc2530_do_cmd (backend := logged all_fine) (heap := barren)
       (Some 4%nat) None [0] st
     = Done (-1, [0])
         (set_console (Stderr "malloc" [] :: console st)
            (set_hw (snd (malloc (allocator := barren) (cmd_out c) (hw st)))
               st)).
Proof.
  intros c st.
  exact (conj (conj eq_refl eq_refl)
           (do_cmd_without_memory (backend := logged all_fine)
              (heap := barren) 4 c None [0] st eq_refl eq_refl)).
Defined.

Lemma wire_dir_ok : dir_ok wire_backend.
Proof.
  intros pin d t. simpl. unfold wire_set_direction.
  destruct (pin =? DATA_GPIO); reflexivity.
Qed.

Lemma quiet_dir_ok : dir_ok quiet.
Proof. intros pin d t. reflexivity. Qed.

(** The theorem at work: the target lets DATA go low at the 1000th poll;
    [cc2530_do_cmd] prints its timeout message, leaves the buffer alone and
    returns 0. *)
Lemma do_cmd_status_is_0_witness :
  (dir_ok wire_backend /\ alloc_ok wire_heap
   /\ cc2530_do_cmd (backend := wire_backend) (Some 4%nat) None [0]
        (initial_state slow_target 0)
      = Done (0, [0]) (final timed_out_run))
  /\ 0 = 0.
Proof.
  assert (Hrun : cc2530_do_cmd (backend := wire_backend) (Some 4%nat) None [0]
                   (initial_state slow_target 0)
                 = Done (0, [0]) (final timed_out_run))
    by (vm_compute; reflexivity).
  exact (conj (conj wire_dir_ok (conj plentiful_alloc_ok Hrun))
           (do_cmd_status_is_0 wire_dir_ok plentiful_alloc_ok 4%nat None [0]
              [0] 0
              (initial_state slow_target 0) (final timed_out_run) Hrun)).
Defined.

(** The theorem at work: a line that is always low shows chip id 0. *)
Lemma chip_identify_status_witness :
  (dir_ok quiet /\ alloc_ok quiet_heap
   /\ cc2530_chip_identify (backend := quiet) None 7 (initial_state tt 0)
      = Done (- EINVAL, 7) (final identify_run))
  /\ (- EINVAL = 0 \/ (- EINVAL = - EINVAL /\ 7 = 7)).
Proof.
  assert (Hrun : cc2530_chip_identify (backend := quiet) None 7
                   (initial_state tt 0)
                 = Done (- EINVAL, 7) (final identify_run))
    by (vm_compute; reflexivity).
  exact (conj (conj quiet_dir_ok (conj plentiful_alloc_ok Hrun))
           (chip_identify_status quiet_dir_ok plentiful_alloc_ok None 7
              (- EINVAL) 7
              (initial_state tt 0) (final identify_run) Hrun)).
Defined.

(** The theorem at work: four bytes read back as 0 against an image of
    0xFF: four mismatches are printed, and 4 is returned. *)
Lemma flash_verify_counts_reads_witness :
  (dir_ok quiet /\ alloc_ok quiet_heap /\ 0 <= 4 < 4294967296
   /\ cc2530_flash_verify (backend := quiet) None 4 ones_on_quiet
      = Done 4 (final verify_run))
  /\ 4 = Z.min 4 262144.
Proof.
  assert (Hm : 0 <= 4 < 4294967296) by lia.
  assert (Hrun : cc2530_flash_verify (backend := quiet) None 4 ones_on_quiet
                 = Done 4 (final verify_run))
    by (vm_compute; reflexivity).
  exact (conj (conj quiet_dir_ok (conj plentiful_alloc_ok (conj Hm Hrun)))
           (flash_verify_counts_reads quiet_dir_ok plentiful_alloc_ok None 4 4
              ones_on_quiet
              (final verify_run) Hm Hrun)).
Defined.

(** The theorem at work: on a line that is always low [write_config] is
    answered with 0 three times, and the loop is left without a status. *)
Lemma enable_dma_falls_through_witness :
  (dir_ok quiet /\ alloc_ok quiet_heap /\ table_inv (initial_state tt 0)
   /\ enable_dma (backend := quiet) 3 None 0 (initial_state tt 0)
      = Done (Next (Some 1%nat, 0)) (final enable_dma_run))
  /\ exists cmd' result',
       Next (R := Z) (Some 1%nat, 0) = Next (cmd', result').
Proof.
  assert (Ht : table_inv (initial_state tt 0)) by apply table_kept_refl.
  assert (Hrun : enable_dma (backend := quiet) 3 None 0 (initial_state tt 0)
                 = Done (Next (Some 1%nat, 0)) (final enable_dma_run))
    by (vm_compute; reflexivity).
  exact (conj (conj quiet_dir_ok (conj plentiful_alloc_ok (conj Ht Hrun)))
           (enable_dma_falls_through quiet_dir_ok plentiful_alloc_ok 3 None 0
              (Next (Some 1%nat, 0)) (initial_state tt 0)
              (final enable_dma_run) Ht Hrun)).
Defined.

(** [wait_ready_never_low] at work: the chip whose DATA line is stuck
    high. *)
Lemma wait_ready_never_low_witness :
  ((forall t, snd (fst (gpio_get_value (gpio_backend := simulated stuck_high)
                          DATA_GPIO t)) = true)
   /\ wait_ready (backend := simulated stuck_high)
        (Z.to_nat DEFAULT_TIMEOUT) true (initial_state chip_reset 0)
      = Done (true, 4294967295) (final stuck_poll_run))
  /\ (true, 4294967295) = (true, 4294967295).
Proof.
  assert (Hhigh : forall t,
            snd (fst (gpio_get_value (gpio_backend := simulated stuck_high)
                        DATA_GPIO t)) = true)
    by (intros t; reflexivity).
  assert (Hrun : wait_ready (backend := simulated stuck_high)
                   (Z.to_nat DEFAULT_TIMEOUT) true
                   (initial_state chip_reset 0)
                 = Done (true, 4294967295) (final stuck_poll_run))
    by (vm_compute; reflexivity).
  exact (conj (conj Hhigh Hrun)
           (wait_ready_never_low (Z.to_nat DEFAULT_TIMEOUT)
              (initial_state chip_reset 0) (final stuck_poll_run)
              (true, 4294967295) Hhigh Hrun)).
Defined.

(** [program_flash_never_0] at work: one block on the line that is always
    low. *)
Lemma program_flash_never_0_witness :
  (dir_ok quiet
   /\ cc2530_program_flash (backend := quiet) None 1 (initial_state tt 0)
      = Done 1 (final one_block_run))
  /\ (1 = 1 \/ 1 = 255).
Proof.
  assert (Hrun : cc2530_program_flash (backend := quiet) None 1
                   (initial_state tt 0)
                 = Done 1 (final one_block_run))
    by (vm_compute; reflexivity).
  exact (conj (conj quiet_dir_ok Hrun)
           (program_flash_never_0 None 1 1 (initial_state tt 0)
              (final one_block_run) quiet_dir_ok Hrun)).
Defined.


(** ** The verdict of the read-back *)

Create HintDb readback.

Section Readback.

Context {T : Type} {backend : gpio_backend T} {heap : allocator T}.

Hypothesis Hdir : dir_ok backend.
Hypothesis Halloc : alloc_ok heap.

Variable v : Z.
Hypothesis Hv : nonzero v = true.

Ltac verbose_sides :=
  try exact (fun _ : option nat => True);
  try solve [ unfold verbose_is; intros; simpl; auto
            | intros; exact I ].

Lemma verbose_is_store (st : state T) cmd x :
  verbose_is v st -> verbose_is v (final (store_in cmd x st)).
Proof.
  intros HI. unfold store_in, bind, deref.
  destruct cmd as [i|]; [|exact HI].
  destruct (cc2530_commands st !! i); exact HI.
Qed.

Ltac verbose_store := intros; apply verbose_is_store; assumption.

Lemma readback_get_verbose :
  keeps (verbose_is (T := T) v) (get verbose) (fun x => x = v).
Proof. intros st HI. simpl. auto. Qed.

Lemma readback_printf fmt args :
  keeps (verbose_is (T := T) v) (printf fmt args) (fun _ => True).
Proof. apply keeps_printf; verbose_sides. Qed.

Lemma readback_eprintf fmt args :
  keeps (verbose_is (T := T) v) (eprintf fmt args) (fun _ => True).
Proof. apply keeps_eprintf; verbose_sides. Qed.

Lemma readback_enable_dma n cmd result :
  keeps (verbose_is v) (enable_dma n cmd result)
    (fun fl => match fl with
               | Return r => nonzero r = true
               | Next _ => True
               end).
Proof. apply keeps_enable_dma_status; verbose_sides. Qed.

Lemma readback_write_xdata_memory cmd addr x :
  keeps (verbose_is v) (cc2530_write_xdata_memory cmd addr x)
    (fun r => r = 0).
Proof.
  eapply keeps_weaken;
    [apply keeps_write_xdata_memory with (ptr_ok := fun _ => True);
       verbose_sides; verbose_store|].
  intros r Hr. destruct (Hr Hdir) as [H0|[_ H0]];
    [exact H0|destruct (H0 Halloc)].
Qed.

Lemma readback_clock_wait cmd n result :
  keeps (verbose_is v) (clock_wait cmd n result)
    (fun fl => match fl with
               | Return r => nonzero r = true
               | Next _ => True
               end).
Proof.
  apply keeps_clock_wait_status with (ptr_ok := fun _ => True);
    verbose_sides.
  verbose_store.
Qed.

Lemma readback_chip_erase cmd :
  keeps (verbose_is v) (cc2530_chip_erase cmd) (fun _ => True).
Proof. apply keeps_chip_erase; verbose_sides. Qed.

Lemma readback_init_flash_ptr :
  keeps (verbose_is (T := T) v) init_flash_ptr (fun _ => True).
Proof. apply keeps_init_flash_ptr; verbose_sides. Qed.

Lemma readback_program_flash cmd nb :
  keeps (verbose_is v) (cc2530_program_flash cmd nb) (fun _ => True).
Proof.
  apply keeps_program_flash with (ptr_ok := fun _ => True); verbose_sides.
  verbose_store.
Qed.

Lemma readback_flash_verify cmd max_addr :
  0 <= max_addr < 4294967296 ->
  keeps (verbose_is v) (cc2530_flash_verify cmd max_addr)
    (fun r => r = Z.min max_addr 262144).
Proof.
  intros Hm.
  eapply keeps_weaken;
    [apply keeps_flash_verify_count with (ptr_ok := fun _ => True);
       verbose_sides; verbose_store|].
  intros r Hr. exact (Hr Hdir Halloc).
Qed.

Hint Resolve readback_get_verbose readback_printf readback_eprintf
  readback_enable_dma readback_write_xdata_memory readback_clock_wait
  readback_chip_erase readback_init_flash_ptr readback_program_flash
  : readback.
Hint Resolve keeps_get | 9 : readback.
Hint Resolve keeps_if keeps_ret_any : readback.

(** One step through [cc2530_do_program], up to the verdict. *)
Ltac vstep :=
  lazymatch goal with
  | |- triple _ (ret _) _ _ => apply triple_ret; intros ? ?
  | |- triple _ (bind (if _ =? _ then _ else _) _) _ _ => fail
  | |- triple _ (bind _ _) _ _ =>
      eapply triple_bind_keeps; [ solve [ eauto with readback ] | intros ? ? ]
  | |- triple _ (if ?b then _ else _) _ _ => destruct b eqn:?
  | |- triple _ (match ?x with _ => _ end) _ _ => destruct x eqn:?
  end.

Ltac vdone :=
  cbv beta iota in *;
  try match goal with
      | H : ?x = 0, E : nonzero ?x = true |- _ =>
          rewrite H in E; discriminate E
      end;
  lazymatch goal with
  | |- triple _ _ _ _ => idtac
  | |- _ = 0 -> _ =>
      let H := fresh in
      intros H;
      try discriminate H;
      try match goal with
          | E : nonzero ?x = true |- _ => rewrite H in E; discriminate E
          end
  | |- _ => idtac
  end.

Lemma do_program_verdict cmd fwsize readback :
  0 <= fwsize <= 262144 -> nonzero readback = true ->
  triple (verbose_is v) (cc2530_do_program cmd fwsize readback)
    (fun r st =>
       r = 0 ->
       hd_error (console st) = Some (Stdout "Verification OK\n" []))
    nofault.
Proof.
  intros Hsize Hrb.
  set (blocks := u16 (DIV_ROUND_UP fwsize PROG_BLOCK_SIZE)).
  assert (Hb : 0 <= blocks * PROG_BLOCK_SIZE <= 262144).
  { unfold blocks, u16, DIV_ROUND_UP, PROG_BLOCK_SIZE.
    rewrite Z.quot_div_nonneg by lia.
    assert (0 <= (fwsize + 1024 - 1) / 1024 <= 256).
    { split; [apply Z.div_pos; lia|].
      apply Z.lt_succ_r, Z.div_lt_upper_bound; lia. }
    rewrite Z.mod_small by lia. lia. }
  assert (Hver := fun cmd =>
            readback_flash_verify cmd (blocks * PROG_BLOCK_SIZE)
              ltac:(lia)).
  unfold cc2530_do_program. fold blocks.
  repeat (vstep; vdone).
  - match goal with
    | E : negb (nonzero readback) = true |- _ =>
        rewrite Hrb in E; discriminate E
    end.
  - match goal with
    | Hn : _ = Z.min _ _, Hx : _ = v |- _ =>
        rewrite Hn, Hx, Hv, Z.min_l, Z.eqb_refl by lia
    end.
    eapply triple_bind
      with (Q := fun _ st =>
                   hd_error (console st)
                   = Some (Stdout "Verification OK\n" [])).
    + intros st _. reflexivity.
    + intros _. eapply triple_bind_keeps.
      * apply keeps_leave_debug. intros st h Hst. exact Hst.
      * intros r _. apply triple_ret. auto.
Qed.

(** X7: As long as no direction switch and no [malloc] fails: when
    [cc2530_do_program] is asked to read back an image of up to 256 KiB, is
    verbose, and returns 0, the last thing it has printed is
    "Verification OK": the verdict does not depend on whether the bytes read
    back were those of the image. *)
Theorem do_program_always_verification_ok (cmd : option nat)
    (fwsize readback : Z) (st st' : state T) :
  0 <= fwsize <= 262144 -> readback <> 0 -> verbose st = v ->
  cc2530_do_program cmd fwsize readback st = Done 0 st' ->
  hd_error (console st') = Some (Stdout "Verification OK\n" []).
Proof.
  intros Hsize Hrb Hst Hrun.
  assert (Hnz : nonzero readback = true).
  { unfold nonzero. apply negb_true_iff, Z.eqb_neq. exact Hrb. }
  pose proof (do_program_verdict cmd fwsize readback Hsize Hnz st Hst) as H.
  rewrite Hrun in H. apply H. reflexivity.
Qed.

End Readback.

(** The theorem at work: an image of four bytes 0xFF on the line that is
    always low; every byte read back is 0, each mismatch is printed, and the
    verdict is "Verification OK". *)
Lemma do_program_always_verification_ok_witness :
  (dir_ok quiet /\ alloc_ok quiet_heap /\ nonzero 1 = true
   /\ 0 <= 4 <= 262144 /\ 1 <> 0
   /\ verbose ones_on_quiet = 1
   /\ cc2530_do_program (backend := quiet) None 4 1 ones_on_quiet
      = Done 0 (final readback_run))
  /\ hd_error (console (final readback_run))
     = Some (Stdout "Verification OK\n" []).
Proof.
  assert (Hs : 0 <= 4 <= 262144) by lia.
  assert (Hr : 1 <> 0) by discriminate.
  assert (Hrun : cc2530_do_program (backend := quiet) None 4 1 ones_on_quiet
                 = Done 0 (final readback_run))
    by (vm_compute; reflexivity).
  exact (conj (conj quiet_dir_ok
                 (conj plentiful_alloc_ok
                    (conj eq_refl (conj Hs (conj Hr (conj eq_refl Hrun))))))
           (do_program_always_verification_ok quiet_dir_ok plentiful_alloc_ok
              1 eq_refl None 4 1 ones_on_quiet (final readback_run) Hs Hr
              eq_refl Hrun)).
Defined.

(** ** What [main] returns *)

Section Exit.

Context {T : Type} {backend : gpio_backend T} {heap : allocator T}.

Hypothesis Hdir : dir_ok backend.

(** X8: Whatever the command line, the files and the target, [main] returns 0,
    -1 or [-EINVAL]: the status of the last identification, or -1 for a
    failed setup, allocation or programming run. *)
Theorem main_returns_0_m1_or_einval (opts : options) (fs : files) (r : Z)
    (st st' : state T) :
  main opts fs st = Done r st' -> r = 0 \/ r = -1 \/ r = - EINVAL.
Proof.
  intros Hrun.
  assert (keeps (fun _ : state T => True) (main opts fs)
            (fun r => dir_ok backend -> r = 0 \/ r = -1 \/ r = - EINVAL))
    as H.
  { apply keeps_main_status with (ptr_ok := fun _ => True); intros; exact I. }
  specialize (H st I). rewrite Hrun in H. destruct H as [_ H].
  exact (H Hdir).
Qed.

(** X9: With [-c command] and pins that can be exported, [main] returns 0: the
    status of [cc2530_oneshot_command] (unknown command, failed command) is
    dropped. *)
Theorem main_oneshot_returns_0 (opts : options) (fs : files) (c : string)
    (r : Z) (st st' : state T) :
  export_ok backend ->
  2 <= argc opts -> do_identify opts = 0 -> command opts = Some c ->
  main opts fs st = Done r st' -> r = 0.
Proof.
  intros Hexp Hargc Hid Hc Hrun.
  assert (keeps (fun _ : state T => True) (main opts fs)
            (fun r => export_ok backend -> dir_ok backend -> r = 0)) as H.
  { apply keeps_main_oneshot with (c := c);
      try (intros; exact I); try assumption.
    - apply Z.leb_le. exact Hargc.
    - rewrite Hid. reflexivity. }
  specialize (H st I). rewrite Hrun in H. destruct H as [_ H].
  exact (H Hexp Hdir).
Qed.

End Exit.

Lemma quiet_export_ok : export_ok quiet.
Proof. intros pin t. reflexivity. Qed.

(** The theorem at work: on the line that is always low the chip is never
    identified, and [main] returns the [-EINVAL] of the last attempt. *)
Lemma main_returns_0_m1_or_einval_witness :
  (dir_ok quiet
   /\ main (backend := quiet) just_program (firmware_file 1024)
        (initial_state tt 0)
      = Done (- EINVAL) (final main_quiet_run))
  /\ (- EINVAL = 0 \/ - EINVAL = -1 \/ - EINVAL = - EINVAL).
Proof.
  assert (Hrun : main (backend := quiet) just_program (firmware_file 1024)
                   (initial_state tt 0)
                 = Done (- EINVAL) (final main_quiet_run))
    by (vm_compute; reflexivity).
  exact (conj (conj quiet_dir_ok Hrun)
           (main_returns_0_m1_or_einval quiet_dir_ok just_program
              (firmware_file 1024) (- EINVAL) (initial_state tt 0)
              (final main_quiet_run) Hrun)).
Defined.

(** The theorem at work: [cc2530prog -c reboot] returns 0. *)
Lemma main_oneshot_returns_0_witness :
  (dir_ok quiet /\ export_ok quiet
   /\ 2 <= argc oneshot_reboot /\ do_identify oneshot_reboot = 0
   /\ command oneshot_reboot = Some "reboot"
   /\ main (backend := quiet) oneshot_reboot (firmware_file 0)
        (initial_state tt 0)
      = Done 0 (final main_reboot_run))
  /\ 0 = 0.
Proof.
  assert (Ha : 2 <= argc oneshot_reboot) by (simpl; lia).
  assert (Hrun : main (backend := quiet) oneshot_reboot (firmware_file 0)
                   (initial_state tt 0)
                 = Done 0 (final main_reboot_run))
    by (vm_compute; reflexivity).
  exact (conj (conj quiet_dir_ok
                 (conj quiet_export_ok
                    (conj Ha (conj eq_refl (conj eq_refl Hrun)))))
           (main_oneshot_returns_0 quiet_dir_ok oneshot_reboot
              (firmware_file 0) "reboot" 0 (initial_state tt 0)
              (final main_reboot_run) quiet_export_ok Ha eq_refl eq_refl
              Hrun)).
Defined.

(** ** Lookups that miss *)

Section Miss.

Context {T : Type}.

(** X10: A query without NUL characters is not found exactly when no name in the
    table starts with it; the state is as it was. *)
Theorem find_cmd_by_name_none_iff (st : state T) (q : string) :
  nul_free q = true ->
  (find_cmd_by_name q st = Done None st
   <-> forall c, In c (cc2530_commands st) ->
         String.prefix q (cmd_name c) = false).
Proof.
  intros Hq.
  pose proof (find_cmd_from_first (cc2530_commands st) 0 q Hq) as H.
  unfold find_cmd_by_name, bind, get, ret.
  destruct (find_cmd_from (cc2530_commands st) 0 q) as [i|].
  - destruct H as (c & _ & Hl & Hp & _). split; [discriminate|].
    intros Hall. rewrite Nat.sub_0_r in Hl.
    assert (Hin : In c (cc2530_commands st)).
    { apply list_elem_of_In. eapply list_elem_of_lookup_2. exact Hl. }
    rewrite (Hall c Hin) in Hp. discriminate.
  - split; [intros _; exact H|reflexivity].
Qed.

(** X11: [cc2530_oneshot_command] with a query without NUL characters
    that no name in the table starts with returns -1 after one line on
    stderr; nothing reaches the hardware. *)
Theorem oneshot_command_unknown {backend : gpio_backend T}
    {heap : allocator T} (cmd : option nat) (q : string) (st : state T) :
  nul_free q = true ->
  (forall c, In c (cc2530_commands st) ->
     String.prefix q (cmd_name c) = false) ->
  cc2530_oneshot_command cmd q st
  = Done (-1)
      (set_console (Stderr "unknown command: %s\n" [] :: console st) st).
Proof.
  intros Hq Hall.
  pose proof (find_cmd_from_first (cc2530_commands st) 0 q Hq) as H.
  unfold cc2530_oneshot_command, find_cmd_by_name, bind, get, ret.
  destruct (find_cmd_from (cc2530_commands st) 0 q) as [i|]; [|reflexivity].
  destruct H as (c & _ & Hl & Hp & _). rewrite Nat.sub_0_r in Hl.
  assert (Hin : In c (cc2530_commands st)).
  { apply list_elem_of_In. eapply list_elem_of_lookup_2. exact Hl. }
  rewrite (Hall c Hin) in Hp. discriminate.
Qed.

End Miss.

Lemma no_reboot_command (c : cc2530_cmd) :
  In c cc2530_commands_init -> String.prefix "reboot" (cmd_name c) = false.
Proof.
  simpl. intros H.
  repeat (destruct H as [<-|H]; [reflexivity|]). destruct H.
Qed.

(** The theorem at work: there is no command that starts with "reboot". *)
Lemma find_cmd_by_name_none_iff_witness :
  nul_free "reboot" = true
  /\ (find_cmd_by_name "reboot" (initial_state tt 0)
      = Done None (initial_state tt 0)
      <-> forall c, In c (cc2530_commands (initial_state tt 0)) ->
            String.prefix "reboot" (cmd_name c) = false).
Proof.
  exact (conj eq_refl
           (find_cmd_by_name_none_iff (initial_state tt 0) "reboot" eq_refl)).
Defined.

Lemma oneshot_command_unknown_witness :
  (nul_free "reboot" = true
   /\ forall c, In c (cc2530_commands (initial_state tt 0)) ->
        String.prefix "reboot" (cmd_name c) = false)
  /\ cc2530_oneshot_command (backend := quiet) None "reboot"
       (initial_state tt 0)
     = Done (-1)
         (set_console
            (Stderr "unknown command: %s\n" []
               :: console (initial_state tt 0))
            (initial_state tt 0)).
Proof.
  exact (conj (conj eq_refl no_reboot_command)
           (oneshot_command_unknown (backend := quiet) None "reboot"
              (initial_state tt 0) eq_refl no_reboot_command)).
Defined.

(** ** Setting up and releasing the pins *)

Section Pins.

Variable s : script.

(** Any allocator will do: what [malloc] answers has no part in this. *)
Context {heap : allocator (list gpio_call)}.

Local Abbreviation state := (state (list gpio_call)).

(** The setup loop stops at the first call that fails: the calls made are
    setup calls only, and the status is 0 only when each of the calls of the
    full setup was made and returned 0. *)
Lemma gpio_init_loop_log (pins : list Z) (st : state) :
  exists r st' new,
    gpio_init_loop (backend := logged s) pins st = Done r st'
    /\ hw st' = (new ++ hw st)%list
    /\ forallb is_setup_call new = true
    /\ (nonzero r = true -> new <> [])
    /\ (nonzero r = false ->
        forall c,
          In c (flat_map
                  (fun pin => [Export pin; SetDirection pin GPIO_DIRECTION_OUT])
                  pins) ->
          exists log, status s log c = 0).
Proof.
  revert st. induction pins as [|pin pins IH]; intros st.
  - exists 0, st, []. repeat split; [discriminate|]. intros _ c [].
  - cbn [gpio_init_loop]. unfold bind at 1, call at 1.
    cbn [logged gpio_export].
    set (r1 := status s (hw st) (Export pin)).
    destruct (negb (r1 =? 0)) eqn:E1.
    + eexists _, _, [Export pin]. split; [reflexivity|].
      repeat split; [discriminate|]. unfold nonzero. rewrite E1. discriminate.
    + unfold bind at 1, call at 1. cbn [logged gpio_set_direction hw set_hw].
      set (r2 := status s (Export pin :: hw st)
                   (SetDirection pin GPIO_DIRECTION_OUT)).
      destruct (negb (r2 =? 0)) eqn:E2.
      * eexists _, _, [SetDirection pin GPIO_DIRECTION_OUT; Export pin].
        split; [reflexivity|].
        repeat split; [discriminate|]. unfold nonzero. rewrite E2.
        discriminate.
      * match goal with
        | |- context [gpio_init_loop pins ?st1] =>
            destruct (IH st1)
              as (r & st' & new & Hrun & Hlog & Hall & Hne & Hok)
        end.
        exists r, st',
          (new ++ [SetDirection pin GPIO_DIRECTION_OUT; Export pin])%list.
        split; [exact Hrun|].
        cbn [hw set_hw] in Hlog. rewrite Hlog, <- app_assoc.
        split; [reflexivity|]. split.
        { rewrite forallb_app, Hall. reflexivity. }
        split.
        { intros _ H. apply app_eq_nil in H. destruct H as [_ H].
          discriminate H. }
        intros Hr c Hin. cbn [flat_map] in Hin.
        apply negb_false_iff, Z.eqb_eq in E1, E2.
        destruct Hin as [<-|[<-|Hin]]; [eauto|eauto|].
        apply (Hok Hr c). exact Hin.
Qed.

(** X12: When a call of the setup fails whenever it is made, [main] returns -1
    after setup calls only: the pins exported before the failure stay
    exported. *)
Theorem main_failed_setup_releases_nothing (opts : options) (fs : files)
    (st : state) :
  2 <= argc opts ->
  (exists c, In c setup_calls /\ forall log, status s log c <> 0) ->
  exists st' new,
    main (backend := logged s) opts fs st = Done (-1) st'
    /\ hw st' = (new ++ hw st)%list
    /\ new <> []
    /\ forallb is_setup_call new = true
    /\ hd_error (console st')
       = Some (Stderr "failed to initialize GPIOs\n" []).
Proof.
  intros Hargc (c & Hin & Hfail).
  unfold main. unfold bind at 1, modify at 1. unfold bind at 1, modify at 1.
  replace (argc opts <? 2) with false by (symmetry; apply Z.ltb_ge; lia).
  unfold bind at 1, cc2530_gpio_init.
  match goal with
  | |- context [gpio_init_loop gpios ?st1] =>
      destruct (gpio_init_loop_log gpios st1)
        as (r & st' & new & Hrun & Hlog & Hall & Hne & Hok)
  end.
  rewrite Hrun. destruct (nonzero r) eqn:Hr.
  - eexists _, new. split; [reflexivity|]. cbn [hw set_hw set_console].
    repeat split; auto.
  - destruct (Hok eq_refl c Hin) as [log Hlog0].
    destruct (Hfail log Hlog0).
Qed.

Lemma gpio_deinit_loop_log (pins : list Z) (st : state) :
  (forall log pin,
     status s log (SetDirection pin GPIO_DIRECTION_IN) = 0
     /\ status s log (Unexport pin) = 0) ->
  gpio_deinit_loop (backend := logged s) pins st
  = Done 0
      (set_hw
         (rev (flat_map
                 (fun pin => [SetDirection pin GPIO_DIRECTION_IN; Unexport pin])
                 pins) ++ hw st)%list st).
Proof.
  intros Hok. revert st. induction pins as [|pin pins IH]; intros st.
  - destruct st; reflexivity.
  - cbn [gpio_deinit_loop]. unfold bind at 1, call at 1.
    cbn [logged gpio_set_direction].
    rewrite (proj1 (Hok _ _)). cbn [Z.eqb negb].
    unfold bind at 1, call at 1. cbn [logged gpio_unexport hw set_hw].
    rewrite (proj2 (Hok _ _)). cbn [Z.eqb negb].
    rewrite IH. cbn [flat_map rev app hw set_hw].
    rewrite <- !app_assoc. reflexivity.
Qed.

(** The label [out:] makes the release calls, when switching to input and
    unexporting do not fail. *)
Lemma main_out_log (r : Z) (st : state) :
  (forall log pin,
     status s log (SetDirection pin GPIO_DIRECTION_IN) = 0
     /\ status s log (Unexport pin) = 0) ->
  main_out (backend := logged s) r st
  = Done r (set_hw (rev release_calls ++ hw st)%list st).
Proof.
  intros Hok. unfold main_out, cc2530_leave_debug, cc2530_gpio_deinit.
  unfold bind at 1. unfold bind at 1, call at 1. cbn [logged gpio_set_value].
  unfold bind at 1, call at 1. cbn [logged gpio_set_value hw set_hw].
  unfold ret at 1. unfold bind at 1.
  rewrite (gpio_deinit_loop_log gpios _ Hok).
  unfold release_calls. rewrite rev_app_distr, <- app_assoc. reflexivity.
Qed.

Lemma triple_bind_any {A B} (m : M (list gpio_call) A)
    (k : A -> M (list gpio_call) B) R :
  (forall a, triple (fun _ => True) (k a) R nofault) ->
  triple (fun _ => True) (bind m k) R nofault.
Proof.
  intros Hk st _. unfold bind.
  destruct (m st) as [a st'|st']; [exact (Hk a st' I)|exact I].
Qed.

Hypothesis Hrelease :
  forall log pin,
    status s log (SetDirection pin GPIO_DIRECTION_IN) = 0
    /\ status s log (Unexport pin) = 0.

Lemma release_leaf (r : Z) :
  triple (fun _ => True) (main_out (backend := logged s) r)
    (fun r st =>
       (exists log, hw st = (rev release_calls ++ log)%list)
       \/ (r = -1
           /\ (hd_error (console st)
               = Some (Stdout usage_text [])
               \/ hd_error (console st)
                  = Some (Stderr "failed to initialize GPIOs\n" []))))
    nofault.
Proof.
  intros st _. rewrite (main_out_log r st Hrelease). left. eexists.
  reflexivity.
Qed.

Ltac bstep :=
  lazymatch goal with
  | |- triple _ (main_out _) _ _ => apply release_leaf
  | |- triple _ (bind (printf _ _) (fun _ => ret _)) _ _ =>
      intros ? _; right; split; [reflexivity|left; reflexivity]
  | |- triple _ (bind (eprintf _ _) (fun _ => ret _)) _ _ =>
      intros ? _; right; split; [reflexivity|right; reflexivity]
  | |- triple _ (bind _ _) _ _ => apply triple_bind_any; intros ?
  | |- triple _ (if ?b then _ else _) _ _ => destruct b
  | |- triple _ (match ?x with _ => _ end) _ _ => destruct x
  end.

(** X13: Every run of [main] that got past the setup ends with the release
    calls: the reset pulse of [cc2530_leave_debug], then each pin switched
    to input and unexported.  The other runs return -1 after the usage text
    or the message of the failed setup. *)
Theorem main_releases_the_pins (opts : options) (fs : files) (r : Z)
    (st st' : state) :
  main (backend := logged s) opts fs st = Done r st' ->
  (exists log, hw st' = (rev release_calls ++ log)%list)
  \/ (r = -1
      /\ (hd_error (console st')
          = Some (Stdout usage_text [])
          \/ hd_error (console st')
             = Some (Stderr "failed to initialize GPIOs\n" []))).
Proof.
  intros Hrun.
  assert (triple (fun _ => True) (main (backend := logged s) opts fs)
            (fun r st =>
               (exists log, hw st = (rev release_calls ++ log)%list)
               \/ (r = -1
                   /\ (hd_error (console st)
                       = Some (Stdout usage_text [])
                       \/ hd_error (console st)
                          = Some (Stderr "failed to initialize GPIOs\n" []))))
            nofault) as H.
  { unfold main, usage. repeat bstep. }
  specialize (H st I). rewrite Hrun in H. exact H.
Qed.

End Pins.

(** The theorem at work: the clock pin cannot be exported; [main] stops
    there. *)
Lemma main_failed_setup_releases_nothing_witness :
  (2 <= argc just_program
   /\ exists c, In c setup_calls /\ forall log, status no_clock_pin log c <> 0)
  /\ exists st' new,
       main (backend := logged no_clock_pin) (heap := plentiful)
         just_program (firmware_file 1024) (initial_state [] 0)
       = Done (-1) st'
       /\ hw st' = (new ++ hw (initial_state [] 0))%list
       /\ new <> []
       /\ forallb is_setup_call new = true
       /\ hd_error (console st')
          = Some (Stderr "failed to initialize GPIOs\n" []).
Proof.
  assert (Ha : 2 <= argc just_program) by (simpl; lia).
  assert (Hc : exists c, In c setup_calls
                         /\ forall log, status no_clock_pin log c <> 0).
  { exists (Export CCLK_GPIO). split; [simpl; auto|]. intros log.
    discriminate. }
  exact (conj (conj Ha Hc)
           (main_failed_setup_releases_nothing no_clock_pin
              (heap := plentiful) just_program (firmware_file 1024)
              (initial_state [] 0) Ha Hc)).
Defined.

(** The theorem at work: [cc2530prog -l] on pins that never fail. *)
Lemma main_releases_the_pins_witness :
  ((forall log pin,
      status all_fine log (SetDirection pin GPIO_DIRECTION_IN) = 0
      /\ status all_fine log (Unexport pin) = 0)
   /\ main (backend := logged all_fine) (heap := plentiful) list_commands
        (firmware_file 0) (initial_state [] 0)
      = Done 0 (final main_list_run))
  /\ ((exists log,
         hw (final main_list_run) = (rev release_calls ++ log)%list)
      \/ (0 = -1
          /\ (hd_error (console (final main_list_run))
              = Some (Stdout usage_text [])
              \/ hd_error (console (final main_list_run))
                 = Some (Stderr "failed to initialize GPIOs\n" [])))).
Proof.
  assert (Hr : forall log pin,
            status all_fine log (SetDirection pin GPIO_DIRECTION_IN) = 0
            /\ status all_fine log (Unexport pin) = 0)
    by (intros log pin; split; reflexivity).
  assert (Hrun : main (backend := logged all_fine) (heap := plentiful)
                   list_commands (firmware_file 0) (initial_state [] 0)
                 = Done 0 (final main_list_run))
    by (vm_compute; reflexivity).
  exact (conj (conj Hr Hrun)
           (main_releases_the_pins all_fine (heap := plentiful) Hr
              list_commands (firmware_file 0) 0 (initial_state [] 0)
              (final main_list_run) Hrun)).
Defined.

(** ** What goes over the wire *)

Lemma land_bit (b i : Z) :
  0 <= i -> negb (Z.land b (Z.shiftl 1 i) =? 0) = Z.testbit b i.
Proof.
  intros Hi. rewrite Z.shiftl_1_l.
  destruct (Z.testbit b i) eqn:E.
  - apply negb_true_iff, Z.eqb_neq. intros H.
    assert (Z.testbit (Z.land b (2 ^ i)) i = true) as Hb.
    { rewrite Z.land_spec, E, Z.pow2_bits_true by lia. reflexivity. }
    rewrite H, Z.bits_0 in Hb. discriminate.
  - apply negb_false_iff, Z.eqb_eq. apply Z.bits_inj'. intros j Hj.
    rewrite Z.land_spec, Z.bits_0, Z.pow2_bits_eqb by lia.
    destruct (Z.eqb_spec i j) as [<-|]; [rewrite E|];
      rewrite ?andb_false_r; reflexivity.
Qed.

Lemma last_cons {A} (x d : A) (l : list A) :
  List.last (x :: l) d = List.last l x.
Proof.
  revert x d. induction l as [|y l IH]; intros x d; [reflexivity|].
  change (List.last (x :: y :: l) d) with (List.last (y :: l) d).
  rewrite !IH. reflexivity.
Qed.

Lemma bits_of_byte_length (b : Z) : length (bits_of_byte b) = 8%nat.
Proof. reflexivity. Qed.

Lemma flat_bits_length (l : list Z) :
  length (flat_map bits_of_byte l) = (8 * length l)%nat.
Proof.
  rewrite (flat_map_constant_length (c := 8%nat))
    by (intros; apply bits_of_byte_length).
  lia.
Qed.

Lemma drop_highs {A} (k : nat) (x y : A) (l : list A) :
  drop (S k) (repeat x k ++ y :: l) = l.
Proof. induction k as [|k IH]; [reflexivity|exact IH]. Qed.

Section Wire.

Local Abbreviation state := (state wire).

Local Existing Instance wire_backend.

Lemma set_hw_same (st : state) : set_hw (hw st) st = st.
Proof. destruct st; reflexivity. Qed.

Lemma hw_set_hw (h : wire) (st : state) : hw (set_hw h st) = h.
Proof. reflexivity. Qed.

Lemma set_hw_set_hw (h1 h2 : wire) (st : state) :
  set_hw h2 (set_hw h1 st) = set_hw h2 st.
Proof. reflexivity. Qed.

Lemma wire_ext (t : wire) d x snt tape c :
  w_driving t = d -> w_data t = x -> w_sent t = snt -> w_tape t = tape ->
  w_clocks t = c -> t = mk_wire d x snt tape c.
Proof. destruct t; simpl; intros; subst; reflexivity. Qed.

(** [send_bits byte n] clocks out the bits [n-1] down to 0 of [byte]. *)
Lemma send_bits_wire (b : Z) (n : nat) (st : state) :
  w_driving (hw st) = true ->
  send_bits b n st
  = Done tt
      (set_hw
         (clocked_out
            (map (fun i => Z.testbit b (Z.of_nat i)) (rev (seq 0 n)))
            (hw st)) st).
Proof.
  revert st. induction n as [|n IH]; intros st Hd.
  - cbn [send_bits seq rev map]. unfold ret. f_equal.
    rewrite <- (set_hw_same st) at 1. f_equal.
    apply wire_ext; cbn; auto. lia.
  - cbn [send_bits]. rewrite land_bit by lia.
    replace (if Z.testbit b (Z.of_nat n)
             then call (gpio_set_value DATA_GPIO true)
             else call (gpio_set_value DATA_GPIO false))
      with (call (gpio_set_value DATA_GPIO (Z.testbit b (Z.of_nat n))))
      by (destruct (Z.testbit b (Z.of_nat n)); reflexivity).
    unfold bind at 1, call at 1. cbn [gpio_set_value wire_backend].
    unfold wire_set_value at 1. cbn [Z.eqb DATA_GPIO Pos.eqb].
    unfold bind at 1, call at 1. cbn [gpio_set_value wire_backend].
    unfold wire_set_value at 1.
    cbn [Z.eqb DATA_GPIO CCLK_GPIO Pos.eqb andb hw set_hw w_driving w_data
         w_sent w_tape w_clocks].
    unfold bind at 1, call at 1. cbn [gpio_set_value wire_backend].
    unfold wire_set_value at 1.
    cbn [Z.eqb DATA_GPIO CCLK_GPIO Pos.eqb andb hw set_hw w_driving w_data
         w_sent w_tape w_clocks].
    rewrite Hd. rewrite IH by reflexivity.
    f_equal. unfold set_hw. cbn [cc2530_commands debug_enabled verbose
      progress flash_ptr fwdata hw console fetched stack_byte].
    f_equal. rewrite seq_S, rev_app_distr. cbn [rev app map Nat.add].
    unfold clocked_out.
    cbn [w_driving w_data w_sent w_tape w_clocks length rev].
    rewrite last_cons, <- app_assoc. cbn [app]. f_equal; [auto|lia].
Qed.

Lemma send_byte_wire (b : Z) (st : state) :
  w_driving (hw st) = true ->
  send_byte b st = Done tt (set_hw (clocked_out (bits_of_byte b) (hw st)) st).
Proof. intros Hd. unfold send_byte. rewrite send_bits_wire by exact Hd.
  reflexivity. Qed.

Lemma call_clock_up (st : state) :
  call (gpio_set_value CCLK_GPIO true) st
  = Done 0
      (set_hw
         (mk_wire (w_driving (hw st)) (w_data (hw st))
            (if w_driving (hw st) then w_data (hw st) :: w_sent (hw st)
             else w_sent (hw st))
            (w_tape (hw st)) (N.succ (w_clocks (hw st)))) st).
Proof. reflexivity. Qed.

Lemma call_clock_down (st : state) :
  call (gpio_set_value CCLK_GPIO false) st = Done 0 st.
Proof. unfold call. cbn. rewrite set_hw_same. reflexivity. Qed.

Lemma call_sample (st : state) :
  call (gpio_get_value DATA_GPIO) st
  = Done (0, hd true (w_tape (hw st)))
      (set_hw
         (mk_wire (w_driving (hw st)) (w_data (hw st)) (w_sent (hw st))
            (tl (w_tape (hw st))) (w_clocks (hw st))) st).
Proof. reflexivity. Qed.

Lemma drop_tl {A} (n : nat) (l : list A) : drop n (tl l) = drop (S n) l.
Proof. destruct l; [destruct n|]; reflexivity. Qed.

Lemma nth_tl {A} (k : nat) (l : list A) (d : A) :
  nth k (tl l) d = nth (S k) l d.
Proof. destruct l; [destruct k|]; reflexivity. Qed.

(** [read_bits n byte] clocks in [n] samples and sets bit [n-1-k] of [byte]
    when sample [k] reads high. *)
Lemma read_bits_wire (n : nat) (acc : Z) (st : state) :
  w_driving (hw st) = false ->
  exists r,
    read_bits n acc st = Done r (set_hw (sampled n (hw st)) st)
    /\ forall j : nat,
         Z.testbit r (Z.of_nat j)
         = Z.testbit acc (Z.of_nat j)
           || ((j <? n)%nat && nth (n - 1 - j) (w_tape (hw st)) true).
Proof.
  revert acc st. induction n as [|n IH]; intros acc st Hd.
  - exists acc. split.
    + cbn [read_bits]. unfold ret. f_equal.
      rewrite <- (set_hw_same st) at 1. f_equal.
      apply wire_ext; cbn; auto. lia.
    + intros j. cbn. rewrite orb_false_r. reflexivity.
  - cbn [read_bits]. unfold bind at 1. rewrite call_clock_up.
    unfold bind at 1. rewrite call_sample. cbn [snd hw set_hw w_tape].
    unfold bind at 1. rewrite call_clock_down.
    set (x := hd true (w_tape (hw st))).
    cbn [hw set_hw w_driving w_data w_sent w_tape w_clocks].
    match goal with
    | |- context [read_bits n ?a ?st1] =>
        destruct (IH a st1 Hd) as (r & Hrun & Hbits)
    end.
    exists r. split.
    + rewrite Hrun. f_equal. unfold set_hw.
      cbn [cc2530_commands debug_enabled verbose progress flash_ptr fwdata
           hw console fetched stack_byte].
      f_equal. unfold sampled.
      cbn [w_driving w_data w_sent w_tape w_clocks]. rewrite Hd, drop_tl.
      f_equal. lia.
    + intros j. rewrite Hbits. cbn [hw set_hw w_tape].
      assert (Hacc : Z.testbit
                       (if x then Z.lor acc (Z.shiftl 1 (Z.of_nat n))
                        else acc) (Z.of_nat j)
                     = Z.testbit acc (Z.of_nat j) || (x && (n =? j)%nat)).
      { destruct x; [|rewrite orb_false_r; reflexivity].
        rewrite Z.lor_spec, Z.shiftl_1_l, Z.pow2_bits_eqb by lia.
        f_equal. cbn [andb].
        destruct (Nat.eqb_spec n j) as [->|Hne];
          [apply Z.eqb_refl|apply Z.eqb_neq; lia]. }
      rewrite Hacc, nth_tl.
      destruct (lt_eq_lt_dec j n) as [[Hlt|Heq]|Hgt].
      * replace (j <? n)%nat with true by (symmetry; apply Nat.ltb_lt; lia).
        replace (j <? S n)%nat with true by (symmetry; apply Nat.ltb_lt; lia).
        replace (n =? j)%nat with false by (symmetry; apply Nat.eqb_neq; lia).
        replace (S (n - 1 - j)) with (S n - 1 - j)%nat by lia.
        rewrite andb_false_r, orb_false_r. reflexivity.
      * subst j.
        replace (n <? n)%nat with false by (symmetry; apply Nat.ltb_ge; lia).
        replace (n <? S n)%nat with true by (symmetry; apply Nat.ltb_lt; lia).
        rewrite Nat.eqb_refl, andb_true_r, orb_false_r.
        replace (S n - 1 - n)%nat with 0%nat by lia.
        cbn [andb]. f_equal. unfold x.
        destruct (w_tape (hw st)); reflexivity.
      * replace (j <? n)%nat with false by (symmetry; apply Nat.ltb_ge; lia).
        replace (j <? S n)%nat with false
          by (symmetry; apply Nat.ltb_ge; lia).
        replace (n =? j)%nat with false by (symmetry; apply Nat.eqb_neq; lia).
        rewrite andb_false_r. cbn [andb]. rewrite !orb_false_r. reflexivity.
Qed.

(** Reading back the bits of a byte gives the byte. *)
Lemma read_byte_wire (b : Z) (rest : list bool) (st : state) :
  is_byte b -> w_driving (hw st) = false ->
  w_tape (hw st) = (bits_of_byte b ++ rest)%list ->
  read_byte st = Done b (set_hw (sampled 8 (hw st)) st).
Proof.
  intros Hb Hd Htape. unfold read_byte.
  destruct (read_bits_wire 8 0 st Hd) as (r & Hrun & Hbits).
  rewrite Hrun. f_equal. apply Z.bits_inj'. intros i Hi.
  rewrite <- (Z2Nat.id i Hi), Hbits, Z.bits_0, Htape. cbn [orb].
  destruct (Nat.ltb_spec (Z.to_nat i) 8) as [Hlt|Hge].
  - cbn [andb]. remember (Z.to_nat i) as j eqn:Ej.
    do 8 (destruct j as [|j]; [reflexivity|]). lia.
  - cbn [andb]. symmetry. rewrite Z2Nat.id by exact Hi.
    unfold is_byte in Hb. rewrite <- (Z.mod_small b (2 ^ 8)) by lia.
    apply Z.mod_pow2_bits_high. lia.
Qed.

Lemma sampled_sampled (a b : nat) (t : wire) :
  sampled a (sampled b t) = sampled (b + a) t.
Proof.
  unfold sampled. cbn [w_driving w_data w_sent w_tape w_clocks].
  rewrite drop_drop. f_equal. lia.
Qed.

Lemma last_app {A} (l1 l2 : list A) (d : A) :
  List.last (l1 ++ l2) d = List.last l2 (List.last l1 d).
Proof.
  revert d. induction l1 as [|x l1 IH]; intros d; [reflexivity|].
  rewrite <- app_comm_cons, !last_cons. apply IH.
Qed.

Lemma clocked_out_app (l1 l2 : list bool) (t : wire) :
  clocked_out l2 (clocked_out l1 t) = clocked_out (l1 ++ l2) t.
Proof.
  unfold clocked_out. cbn [w_driving w_data w_sent w_tape w_clocks].
  rewrite last_app, rev_app_distr, <- app_assoc, length_app. f_equal. lia.
Qed.

Lemma clocked_out_nil (t : wire) : clocked_out [] t = t.
Proof. unfold clocked_out. symmetry. apply wire_ext; cbn; auto. lia. Qed.

(** [read_answer] gets back the bytes whose bits the line plays. *)
Lemma read_answer_wire (ans : list Z) (rest : list bool) (st : state) :
  Forall is_byte ans -> w_driving (hw st) = false ->
  w_tape (hw st) = (flat_map bits_of_byte ans ++ rest)%list ->
  read_answer (length ans) st
  = Done ans (set_hw (sampled (8 * length ans) (hw st)) st).
Proof.
  revert st. induction ans as [|a ans IH]; intros st Hb Hd Htape.
  - cbn [read_answer length Nat.mul]. unfold ret. f_equal.
    rewrite <- (set_hw_same st) at 1. f_equal.
    apply wire_ext; cbn; auto. lia.
  - inversion Hb as [|? ? Ha Hans]; subst.
    cbn [length read_answer]. unfold bind at 1.
    cbn [flat_map] in Htape. rewrite <- app_assoc in Htape.
    rewrite (read_byte_wire a _ st Ha Hd Htape).
    unfold bind at 1. rewrite IH; [|exact Hans|exact Hd|].
    + unfold bind, ret. f_equal. cbn [hw set_hw]. rewrite set_hw_set_hw.
      f_equal. rewrite sampled_sampled. f_equal. lia.
    + cbn [hw set_hw sampled w_tape]. rewrite Htape. reflexivity.
Qed.

Lemma clock_pair_wire (st : state) :
  w_driving (hw st) = false ->
  clock_pair true false st
  = Done tt
      (set_hw
         (mk_wire false (w_data (hw st)) (w_sent (hw st)) (w_tape (hw st))
            (N.succ (w_clocks (hw st)))) st).
Proof.
  intros Hd. unfold clock_pair. unfold bind at 1. rewrite call_clock_up.
  unfold bind at 1. rewrite call_clock_down. rewrite Hd. reflexivity.
Qed.

(** One turn of the readiness poll: eight clock pulses. *)
Lemma poll_wire (st : state) :
  w_driving (hw st) = false ->
  repeat_m 8 (clock_pair true false) st
  = Done tt
      (set_hw
         (mk_wire false (w_data (hw st)) (w_sent (hw st)) (w_tape (hw st))
            (w_clocks (hw st) + 8)) st).
Proof.
  intros Hd. cbn [repeat_m].
  unfold bind at 1. rewrite (clock_pair_wire st Hd).
  do 7 (unfold bind at 1; rewrite clock_pair_wire by reflexivity;
        rewrite set_hw_set_hw, !hw_set_hw;
        cbn [w_driving w_data w_sent w_tape w_clocks]).
  unfold ret. f_equal. f_equal. f_equal. lia.
Qed.

Lemma wait_ready_false (n : nat) (st : state) :
  wait_ready n false st = Done (false, Z.of_nat n) st.
Proof. destruct n; reflexivity. Qed.

(** The poll when the line reads high [k] times and then low, with [n]
    turns to go. *)
Lemma wait_ready_low_after (k n : nat) (rest : list bool) (st : state) :
  w_driving (hw st) = false ->
  w_tape (hw st) = (repeat true k ++ false :: rest)%list ->
  (k < n)%nat ->
  wait_ready n true st
  = Done (false, Z.of_nat (n - 1 - k)) (set_hw (polled (S k) (hw st)) st).
Proof.
  revert n st. induction k as [|k IH]; intros n st Hd Htape Hk;
    (destruct n as [|n]; [lia|]); cbn [wait_ready];
    unfold bind at 1; rewrite (poll_wire st Hd);
    unfold bind at 1; rewrite call_sample;
    rewrite !hw_set_hw, set_hw_set_hw;
    cbn [snd w_driving w_data w_sent w_tape w_clocks];
    rewrite Htape; cbn [repeat app hd tl].
  - rewrite wait_ready_false. f_equal.
    + f_equal. f_equal. lia.
    + f_equal. unfold polled. rewrite Htape, Hd. cbn [repeat app drop].
      f_equal.
  - rewrite IH; [|reflexivity|reflexivity|lia].
    rewrite hw_set_hw, set_hw_set_hw. f_equal.
    + f_equal. f_equal. lia.
    + f_equal. unfold polled.
      cbn [w_driving w_data w_sent w_tape w_clocks]. rewrite Htape, Hd.
      cbn [repeat app drop]. f_equal. lia.
Qed.

(** The poll when the line reads high for every turn there is. *)
Lemma wait_ready_all_high (n k : nat) (rest : list bool) (st : state) :
  w_driving (hw st) = false ->
  w_tape (hw st) = (repeat true k ++ rest)%list ->
  (n <= k)%nat ->
  wait_ready n true st
  = Done (true, 4294967295) (set_hw (polled n (hw st)) st).
Proof.
  revert k st. induction n as [|n IH]; intros k st Hd Htape Hk.
  - cbn [wait_ready]. unfold ret. f_equal.
    rewrite <- (set_hw_same st) at 1. f_equal.
    apply wire_ext; cbn; auto. lia.
  - destruct k as [|k]; [lia|]. cbn [wait_ready].
    unfold bind at 1. rewrite (poll_wire st Hd).
    unfold bind at 1. rewrite call_sample.
    rewrite !hw_set_hw, set_hw_set_hw.
    cbn [snd w_driving w_data w_sent w_tape w_clocks].
    rewrite Htape. cbn [repeat app hd tl].
    rewrite IH with (k := k); [|reflexivity|reflexivity|lia].
    rewrite hw_set_hw, set_hw_set_hw. f_equal. f_equal. unfold polled.
    cbn [w_driving w_data w_sent w_tape w_clocks]. rewrite Htape, Hd.
    cbn [repeat app drop]. f_equal. lia.
Qed.

Lemma call_malloc (n : Z) (st : state) :
  call (malloc n) st = Done true st.
Proof. unfold call. cbn. rewrite set_hw_same. reflexivity. Qed.

Lemma call_drive (st : state) :
  call (gpio_set_direction DATA_GPIO GPIO_DIRECTION_OUT) st
  = Done 0
      (set_hw
         (mk_wire true (w_data (hw st)) (w_sent (hw st)) (w_tape (hw st))
            (w_clocks (hw st))) st).
Proof. reflexivity. Qed.

Lemma call_release (st : state) :
  call (gpio_set_direction DATA_GPIO GPIO_DIRECTION_IN) st
  = Done 0
      (set_hw
         (mk_wire false (w_data (hw st)) (w_sent (hw st)) (w_tape (hw st))
            (w_clocks (hw st))) st).
Proof. reflexivity. Qed.

(** [send_params] clocks out the first [n] bytes from index [i] on. *)
Lemma send_params_wire (params : option (list Z)) (i n : nat) (st : state) :
  w_driving (hw st) = true ->
  (i + n <= length (params_bytes params))%nat ->
  send_params params i n st
  = Done tt
      (set_hw
         (clocked_out
            (flat_map bits_of_byte (take n (drop i (params_bytes params))))
            (hw st)) st).
Proof.
  revert i st. induction n as [|n IH]; intros i st Hd Hlen.
  - cbn [send_params take flat_map]. unfold ret.
    rewrite clocked_out_nil, set_hw_same. reflexivity.
  - cbn [send_params]. destruct params as [ps|]; [|simpl in Hlen; lia].
    cbn [params_bytes] in *.
    destruct (ps !! i) as [b|] eqn:E;
      [|apply lookup_ge_None in E; lia].
    unfold bind at 1. rewrite (send_byte_wire b st Hd).
    rewrite IH; [|exact Hd|cbn [params_bytes]; lia].
    rewrite hw_set_hw, set_hw_set_hw, clocked_out_app.
    cbn [params_bytes]. rewrite (drop_S ps b i E). reflexivity.
Qed.

(** A command to a target that lets DATA go low within the 1000 turns of the
    poll and then plays the answer [ans]. *)
Lemma do_cmd_wire (i : nat) (c : cc2530_cmd) (params : option (list Z))
    (ans outbuf : list Z) (k : nat) (rest : list bool) (st : state) :
  cc2530_commands st !! i = Some c ->
  (Z.to_nat (cmd_in c) <= length (params_bytes params))%nat ->
  length ans = Z.to_nat (cmd_out c) -> Forall is_byte ans ->
  (length ans <= length outbuf)%nat ->
  (k < 1000)%nat ->
  w_tape (hw st)
  = (repeat true k ++ false :: flat_map bits_of_byte ans ++ rest)%list ->
  exists h,
    cc2530_do_cmd (Some i) params outbuf st
    = Done (0, (ans ++ drop (length ans) outbuf)%list) (set_hw h st)
    /\ w_driving h = false
    /\ w_sent h
       = (rev (flat_map bits_of_byte
                 (opcode_byte c
                  :: take (Z.to_nat (cmd_in c)) (params_bytes params)))
          ++ w_sent (hw st))%list
    /\ w_tape h = rest
    /\ w_clocks h
       = (w_clocks (hw st)
          + 8 * N.of_nat (1 + Z.to_nat (cmd_in c) + k
                          + Z.to_nat (cmd_out c)))%N.
Proof.
  intros Hc Hin Hout Hans Hbuf Hk Htape.
  unfold cc2530_do_cmd. unfold bind at 1, deref. rewrite Hc.
  unfold bind at 1. rewrite call_malloc. cbn [negb].
  unfold bind at 1. rewrite call_drive. cbn [Z.eqb negb].
  replace (if cmd_id c =? CMD_DBG_INST
           then send_byte (Z.lor (cmd_id c) (cmd_in c))
           else send_byte (cmd_id c))
    with (send_byte (opcode_byte c))
    by (unfold opcode_byte; destruct (cmd_id c =? CMD_DBG_INST); reflexivity).
  unfold bind at 1. rewrite send_byte_wire by reflexivity.
  unfold bind at 1. rewrite send_params_wire; [|reflexivity|exact Hin].
  rewrite !hw_set_hw, !set_hw_set_hw, clocked_out_app, drop_0.
  unfold bind at 1. rewrite call_release. cbn [Z.eqb negb].
  rewrite !hw_set_hw, !set_hw_set_hw.
  unfold bind at 1. rewrite call_sample.
  rewrite !hw_set_hw, !set_hw_set_hw.
  cbn [snd clocked_out w_driving w_data w_sent w_tape w_clocks].
  rewrite Htape. change (Z.to_nat DEFAULT_TIMEOUT) with 1000%nat.
  set (frame := (bits_of_byte (opcode_byte c)
                 ++ flat_map bits_of_byte
                      (take (Z.to_nat (cmd_in c)) (params_bytes params)))%list).
  assert (Hframe : length frame
                   = (8 * (1 + Z.to_nat (cmd_in c)))%nat).
  { unfold frame.
    rewrite length_app, bits_of_byte_length, flat_bits_length, length_take.
    lia. }
  destruct k as [|k]; cbn [repeat app hd tl]; unfold bind at 1.
  - rewrite wait_ready_false. cbn [snd].
    change (Z.of_nat 1000 =? 0) with false. cbv iota.
    unfold bind at 1. rewrite <- Hout.
    rewrite (read_answer_wire ans rest); [|exact Hans|reflexivity|reflexivity].
    unfold bind at 1, memcpy_out.
    replace (length ans <=? length outbuf)%nat with true
      by (symmetry; apply Nat.leb_le; exact Hbuf).
    unfold ret. rewrite !hw_set_hw, !set_hw_set_hw.
    eexists. split; [reflexivity|].
    unfold sampled. cbn [w_driving w_data w_sent w_tape w_clocks].
    split; [reflexivity|]. split; [reflexivity|]. split.
    + rewrite <- flat_bits_length. apply drop_app_length.
    + rewrite Hframe. lia.
  - rewrite (wait_ready_low_after k 1000 (flat_map bits_of_byte ans ++ rest));
      [|reflexivity|reflexivity|lia].
    cbn [snd].
    replace (Z.of_nat (1000 - 1 - k) =? 0) with false
      by (symmetry; apply Z.eqb_neq; lia).
    unfold bind at 1. rewrite <- Hout.
    rewrite (read_answer_wire ans rest); [|exact Hans|reflexivity|].
    + unfold bind at 1, memcpy_out.
      replace (length ans <=? length outbuf)%nat with true
        by (symmetry; apply Nat.leb_le; exact Hbuf).
      unfold ret. rewrite !hw_set_hw, !set_hw_set_hw.
      eexists. split; [reflexivity|].
      unfold sampled, polled. cbn [w_driving w_data w_sent w_tape w_clocks].
      split; [reflexivity|]. split; [reflexivity|]. split.
      * rewrite drop_highs, <- flat_bits_length. apply drop_app_length.
      * rewrite Hframe. lia.
    + rewrite hw_set_hw. unfold polled.
      cbn [w_driving w_data w_sent w_tape w_clocks].
      apply drop_highs.
Qed.

(** [cc2530_do_cmd] up to the first sample: the frame is on the wire and
    DATA is an input again. *)
Lemma do_cmd_wire_prefix (i : nat) (c : cc2530_cmd)
    (params : option (list Z)) (outbuf : list Z) (st : state) :
  cc2530_commands st !! i = Some c ->
  (Z.to_nat (cmd_in c) <= length (params_bytes params))%nat ->
  cc2530_do_cmd (Some i) params outbuf st
  = (rv <- call (gpio_get_value DATA_GPIO);;
     vt <- wait_ready (Z.to_nat DEFAULT_TIMEOUT) (snd rv);;
     if snd vt =? 0 then
       eprintf "timed out waiting for chip to be ready again\n" [];;
       ret (0, outbuf)
     else
       answer <- read_answer (Z.to_nat (cmd_out c));;
       outbuf' <- memcpy_out outbuf answer;;
       ret (0, outbuf'))
      (set_hw
         (mk_wire false
            (List.last
               (flat_map bits_of_byte
                  (opcode_byte c
                   :: take (Z.to_nat (cmd_in c)) (params_bytes params)))
               (w_data (hw st)))
            (rev (flat_map bits_of_byte
                    (opcode_byte c
                     :: take (Z.to_nat (cmd_in c)) (params_bytes params)))
             ++ w_sent (hw st))%list
            (w_tape (hw st))
            (w_clocks (hw st)
             + N.of_nat
                 (length
                    (flat_map bits_of_byte
                       (opcode_byte c
                        :: take (Z.to_nat (cmd_in c))
                             (params_bytes params)))))) st).
Proof.
  intros Hc Hin.
  unfold cc2530_do_cmd. unfold bind at 1, deref. rewrite Hc.
  unfold bind at 1. rewrite call_malloc. cbn [negb].
  unfold bind at 1. rewrite call_drive. cbn [Z.eqb negb].
  replace (if cmd_id c =? CMD_DBG_INST
           then send_byte (Z.lor (cmd_id c) (cmd_in c))
           else send_byte (cmd_id c))
    with (send_byte (opcode_byte c))
    by (unfold opcode_byte; destruct (cmd_id c =? CMD_DBG_INST); reflexivity).
  unfold bind at 1. rewrite send_byte_wire by reflexivity.
  unfold bind at 1. rewrite send_params_wire; [|reflexivity|exact Hin].
  rewrite !hw_set_hw, !set_hw_set_hw, clocked_out_app, drop_0.
  unfold bind at 1. rewrite call_release. cbn [Z.eqb negb].
  rewrite !hw_set_hw, !set_hw_set_hw. reflexivity.
Qed.

Lemma read_answer_any (n : nat) (st : state) :
  w_driving (hw st) = false ->
  exists l,
    read_answer n st = Done l (set_hw (sampled (8 * n) (hw st)) st)
    /\ length l = n.
Proof.
  revert st. induction n as [|n IH]; intros st Hd.
  - exists []. split; [|reflexivity].
    cbn [read_answer Nat.mul]. unfold ret. f_equal.
    rewrite <- (set_hw_same st) at 1. f_equal.
    apply wire_ext; cbn; auto. lia.
  - cbn [read_answer]. unfold bind at 1, read_byte.
    destruct (read_bits_wire 8 0 st Hd) as (b & -> & _).
    destruct (IH (set_hw (sampled 8 (hw st)) st) Hd) as (l & Hl & Hlen).
    unfold bind at 1. rewrite Hl. exists (b :: l).
    split; [|simpl; rewrite Hlen; reflexivity]. unfold ret.
    rewrite hw_set_hw, set_hw_set_hw, sampled_sampled. do 3 f_equal. lia.
Qed.

End Wire.

Lemma list_neq_cons {A} (x : A) (l : list A) : l <> x :: l.
Proof.
  intros H. apply (f_equal (@length A)) in H. simpl in H. lia.
Qed.

(** *** Bytes *)

Section Bytes.

Local Abbreviation state := (state wire).

Local Existing Instance wire_backend.

(** X14: [send_byte] puts the eight bits of its argument on DATA, bit 7 first,
    with one clock pulse each; it samples nothing. *)
Theorem send_byte_msb_first (b : Z) (st : state) :
  w_driving (hw st) = true ->
  exists h,
    send_byte b st = Done tt (set_hw h st)
    /\ rev (w_sent h)
       = (rev (w_sent (hw st))
          ++ map (Z.testbit b) [7; 6; 5; 4; 3; 2; 1; 0])%list
    /\ w_tape h = w_tape (hw st)
    /\ w_clocks h = (w_clocks (hw st) + 8)%N.
Proof.
  intros Hd. eexists. split; [apply send_byte_wire; exact Hd|].
  unfold clocked_out. cbn [w_sent w_tape w_clocks].
  rewrite rev_app_distr, rev_involutive. repeat split.
Qed.

(** X15: A byte sent with [send_byte] and played back to [read_byte] comes out
    as it went in. *)
Theorem read_byte_inverts_send_byte (b : Z) (st st1 st2 : state)
    (rest : list bool) :
  is_byte b ->
  w_driving (hw st) = true -> w_sent (hw st) = [] ->
  send_byte b st = Done tt st1 ->
  w_driving (hw st2) = false ->
  w_tape (hw st2) = (rev (w_sent (hw st1)) ++ rest)%list ->
  exists h,
    read_byte st2 = Done b (set_hw h st2) /\ w_tape h = rest.
Proof.
  intros Hb Hd Hs Hsend Hd2 Htape.
  rewrite (send_byte_wire b st Hd) in Hsend. injection Hsend as <-.
  rewrite hw_set_hw in Htape. unfold clocked_out in Htape.
  cbn [w_sent] in Htape. rewrite Hs, app_nil_r, rev_involutive in Htape.
  eexists. split; [apply (read_byte_wire b rest st2 Hb Hd2 Htape)|].
  unfold sampled. cbn [w_tape]. rewrite Htape. reflexivity.
Qed.

End Bytes.

(** *** Commands *)

Section Frames.

Local Abbreviation state := (state wire).

Local Existing Instance wire_backend.

(** X16: The frame of a command: with DATA as an output, the opcode byte (for
    [debug_inst] with the parameter count in its low bits) and the first
    [in] parameter bytes, each bit 7 first; then, with DATA as an input, one
    sample, and eight clock pulses and a sample as long as the sample reads
    high; then [out] answer bytes, copied to the start of the caller's
    buffer.  Here the target is ready after [k < 1000] high samples and
    answers [ans]. *)
Theorem do_cmd_frame (i : nat) (c : cc2530_cmd) (params : option (list Z))
    (ans outbuf : list Z) (k : nat) (rest : list bool) (st : state) :
  cc2530_commands st !! i = Some c ->
  (Z.to_nat (cmd_in c) <= length (params_bytes params))%nat ->
  length ans = Z.to_nat (cmd_out c) -> Forall is_byte ans ->
  (length ans <= length outbuf)%nat ->
  (k < 1000)%nat ->
  w_tape (hw st)
  = (repeat true k ++ false :: flat_map bits_of_byte ans ++ rest)%list ->
  exists h,
    cc2530_do_cmd (Some i) params outbuf st
    = Done (0, (ans ++ drop (length ans) outbuf)%list) (set_hw h st)
    /\ w_driving h = false
    /\ w_sent h
       = (rev (flat_map bits_of_byte
                 (opcode_byte c
                  :: take (Z.to_nat (cmd_in c)) (params_bytes params)))
          ++ w_sent (hw st))%list
    /\ w_tape h = rest
    /\ w_clocks h
       = (w_clocks (hw st)
          + 8 * N.of_nat (1 + Z.to_nat (cmd_in c) + k
                          + Z.to_nat (cmd_out c)))%N.
Proof. apply do_cmd_wire. Qed.

Lemma answer_keeps_console (n : nat) (outbuf : list Z) (st : state) :
  w_driving (hw st) = false ->
  console
    (final
       ((answer <- read_answer n;;
         outbuf' <- memcpy_out outbuf answer;;
         ret (0, outbuf')) st))
  = console st.
Proof.
  intros Hd. destruct (read_answer_any n st Hd) as (l & Hl & _).
  unfold bind at 1. rewrite Hl. unfold bind, memcpy_out, ret, fault.
  destruct (length l <=? length outbuf)%nat; reflexivity.
Qed.

(** X17: [cc2530_do_cmd] prints that it timed out in one case only: when DATA
    reads high at the first sample and at 999 polls, and low at the 1000th
    poll.  When DATA goes low earlier, or later, or never, nothing is
    printed. *)
Theorem do_cmd_notices_timeout_iff (i : nat) (c : cc2530_cmd)
    (params : option (list Z)) (outbuf : list Z) (k : nat)
    (rest : list bool) (st : state) :
  cc2530_commands st !! i = Some c ->
  (Z.to_nat (cmd_in c) <= length (params_bytes params))%nat ->
  w_tape (hw st) = (repeat true k ++ false :: rest)%list ->
  console (final (cc2530_do_cmd (Some i) params outbuf st))
  = Stderr "timed out waiting for chip to be ready again\n" [] :: console st
  <-> k = 1000%nat.
Proof.
  intros Hc Hin Htape.
  rewrite (do_cmd_wire_prefix i c params outbuf st Hc Hin).
  unfold bind at 1. rewrite call_sample, hw_set_hw, set_hw_set_hw.
  cbn [snd w_driving w_data w_sent w_tape w_clocks]. rewrite Htape.
  change (Z.to_nat DEFAULT_TIMEOUT) with 1000%nat.
  destruct k as [|k]; cbn [repeat app hd tl]; unfold bind at 1.
  - rewrite wait_ready_false. cbn [snd].
    change (Z.of_nat 1000 =? 0) with false. cbv iota.
    rewrite answer_keeps_console by reflexivity.
    split; [intros H; destruct (list_neq_cons _ _ H)|discriminate].
  - destruct (Nat.lt_ge_cases k 1000) as [Hlt|Hge].
    + rewrite (wait_ready_low_after k 1000 rest);
        [|reflexivity|reflexivity|exact Hlt].
      cbn [snd]. destruct (Z.eqb_spec (Z.of_nat (1000 - 1 - k)) 0) as [E|E].
      * split; [intros _; lia|intros _; reflexivity].
      * rewrite answer_keeps_console by reflexivity.
        split; [intros H; destruct (list_neq_cons _ _ H)|intros H; lia].
    + rewrite (wait_ready_all_high 1000 k (false :: rest));
        [|reflexivity|reflexivity|exact Hge].
      cbn [snd Z.eqb]. rewrite answer_keeps_console by reflexivity.
      split; [intros H; destruct (list_neq_cons _ _ H)|intros H; lia].
Qed.

(** X18: A one-shot command whose answer has more than one byte ([get_pc],
    [get_chip_id]) writes past the one byte of [result]: once the target is
    ready, [cc2530_do_cmd] copies [out] bytes to [&result]. *)
Theorem oneshot_command_overflows_result (cmd : option nat) (q : string)
    (i : nat) (c : cc2530_cmd) (k : nat) (rest : list bool) (st : state) :
  find_cmd_from (cc2530_commands st) 0 q = Some i ->
  cc2530_commands st !! i = Some c ->
  cmd_in c = 0 -> 1 < cmd_out c ->
  (k < 1000)%nat ->
  w_tape (hw st) = (repeat true k ++ false :: rest)%list ->
  exists st', cc2530_oneshot_command cmd q st = Fault st'.
Proof.
  intros Hfind Hc Hin Hout Hk Htape.
  assert (Hin' : (Z.to_nat (cmd_in c) <= length (params_bytes None))%nat)
    by (rewrite Hin; simpl; lia).
  unfold cc2530_oneshot_command. unfold bind at 1, get.
  unfold bind at 1, find_cmd_by_name. unfold bind at 1, get, ret.
  rewrite Hfind. unfold bind at 1.
  rewrite (do_cmd_wire_prefix i c None [stack_byte st] st Hc Hin').
  unfold bind at 1. rewrite call_sample, hw_set_hw, set_hw_set_hw.
  cbn [snd w_driving w_data w_sent w_tape w_clocks]. rewrite Htape.
  change (Z.to_nat DEFAULT_TIMEOUT) with 1000%nat.
  assert (Hover : forall s0 : state,
            w_driving (hw s0) = false ->
            exists s1,
              (answer <- read_answer (Z.to_nat (cmd_out c));;
               outbuf' <- memcpy_out [stack_byte st] answer;;
               ret (0, outbuf')) s0 = Fault s1).
  { intros s0 Hd.
    destruct (read_answer_any (Z.to_nat (cmd_out c)) s0 Hd)
      as (l & Hl & Hlen).
    unfold bind at 1. rewrite Hl. unfold bind, memcpy_out.
    replace (length l <=? length [stack_byte st])%nat with false
      by (symmetry; apply Nat.leb_gt; simpl; lia).
    eexists. reflexivity. }
  destruct k as [|k]; cbn [repeat app hd tl]; unfold bind at 1.
  - rewrite wait_ready_false. cbn [snd].
    change (Z.of_nat 1000 =? 0) with false. cbv iota.
    match goal with
    | |- context [bind (read_answer _) _ ?s0] =>
        destruct (Hover s0 eq_refl) as (s1 & ->)
    end.
    eexists. reflexivity.
  - rewrite (wait_ready_low_after k 1000 rest);
      [|reflexivity|reflexivity|lia].
    cbn [snd].
    replace (Z.of_nat (1000 - 1 - k) =? 0) with false
      by (symmetry; apply Z.eqb_neq; lia).
    match goal with
    | |- context [bind (read_answer _) _ ?s0] =>
        destruct (Hover s0 eq_refl) as (s1 & ->)
    end.
    eexists. reflexivity.
Qed.

End Frames.

(** *** Blocks of the image *)

Section Burst.

Local Abbreviation state := (state wire).

Local Existing Instance wire_backend.

(** [burst_bytes n] clocks out the [n] bytes of the image under the cursor
    and moves the cursor past them. *)
Lemma burst_bytes_wire (n : nat) (st : state) :
  w_driving (hw st) = true ->
  burst_bytes n st
  = Done tt
      (set_hw
         (clocked_out
            (flat_map bits_of_byte
               (map (fwdata st) (cursor_indices n (flash_ptr st))))
            (hw st))
         (set_fetched (rev (cursor_indices n (flash_ptr st)) ++ fetched st)%list
            (set_flash_ptr (cursor_after n (flash_ptr st)) st))).
Proof.
  revert st. induction n as [|n IH]; intros st Hd.
  - cbn [burst_bytes cursor_indices cursor_after map flat_map rev app].
    rewrite clocked_out_nil. destruct st; reflexivity.
  - cbn [burst_bytes]. unfold bind at 1, get_next_flash_byte.
    unfold bind at 1. rewrite send_byte_wire by exact Hd.
    rewrite IH by exact Hd. f_equal.
    destruct st as [tbl de v pr fp fw h co fe sb].
    cbn [set_hw set_fetched set_flash_ptr hw fetched flash_ptr fwdata
         cc2530_commands debug_enabled verbose progress console stack_byte
         cursor_indices cursor_after map flat_map rev].
    rewrite clocked_out_app, <- app_assoc. reflexivity.
Qed.

(** X19: A burst write puts on the wire the two header bytes 0x84 and 0x00 (the
    opcode with the high bits of the block size, then its low byte) and the
    1024 bytes of the image under the cursor, which it moves on by 1024
    (modulo 65536); once the target is ready it clocks in one answer byte,
    which it drops, and returns 0. *)
Theorem burst_write_frame (k : nat) (rest : list bool) (st : state) :
  (k < 1000)%nat ->
  w_tape (hw st) = (repeat true k ++ false :: rest)%list ->
  exists st',
    cc2530_burst_write st = Done 0 st'
    /\ w_sent (hw st')
       = (rev (flat_map bits_of_byte
                 (0x84 :: 0x00
                  :: map (fwdata st)
                       (cursor_indices (Z.to_nat PROG_BLOCK_SIZE)
                          (flash_ptr st))))
          ++ w_sent (hw st))%list
    /\ w_tape (hw st') = drop 8 rest
    /\ flash_ptr st' = cursor_after (Z.to_nat PROG_BLOCK_SIZE) (flash_ptr st)
    /\ fwdata st' = fwdata st
    /\ console st' = console st.
Proof.
  intros Hk Htape. unfold cc2530_burst_write.
  unfold bind at 1. rewrite call_drive. cbn [nonzero Z.eqb negb].
  change (Z.lor CMD_BURST_WR (HIBYTE PROG_BLOCK_SIZE)) with 0x84.
  change (LOBYTE PROG_BLOCK_SIZE) with 0x00.
  generalize (Z.to_nat PROG_BLOCK_SIZE). intros n.
  unfold bind at 1. rewrite send_byte_wire by reflexivity.
  unfold bind at 1. rewrite send_byte_wire by reflexivity.
  unfold bind at 1. rewrite burst_bytes_wire by reflexivity.
  rewrite !hw_set_hw, !set_hw_set_hw, !clocked_out_app.
  unfold bind at 1. rewrite call_release. cbn [nonzero Z.eqb negb].
  unfold bind at 1. rewrite call_sample.
  change (Z.to_nat DEFAULT_TIMEOUT) with 1000%nat.
  rewrite !hw_set_hw, !set_hw_set_hw.
  cbn [snd clocked_out w_driving w_data w_sent w_tape w_clocks hw set_hw
       set_fetched set_flash_ptr].
  rewrite Htape.
  match goal with
  | |- context [(?a ++ ?b ++ flat_map bits_of_byte ?l)%list] =>
      change (a ++ b ++ flat_map bits_of_byte l)%list
        with (flat_map bits_of_byte (0x84 :: 0x00 :: l))
  end.
  destruct k as [|k]; cbn [repeat app hd tl]; unfold bind at 1.
  - rewrite wait_ready_false. cbn [snd].
    change (Z.of_nat 1000 =? 0) with false. cbv iota.
    unfold bind at 1, read_byte.
    match goal with
    | |- context [read_bits 8 0 ?s] =>
        destruct (read_bits_wire 8 0 s eq_refl) as (b & -> & _)
    end.
    unfold ret. eexists. split; [reflexivity|].
    repeat split.
  - rewrite (wait_ready_low_after k 1000 rest);
      [|reflexivity|reflexivity|lia].
    cbn [snd].
    replace (Z.of_nat (1000 - 1 - k) =? 0) with false
      by (symmetry; apply Z.eqb_neq; lia).
    unfold bind at 1, read_byte.
    match goal with
    | |- context [read_bits 8 0 ?s] =>
        destruct (read_bits_wire 8 0 s eq_refl) as (b & -> & _)
    end.
    unfold ret. eexists. split; [reflexivity|].
    rewrite !hw_set_hw. unfold sampled, polled.
    cbn [w_driving w_data w_sent w_tape w_clocks].
    rewrite drop_highs. repeat split.
Qed.

End Burst.

(** *** Injected instructions *)

Section Instructions.

Local Abbreviation state := (state wire).

Local Existing Instance wire_backend.

(** Setting the parameter count of [debug_inst]. *)
Lemma store_in_debug_inst (n : Z) (st : state) :
  table_inv st -> n = 1 \/ n = 2 \/ n = 3 ->
  exists tbl,
    store_in (Some 7%nat) n st = Done tt (set_commands tbl st)
    /\ tbl !! 7%nat = Some (mk_cmd "debug_inst" CMD_DBG_INST n 1)
    /\ table_kept cc2530_commands_init tbl.
Proof.
  intros Ht Hn.
  pose proof (table_inv_store st (Some 7%nat) n Ht eq_refl Hn) as Ht'.
  destruct (Forall2_lookup_l _ _ _ 7%nat _ Ht eq_refl) as (c & Hc & Hk).
  destruct Hk as (Hname & Hid & Hout & _). cbn in Hname, Hid, Hout.
  unfold store_in, bind, deref in *. rewrite Hc in *.
  eexists. split; [reflexivity|]. split; [|exact Ht'].
  rewrite list_lookup_insert_eq by (apply lookup_lt_Some in Hc; exact Hc).
  rewrite Hname, Hid, Hout. f_equal. f_equal.
  unfold u8. destruct Hn as [->|[->| ->]]; reflexivity.
Qed.

(** One injected instruction of [n] bytes: the parameter count is stored,
    the frame [0x50 | n], then the instruction bytes, goes out, and the
    accumulator [a] comes back. *)
Lemma debug_inst_wire (n : Z) (instr outbuf : list Z) (a : Z) (k : nat)
    (rest : list bool) (st : state) {A} (cont : Z * list Z -> M wire A) :
  table_inv st -> n = 1 \/ n = 2 \/ n = 3 ->
  (Z.to_nat n <= length instr)%nat -> is_byte a ->
  (1 <= length outbuf)%nat -> (k < 1000)%nat ->
  w_tape (hw st) = (repeat true k ++ false :: bits_of_byte a ++ rest)%list ->
  exists st',
    (store_in (Some 7%nat) n;;
     rr <- cc2530_do_cmd (Some 7%nat) (Some instr) outbuf;; cont rr) st
    = cont (0, a :: drop 1 outbuf) st'
    /\ table_inv st'
    /\ w_sent (hw st')
       = (rev (flat_map bits_of_byte
                 (Z.lor CMD_DBG_INST n :: take (Z.to_nat n) instr))
          ++ w_sent (hw st))%list
    /\ w_tape (hw st') = rest
    /\ console st' = console st
    /\ stack_byte st' = stack_byte st.
Proof.
  intros Ht Hn Hlen Ha Hbuf Hk Htape.
  destruct (store_in_debug_inst n st Ht Hn) as (tbl & Hstore & Hc & Ht').
  unfold bind at 1. rewrite Hstore.
  assert (Hans : Forall is_byte [a])
    by (apply List.Forall_cons; [exact Ha|apply List.Forall_nil]).
  assert (Htape' : w_tape (hw (set_commands tbl st))
                   = (repeat true k ++ false
                      :: flat_map bits_of_byte [a] ++ rest)%list).
  { cbn [flat_map]. rewrite app_nil_r. exact Htape. }
  destruct (do_cmd_wire 7 (mk_cmd "debug_inst" CMD_DBG_INST n 1)
              (Some instr) [a] outbuf k rest (set_commands tbl st)
              Hc Hlen eq_refl Hans Hbuf Hk Htape')
    as (h & Hrun & _ & Hsent & Hrest & _).
  unfold bind at 1. rewrite Hrun.
  exists (set_hw h (set_commands tbl st)). split; [reflexivity|].
  split; [exact Ht'|]. rewrite hw_set_hw.
  split; [exact Hsent|]. split; [exact Hrest|]. split; reflexivity.
Qed.

End Instructions.

Section Memory.

Local Abbreviation state := (state wire).

Local Existing Instance wire_backend.

Lemma find_debug_inst_wire (st : state) :
  table_inv st -> find_cmd_by_name "debug_inst" st = Done (Some 7%nat) st.
Proof.
  intros Ht. unfold find_cmd_by_name, bind, get, ret.
  rewrite (table_kept_find_debug_inst _ Ht). reflexivity.
Qed.

(** X20: A write to XDATA is three injected instructions: MOV DPTR,#addr (0x90,
    high byte, low byte), MOV A,#value (0x74, value) and MOVX @DPTR,A (0xF0),
    in frames that start with 0x53, 0x52 and 0x51.  Here the target answers
    each of them within the budget of the poll. *)
Theorem write_xdata_memory_frames (cmd : option nat) (addr value : Z)
    (a1 a2 a3 : Z) (k1 k2 k3 : nat) (rest : list bool) (st : state) :
  table_inv st ->
  is_byte a1 -> is_byte a2 -> is_byte a3 ->
  (k1 < 1000)%nat -> (k2 < 1000)%nat -> (k3 < 1000)%nat ->
  w_tape (hw st)
  = (repeat true k1 ++ false :: bits_of_byte a1
     ++ repeat true k2 ++ false :: bits_of_byte a2
     ++ repeat true k3 ++ false :: bits_of_byte a3 ++ rest)%list ->
  exists st',
    cc2530_write_xdata_memory cmd addr value st = Done 0 st'
    /\ w_sent (hw st')
       = (rev (flat_map bits_of_byte
                 [0x53; 0x90; HIBYTE addr; LOBYTE addr;
                  0x52; 0x74; value;
                  0x51; 0xF0])
          ++ w_sent (hw st))%list
    /\ w_tape (hw st') = rest
    /\ console st' = console st.
Proof.
  intros Ht Ha1 Ha2 Ha3 Hk1 Hk2 Hk3 Htape.
  unfold cc2530_write_xdata_memory.
  unfold bind at 1, get. unfold bind at 1. rewrite (find_debug_inst_wire st Ht).
  edestruct (debug_inst_wire 3 [0x90; HIBYTE addr; LOBYTE addr]
               [stack_byte st] a1 k1) as (st1 & -> & Ht1 & Hs1 & Hr1 & Hc1 & _);
    [exact Ht|auto|cbn; lia|exact Ha1|cbn; lia|exact Hk1|exact Htape|].
  cbn [fst snd nonzero Z.eqb negb].
  edestruct (debug_inst_wire 2
               (<[1%nat := value]>
                  (<[0%nat := 0x74]> [0x90; HIBYTE addr; LOBYTE addr]))
               (a1 :: drop 1 [stack_byte st]) a2 k2)
    as (st2 & -> & Ht2 & Hs2 & Hr2 & Hc2 & _);
    [exact Ht1|auto|cbn; lia|exact Ha2|cbn; lia|exact Hk2|exact Hr1|].
  cbn [fst snd nonzero Z.eqb negb].
  edestruct (debug_inst_wire 1
               (<[0%nat := 0xF0]>
                  (<[1%nat := value]>
                     (<[0%nat := 0x74]> [0x90; HIBYTE addr; LOBYTE addr])))
               (a2 :: drop 1 (a1 :: drop 1 [stack_byte st])) a3 k3)
    as (st3 & -> & Ht3 & Hs3 & Hr3 & Hc3 & _);
    [exact Ht2|auto|cbn; lia|exact Ha3|cbn; lia|exact Hk3|exact Hr2|].
  cbn [fst snd nonzero Z.eqb negb].
  exists st3. split; [reflexivity|]. split; [|split; [exact Hr3|congruence]].
  rewrite Hs3, Hs2, Hs1.
  change (flat_map bits_of_byte
            [0x53; 0x90; HIBYTE addr; LOBYTE addr; 0x52; 0x74; value;
             0x51; 0xF0])
    with (flat_map bits_of_byte [0x53; 0x90; HIBYTE addr; LOBYTE addr]
          ++ flat_map bits_of_byte [0x52; 0x74; value]
          ++ flat_map bits_of_byte [0x51; 0xF0])%list.
  rewrite !rev_app_distr, <- !app_assoc. reflexivity.
Qed.

(** A read from XDATA on the scripted line. *)
Lemma read_xdata_memory_wire (cmd : option nat) (addr : Z)
    (result : list Z) (a1 a2 : Z) (k1 k2 : nat) (rest : list bool)
    (st : state) :
  table_inv st ->
  is_byte a1 -> is_byte a2 ->
  (1 <= length result)%nat ->
  (k1 < 1000)%nat -> (k2 < 1000)%nat ->
  w_tape (hw st)
  = (repeat true k1 ++ false :: bits_of_byte a1
     ++ repeat true k2 ++ false :: bits_of_byte a2 ++ rest)%list ->
  exists st',
    cc2530_read_xdata_memory cmd addr result st
    = Done (0, a2 :: drop 1 result) st'
    /\ table_inv st'
    /\ w_sent (hw st')
       = (rev (flat_map bits_of_byte
                 [0x53; 0x90; HIBYTE addr; LOBYTE addr;
                  0x51; 0xE0])
          ++ w_sent (hw st))%list
    /\ w_tape (hw st') = rest
    /\ console st' = console st.
Proof.
  intros Ht Ha1 Ha2 Hres Hk1 Hk2 Htape.
  unfold cc2530_read_xdata_memory.
  unfold bind at 1, get. unfold bind at 1. rewrite (find_debug_inst_wire st Ht).
  edestruct (debug_inst_wire 3 [0x90; HIBYTE addr; LOBYTE addr]
               result a1 k1) as (st1 & -> & Ht1 & Hs1 & Hr1 & Hc1 & Hb1);
    [exact Ht|auto|cbn; lia|exact Ha1|exact Hres|exact Hk1|exact Htape|].
  cbn [fst snd nonzero Z.eqb negb].
  edestruct (debug_inst_wire 1
               (<[0%nat := 0xE0]> [0x90; HIBYTE addr; LOBYTE addr])
               [stack_byte st] a2 k2)
    as (st2 & -> & Ht2 & Hs2 & Hr2 & Hc2 & _);
    [exact Ht1|auto|cbn; lia|exact Ha2|cbn; lia|exact Hk2|exact Hr1|].
  cbn [fst snd nonzero Z.eqb negb].
  unfold bind, memcpy_out, ret. cbn [length Nat.leb drop app].
  exists st2. destruct result as [|r0 result]; [simpl in Hres; lia|].
  split; [reflexivity|]. split; [exact Ht2|].
  split; [|split; [exact Hr2|congruence]].
  rewrite Hs2, Hs1.
  change (flat_map bits_of_byte
            [0x53; 0x90; HIBYTE addr; LOBYTE addr; 0x51; 0xE0])
    with (flat_map bits_of_byte [0x53; 0x90; HIBYTE addr; LOBYTE addr]
          ++ flat_map bits_of_byte [0x51; 0xE0])%list.
  rewrite !rev_app_distr, <- !app_assoc. reflexivity.
Qed.

(** X21: A read from XDATA is two injected instructions, MOV DPTR,#addr and
    MOVX A,@DPTR (0xE0); the answer to the second one is what the caller
    gets in [result[0]]. *)
Theorem read_xdata_memory_frames (cmd : option nat) (addr : Z)
    (result : list Z) (a1 a2 : Z) (k1 k2 : nat) (rest : list bool)
    (st : state) :
  table_inv st ->
  is_byte a1 -> is_byte a2 ->
  (1 <= length result)%nat ->
  (k1 < 1000)%nat -> (k2 < 1000)%nat ->
  w_tape (hw st)
  = (repeat true k1 ++ false :: bits_of_byte a1
     ++ repeat true k2 ++ false :: bits_of_byte a2 ++ rest)%list ->
  exists st',
    cc2530_read_xdata_memory cmd addr result st
    = Done (0, a2 :: drop 1 result) st'
    /\ w_sent (hw st')
       = (rev (flat_map bits_of_byte
                 [0x53; 0x90; HIBYTE addr; LOBYTE addr;
                  0x51; 0xE0])
          ++ w_sent (hw st))%list
    /\ w_tape (hw st') = rest
    /\ console st' = console st.
Proof.
  intros Ht Ha1 Ha2 Hres Hk1 Hk2 Htape.
  destruct (read_xdata_memory_wire cmd addr result a1 a2 k1 k2 rest st
              Ht Ha1 Ha2 Hres Hk1 Hk2 Htape)
    as (st' & Hrun & _ & Hsent & Hrest & Hcons).
  exists st'. auto.
Qed.

End Memory.

(** *** Identification *)





Section Identify.

Local Abbreviation state := (state wire).

Local Existing Instance wire_backend.







End Identify.


(** *** The theorems at work *)

Lemma is_byte_0 : is_byte 0.
Proof. unfold is_byte. lia. Qed.

Lemma send_byte_msb_first_witness :
  w_driving (hw idle_wire) = true
  /\ exists h,
       send_byte (backend := wire_backend) 0xA5 idle_wire
       = Done tt (set_hw h idle_wire)
       /\ rev (w_sent h)
          = (rev (w_sent (hw idle_wire))
             ++ map (Z.testbit 0xA5) [7; 6; 5; 4; 3; 2; 1; 0])%list
       /\ w_tape h = w_tape (hw idle_wire)
       /\ w_clocks h = (w_clocks (hw idle_wire) + 8)%N.
Proof.
  exact (conj eq_refl (send_byte_msb_first 0xA5 idle_wire eq_refl)).
Defined.

Lemma read_byte_inverts_send_byte_witness :
  (is_byte 0xA5
   /\ w_driving (hw idle_wire) = true /\ w_sent (hw idle_wire) = []
   /\ send_byte (backend := wire_backend) 0xA5 idle_wire
      = Done tt (final sent_a5_run)
   /\ w_driving (hw playback_a5) = false
   /\ w_tape (hw playback_a5)
      = (rev (w_sent (hw (final sent_a5_run))) ++ [])%list)
  /\ exists h,
       read_byte (backend := wire_backend) playback_a5
       = Done 0xA5 (set_hw h playback_a5)
       /\ w_tape h = [].
Proof.
  assert (Hb : is_byte 0xA5) by (unfold is_byte; lia).
  assert (Hrun : send_byte (backend := wire_backend) 0xA5 idle_wire
                 = Done tt (final sent_a5_run))
    by (vm_compute; reflexivity).
  assert (Htape : w_tape (hw playback_a5)
                  = (rev (w_sent (hw (final sent_a5_run))) ++ [])%list)
    by (vm_compute; reflexivity).
  exact (conj (conj Hb (conj eq_refl (conj eq_refl
                 (conj Hrun (conj eq_refl Htape)))))
           (read_byte_inverts_send_byte 0xA5 idle_wire (final sent_a5_run)
              playback_a5 [] Hb eq_refl eq_refl Hrun eq_refl Htape)).
Defined.

Lemma do_cmd_frame_witness :
  let c := mk_cmd "get_chip_id" CMD_GET_CHIP 0 2 in
  (cc2530_commands chip_id_wire !! 10%nat = Some c
   /\ (Z.to_nat (cmd_in c) <= length (params_bytes None))%nat
   /\ length [0xA5; 0x24] = Z.to_nat (cmd_out c)
   /\ Forall is_byte [0xA5; 0x24]
   /\ (length [0xA5; 0x24] <= length [0; 0])%nat
   /\ (2 < 1000)%nat
   /\ w_tape (hw chip_id_wire)
      = (repeat true 2 ++ false
         :: flat_map bits_of_byte [0xA5; 0x24] ++ [])%list)
  /\ exists h,
       cc2530_do_cmd (backend := wire_backend) (Some 10%nat) None [0; 0]
         chip_id_wire
       = Done (0, ([0xA5; 0x24] ++ drop (length [0xA5; 0x24]) [0; 0])%list)
           (set_hw h chip_id_wire)
       /\ w_driving h = false
       /\ w_sent h
          = (rev (flat_map bits_of_byte
                    (opcode_byte c
                     :: take (Z.to_nat (cmd_in c)) (params_bytes None)))
             ++ w_sent (hw chip_id_wire))%list
       /\ w_tape h = []
       /\ w_clocks h
          = (w_clocks (hw chip_id_wire)
             + 8 * N.of_nat (1 + Z.to_nat (cmd_in c) + 2
                             + Z.to_nat (cmd_out c)))%N.
Proof.
  intros c.
  assert (Hin : (Z.to_nat (cmd_in c) <= length (params_bytes None))%nat)
    by (simpl; lia).
  assert (Hans : Forall is_byte [0xA5; 0x24])
    by (repeat apply List.Forall_cons; try apply List.Forall_nil;
        unfold is_byte; lia).
  assert (Hbuf : (length [0xA5; 0x24] <= length [0; 0])%nat) by (simpl; lia).
  assert (Hk : (2 < 1000)%nat) by lia.
  exact (conj (conj eq_refl (conj Hin (conj eq_refl (conj Hans
                 (conj Hbuf (conj Hk eq_refl))))))
           (do_cmd_frame 10 c None [0xA5; 0x24] [0; 0] 2 [] chip_id_wire
              eq_refl Hin eq_refl Hans Hbuf Hk eq_refl)).
Defined.

Lemma do_cmd_notices_timeout_iff_witness :
  let c := mk_cmd "read_status" CMD_RD_ST 0 1 in
  let st := initial_state slow_target 0 in
  (cc2530_commands st !! 4%nat = Some c
   /\ (Z.to_nat (cmd_in c) <= length (params_bytes None))%nat
   /\ w_tape (hw st) = (repeat true 1000 ++ false :: [])%list)
  /\ (console (final (cc2530_do_cmd (backend := wire_backend) (Some 4%nat)
                        None [0] st))
      = Stderr "timed out waiting for chip to be ready again\n" []
        :: console st
      <-> 1000%nat = 1000%nat).
Proof.
  intros c st.
  assert (Hin : (Z.to_nat (cmd_in c) <= length (params_bytes None))%nat)
    by (simpl; lia).
  exact (conj (conj eq_refl (conj Hin eq_refl))
           (do_cmd_notices_timeout_iff 4 c None [0] 1000 [] st eq_refl Hin
              eq_refl)).
Defined.

Lemma oneshot_command_overflows_result_witness :
  let c := mk_cmd "get_pc" CMD_GET_PC 0 2 in
  (find_cmd_from (cc2530_commands ready_wire) 0 "get_pc" = Some 3%nat
   /\ cc2530_commands ready_wire !! 3%nat = Some c
   /\ cmd_in c = 0 /\ 1 < cmd_out c
   /\ (0 < 1000)%nat
   /\ w_tape (hw ready_wire) = (repeat true 0 ++ false :: [])%list)
  /\ exists st',
       cc2530_oneshot_command (backend := wire_backend) None "get_pc"
         ready_wire
       = Fault st'.
Proof.
  intros c.
  assert (Ho : 1 < cmd_out c) by (simpl; lia).
  assert (Hk : (0 < 1000)%nat) by lia.
  exact (conj (conj eq_refl (conj eq_refl (conj eq_refl (conj Ho
                 (conj Hk eq_refl)))))
           (oneshot_command_overflows_result None "get_pc" 3 c 0 []
              ready_wire eq_refl eq_refl eq_refl Ho Hk eq_refl)).
Defined.

Lemma burst_write_frame_witness :
  ((0 < 1000)%nat
   /\ w_tape (hw ready_wire) = (repeat true 0 ++ false :: [])%list)
  /\ exists st',
       cc2530_burst_write (backend := wire_backend) ready_wire = Done 0 st'
       /\ w_sent (hw st')
          = (rev (flat_map bits_of_byte
                    (0x84 :: 0x00
                     :: map (fwdata ready_wire)
                          (cursor_indices (Z.to_nat PROG_BLOCK_SIZE)
                             (flash_ptr ready_wire))))
             ++ w_sent (hw ready_wire))%list
       /\ w_tape (hw st') = drop 8 []
       /\ flash_ptr st'
          = cursor_after (Z.to_nat PROG_BLOCK_SIZE) (flash_ptr ready_wire)
       /\ fwdata st' = fwdata ready_wire
       /\ console st' = console ready_wire.
Proof.
  assert (Hk : (0 < 1000)%nat) by lia.
  exact (conj (conj Hk eq_refl)
           (burst_write_frame 0 [] ready_wire Hk eq_refl)).
Defined.

Lemma write_xdata_memory_frames_witness :
  (table_inv three_answers_wire
   /\ is_byte 0 /\ is_byte 0 /\ is_byte 0
   /\ (0 < 1000)%nat /\ (0 < 1000)%nat /\ (0 < 1000)%nat
   /\ w_tape (hw three_answers_wire)
      = (repeat true 0 ++ false :: bits_of_byte 0
         ++ repeat true 0 ++ false :: bits_of_byte 0
         ++ repeat true 0 ++ false :: bits_of_byte 0 ++ [])%list)
  /\ exists st',
       cc2530_write_xdata_memory (backend := wire_backend) None X_MEMCTR 1
         three_answers_wire
       = Done 0 st'
       /\ w_sent (hw st')
          = (rev (flat_map bits_of_byte
                    [0x53; 0x90; HIBYTE X_MEMCTR; LOBYTE X_MEMCTR;
                     0x52; 0x74; 1;
                     0x51; 0xF0])
             ++ w_sent (hw three_answers_wire))%list
       /\ w_tape (hw st') = []
       /\ console st' = console three_answers_wire.
Proof.
  assert (Ht : table_inv three_answers_wire) by apply table_kept_refl.
  assert (Hk : (0 < 1000)%nat) by lia.
  exact (conj (conj Ht (conj is_byte_0 (conj is_byte_0 (conj is_byte_0
                 (conj Hk (conj Hk (conj Hk eq_refl)))))))
           (write_xdata_memory_frames None X_MEMCTR 1 0 0 0 0 0 0 []
              three_answers_wire Ht is_byte_0 is_byte_0 is_byte_0 Hk Hk Hk
              eq_refl)).
Defined.

Lemma read_xdata_memory_frames_witness :
  (table_inv two_answers_wire
   /\ is_byte 0 /\ is_byte 0x5A
   /\ (1 <= length [0])%nat
   /\ (0 < 1000)%nat /\ (0 < 1000)%nat
   /\ w_tape (hw two_answers_wire)
      = (repeat true 0 ++ false :: bits_of_byte 0
         ++ repeat true 0 ++ false :: bits_of_byte 0x5A ++ [])%list)
  /\ exists st',
       cc2530_read_xdata_memory (backend := wire_backend) None FCTL [0]
         two_answers_wire
       = Done (0, 0x5A :: drop 1 [0]) st'
       /\ w_sent (hw st')
          = (rev (flat_map bits_of_byte
                    [0x53; 0x90; HIBYTE FCTL; LOBYTE FCTL;
                     0x51; 0xE0])
             ++ w_sent (hw two_answers_wire))%list
       /\ w_tape (hw st') = []
       /\ console st' = console two_answers_wire.
Proof.
  assert (Ht : table_inv two_answers_wire) by apply table_kept_refl.
  assert (Hb : is_byte 0x5A) by (unfold is_byte; lia).
  assert (Hl : (1 <= length [0])%nat) by (simpl; lia).
  assert (Hk : (0 < 1000)%nat) by lia.
  exact (conj (conj Ht (conj is_byte_0 (conj Hb (conj Hl
                 (conj Hk (conj Hk eq_refl))))))
           (read_xdata_memory_frames None FCTL [0] 0 0x5A 0 0 []
              two_answers_wire Ht is_byte_0 Hb Hl Hk Hk eq_refl)).
Defined.

(** ** The sysfs backend *)

Lemma remove_first_head (fd : Z) (l : list Z) :
  remove_first fd (fd :: l) = l.
Proof. simpl. rewrite Z.eqb_refl. reflexivity. Qed.

Lemma head_substring (k : nat) (s : string) :
  (0 < k)%nat -> head_char (substring 0 k s) = head_char s.
Proof. intros Hk. destruct k; [lia|]. destruct s; reflexivity. Qed.

Lemma prefix_char (c : ascii) (s : string) :
  c <> NUL ->
  String.prefix (String c EmptyString) s = Ascii.eqb (head_char s) c.
Proof.
  intros Hc. destruct s as [|c1 s]; cbn [String.prefix head_char].
  - symmetry. apply Ascii.eqb_neq. congruence.
  - destruct (ascii_dec c c1) as [<-|Hne].
    + rewrite Ascii.eqb_refl. destruct s; reflexivity.
    + symmetry. apply Ascii.eqb_neq. congruence.
Qed.

Section SysfsFacts.

Variable sys : system.
Variable fmt_d : Z -> string.

Lemma write_file_fds (path str : string) (log : list syscall) :
  open_fds sys (snd (Sysfs.write_file sys path str log)) = open_fds sys log.
Proof.
  unfold Sysfs.write_file, Sysfs.sys_open, Sysfs.sys_write.
  destruct (open_result sys log path O_WRONLY <? 0) eqn:E.
  - cbn [snd open_fds]. rewrite E. reflexivity.
  - destruct (write_result sys _ _ _) as [ret errno].
    destruct (ret <? 0); [destruct (errno =? EBUSY)|];
      cbn [snd open_fds]; rewrite E; apply remove_first_head.
Qed.

Lemma read_file_fds (path str : string) (size : Z) (log : list syscall) :
  open_fds sys (snd (Sysfs.read_file sys path str size log))
  = open_fds sys log.
Proof.
  unfold Sysfs.read_file, Sysfs.sys_open, Sysfs.sys_read.
  destruct (open_result sys log path O_RDONLY <? 0) eqn:E.
  - cbn [snd open_fds]. rewrite E. reflexivity.
  - destruct (read_result sys _ _ _); cbn [option_map snd open_fds];
      rewrite E; apply remove_first_head.
Qed.

(** X22: No call of the backend leaks a descriptor: each closes the file it has
    opened, on every path, so the descriptors open after the call are those
    open before it. *)
Theorem sysfs_calls_close_their_file (n : Z) (d : gpio_direction)
    (v : bool) (log : list syscall) :
  open_fds sys (snd (Sysfs.gpio_export sys fmt_d n log)) = open_fds sys log
  /\ open_fds sys (snd (Sysfs.gpio_unexport sys fmt_d n log))
     = open_fds sys log
  /\ open_fds sys (snd (Sysfs.gpio_set_direction sys fmt_d n d log))
     = open_fds sys log
  /\ open_fds sys (snd (Sysfs.gpio_get_value sys fmt_d n v log))
     = open_fds sys log
  /\ open_fds sys (snd (Sysfs.gpio_set_value sys fmt_d n v log))
     = open_fds sys log.
Proof.
  repeat split; try apply write_file_fds.
  unfold Sysfs.gpio_get_value.
  match goal with
  | |- context [Sysfs.read_file sys ?p ?s ?z log] =>
      pose proof (read_file_fds p s z log) as H;
      destruct (Sysfs.read_file sys p s z log) as [rb log']
  end.
  destruct (fst rb <? 0); exact H.
Qed.

(** X23: [write_file] returns 0 when the file could be opened and the write went
    through or failed with [EBUSY], and -1 otherwise; for [EBUSY] it prints
    nothing. *)
Theorem write_file_tolerates_ebusy (path str : string)
    (log : list syscall) :
  let fd := open_result sys log path O_WRONLY in
  let bytes := substring 0 (strlen str) str in
  let w := write_result sys (Sys_open path O_WRONLY :: log) fd bytes in
  (fst (Sysfs.write_file sys path str log) = 0
   \/ fst (Sysfs.write_file sys path str log) = -1)
  /\ (fst (Sysfs.write_file sys path str log) = 0
      <-> 0 <= fd /\ (0 <= fst w \/ snd w = EBUSY))
  /\ (0 <= fd -> fst w < 0 -> snd w = EBUSY ->
      snd (Sysfs.write_file sys path str log)
      = [Sys_close fd; Sys_write fd bytes; Sys_open path O_WRONLY]
        ++ log)%list.
Proof.
  intros fd bytes w.
  unfold Sysfs.write_file, Sysfs.sys_open, Sysfs.sys_write.
  fold fd. fold bytes. fold w.
  destruct (Z.ltb_spec fd 0) as [Hfd|Hfd].
  - cbn [fst snd]. repeat split; intros; auto; try lia; discriminate.
  - destruct w as [ret errno]. cbn [fst snd].
    destruct (Z.ltb_spec ret 0) as [Hret|Hret];
      [destruct (Z.eqb_spec errno EBUSY) as [He|He]|].
    + cbn [fst snd Z.ltb Z.compare]. repeat split; auto.
    + destruct (Z.ltb_spec ret 0) as [_|]; [|lia]. cbn [fst snd].
      repeat split; intros; auto; try lia; try discriminate.
    + destruct (Z.ltb_spec ret 0) as [|_]; [lia|]. cbn [fst snd].
      repeat split; intros; auto; lia.
Qed.

(** X24: [gpio_get_value] asks for at most 127 bytes and decides on the first
    one: the value is false when it is the character 0 and true otherwise,
    also when nothing could be read at all.  When the file cannot be opened
    or read the call returns -1 and [*value] is as it was. *)
Theorem gpio_get_value_decodes (n : Z) (value : bool) (log : list syscall) :
  let path :=
    Sysfs.snprintf 128 (SYSFS_GPIO ++ "/gpio" ++ fmt_d n ++ "/value") in
  let fd := open_result sys log path O_RDONLY in
  let r := read_result sys (Sys_open path O_RDONLY :: log) fd 127 in
  let res := fst (Sysfs.gpio_get_value sys fmt_d n value log) in
  (fd < 0 -> res = (-1, value))
  /\ (0 <= fd -> r = None -> res = (-1, value))
  /\ (forall bytes, 0 <= fd -> r = Some bytes ->
        res = (0, negb (String.prefix "0" bytes))).
Proof.
  intros path fd r res. unfold res, Sysfs.gpio_get_value.
  fold path. unfold Sysfs.read_file, Sysfs.sys_open, Sysfs.sys_read.
  fold fd. change (128 - 1) with 127. fold r.
  destruct (Z.ltb_spec fd 0) as [Hfd|Hfd].
  - cbn [fst snd]. repeat split; intros; lia.
  - destruct r as [bytes|]; cbn [option_map fst snd Z.ltb Z.compare].
    + split; [lia|]. split; [discriminate|].
      intros b _ [= <-]. f_equal. f_equal.
      rewrite head_substring by (vm_compute; lia).
      symmetry. apply prefix_char. discriminate.
    + split; [lia|]. split; [reflexivity|]. intros b _ H. discriminate H.
Qed.

End SysfsFacts.

(** ** The option loop *)

Lemma getopt_case_flags (o : options) (opt : Z) (optarg : option string) :
  let inv := fun o =>
    is_flag (opt_verbose o) /\ is_flag (opt_progress o)
    /\ is_flag (do_readback o) /\ is_flag (do_list o)
    /\ is_flag (do_identify o)
    /\ (do_identify o = 1 -> opt_verbose o = 1) in
  inv o -> inv (getopt_case o opt optarg)
           /\ argc (getopt_case o opt optarg) = argc o.
Proof.
  intros inv (Hv & Hp & Hr & Hl & Hi & Hiv). unfold getopt_case, inv, is_flag.
  repeat match goal with
         | |- context [if ?b then _ else _] => destruct b
         end;
    cbn [argc opt_verbose opt_progress do_readback do_list do_identify];
    auto 10.
Qed.

(** X25: Whatever [getopt] returns, the loop leaves [argc] alone and 0 or 1 in
    each flag, and [do_identify] is set only together with [verbose]: [-i]
    implies [-v]. *)
Theorem getopt_loop_identify_sets_verbose (n : Z)
    (rets : list (Z * option string)) :
  let o := main_options n rets in
  argc o = n
  /\ is_flag (opt_verbose o) /\ is_flag (opt_progress o)
  /\ is_flag (do_readback o) /\ is_flag (do_list o)
  /\ is_flag (do_identify o)
  /\ (do_identify o = 1 -> opt_verbose o = 1).
Proof.
  unfold main_options.
  assert (H : forall o,
            is_flag (opt_verbose o) /\ is_flag (opt_progress o)
            /\ is_flag (do_readback o) /\ is_flag (do_list o)
            /\ is_flag (do_identify o)
            /\ (do_identify o = 1 -> opt_verbose o = 1) ->
            argc (getopt_loop o rets) = argc o
            /\ is_flag (opt_verbose (getopt_loop o rets))
            /\ is_flag (opt_progress (getopt_loop o rets))
            /\ is_flag (do_readback (getopt_loop o rets))
            /\ is_flag (do_list (getopt_loop o rets))
            /\ is_flag (do_identify (getopt_loop o rets))
            /\ (do_identify (getopt_loop o rets) = 1 ->
                opt_verbose (getopt_loop o rets) = 1)).
  { induction rets as [|[opt optarg] rets IH]; intros o Ho.
    - split; [reflexivity|exact Ho].
    - cbn [getopt_loop]. destruct (0 <? opt); [|split; [reflexivity|exact Ho]].
      destruct (getopt_case_flags o opt optarg Ho) as [Ho' Ha].
      destruct (IH _ Ho') as [Ha' Hrest]. split; [congruence|exact Hrest]. }
  apply H. unfold is_flag. cbn. auto 10.
Qed.
